(** * api-smtp: the dispatch-and-ingestion pipeline

    A shallow embedding of [main.py] (outbound path: attachment typing, MIME
    assembly, SMTP dispatch, result persistence), [email_receiver.py]
    (inbound path: polling cycle, persistence, listing, search, statistics)
    and [mcp_server.py] (priority heuristic), with the properties the
    specification states about them.

    Conventions of the model.
    - A Python [str] is a [string] of bytes, its UTF-8 encoding; [lower]
      and [repr] go through the code points, with the tables of Unicode
      14.0.0 that CPython 3.11 carries.
    - A value read from JSON (a message, a MailDev payload) is a [json];
      a Python exception is an [exn], and a call that can raise returns a
      [result].
    - The collaborators outside the repository (MinIO, the SMTP relay,
      MailDev, the clock, the local disk) are records of outcomes the code
      is run against. *)

From Stdlib Require Import ZArith Lia Ascii String.
From stdpp Require Import gmap strings list.

Local Open Scope string_scope.
Set Warnings "-register-all".
#[local] Arguments String.append : simpl nomatch.

(** ** Values and exceptions *)

(** What [json.loads] returns (and what the code builds with dict and list
    displays).  A dict keeps its items in insertion order; keys are unique;
    a float is kept as the text that [repr] gives it. *)
Inductive json : Type :=
  | JNull
  | JBool (b : bool)
  | JInt (z : Z)
  | JFloat (literal : string)
  | JStr (s : string)
  | JList (items : list json)
  | JDict (items : list (string * json)).

(** The exception classes the two modules can meet, with the part of the
    class hierarchy of Python and [smtplib] that the handlers depend on
    ([ConnectionRefusedError] derives from [OSError] through
    [ConnectionError]).  Every class of the model derives from
    [Exception]: interrupts and cancellation are outside it. *)
Inductive exn_class : Type :=
  | Exception_
  | OSError_
  | ConnectionRefusedError
  | SMTPException
  | SMTPServerDisconnected
  | SMTPNotSupportedError
  | SMTPRecipientsRefused
  | SMTPResponseException
  | SMTPSenderRefused
  | SMTPDataError
  | SMTPConnectError
  | SMTPHeloError
  | SMTPAuthenticationError
  | LookupError_
  | KeyError
  | IndexError
  | ValueError
  | UnicodeDecodeError
  | JSONDecodeError
  | AttributeError
  | TypeError
  | S3Error
  | ClientError.

Definition base_class (c : exn_class) : option exn_class :=
  match c with
  | Exception_ => None
  | OSError_ => Some Exception_
  | ConnectionRefusedError => Some OSError_
  | SMTPException => Some OSError_
  | SMTPServerDisconnected => Some SMTPException
  | SMTPNotSupportedError => Some SMTPException
  | SMTPRecipientsRefused => Some SMTPException
  | SMTPResponseException => Some SMTPException
  | SMTPSenderRefused => Some SMTPResponseException
  | SMTPDataError => Some SMTPResponseException
  | SMTPConnectError => Some SMTPResponseException
  | SMTPHeloError => Some SMTPResponseException
  | SMTPAuthenticationError => Some SMTPResponseException
  | LookupError_ => Some Exception_
  | KeyError => Some LookupError_
  | IndexError => Some LookupError_
  | ValueError => Some Exception_
  | UnicodeDecodeError => Some ValueError
  | JSONDecodeError => Some ValueError
  | AttributeError => Some Exception_
  | TypeError => Some Exception_
  | S3Error => Some Exception_
  | ClientError => Some Exception_
  end.

Global Instance exn_class_eq_dec : EqDecision exn_class.
Proof. solve_decision. Defined.

(** [issubclass(c, d)]; the hierarchy above is less than six levels deep. *)
Fixpoint issubclass_fuel (fuel : nat) (c d : exn_class) : bool :=
  if decide (c = d) then true
  else match fuel, base_class c with
       | S f, Some b => issubclass_fuel f b d
       | _, _ => false
       end.

Definition issubclass : exn_class -> exn_class -> bool := issubclass_fuel 6.

(** A raised exception: its class and [str(e)]. *)
Record exn : Type := Exn { exn_cls : exn_class; exn_str : string }.

Definition isinstance (e : exn) (c : exn_class) : bool :=
  issubclass (exn_cls e) c.

Inductive result (A : Type) : Type :=
  | Ok (a : A)
  | Raise (e : exn).
Arguments Ok {A} a.
Arguments Raise {A} e.

Global Instance result_ret : MRet result := fun A a => Ok a.
Global Instance result_bind : MBind result := fun A B k r =>
  match r with
  | Ok a => k a
  | Raise e => Raise e
  end.

(** ** Numbers in text *)

Module Digits.

Definition digit (n : N) : ascii := ascii_of_N (48 + n).

Fixpoint digits_fuel (fuel : nat) (n : N) (acc : string) : string :=
  match fuel with
  | O => acc
  | S f =>
      let acc' := String (digit (n mod 10)) acc in
      if (n <? 10)%N then acc' else digits_fuel f (n / 10) acc'
  end.

(** [str(n)] for a natural number *)
Definition str_of_N (n : N) : string := digits_fuel (S (N.to_nat (N.log2 n))) n "".

Definition hex_digit (n : N) : ascii :=
  if (n <? 10)%N then ascii_of_N (48 + n) else ascii_of_N (87 + n).

(** [%02x] of a byte *)
Definition hex2 (n : N) : string :=
  String (hex_digit (n / 16)) (String (hex_digit (n mod 16)) "").

End Digits.

(** ** UTF-8 *)

Module Utf8.

Definition between (lo hi b : N) : bool := (lo <=? b)%N && (b <=? hi)%N.

Definition continuation (b : N) : bool := between 128 191 b.

(** Whether [b] can follow the lead byte [a]: a continuation byte that
    makes neither an overlong form, nor a surrogate, nor a code point past
    U+10FFFF. *)
Definition second_fits (a b : N) : bool :=
  continuation b
  && (if (a =? 224)%N then (160 <=? b)%N
      else if (a =? 237)%N then (b <? 160)%N
      else if (a =? 240)%N then (144 <=? b)%N
      else if (a =? 244)%N then (b <? 144)%N
      else true).

(** What [bytes.decode('utf-8')] reports of the first sequence it refuses:
    where it starts, how many bytes the report covers, its first byte and
    the reason. *)
Record flaw : Type := Flaw {
  flaw_start : N;
  flaw_length : N;
  flaw_byte : N;
  flaw_reason : string
}.

Fixpoint first_flaw (pos : N) (l : list N) : option flaw :=
  match l with
  | [] => None
  | a :: r1 =>
      if (a <? 128)%N then first_flaw (pos + 1) r1
      else if (a <? 194)%N || (244 <? a)%N then Some (Flaw pos 1 a "invalid start byte")
      else match r1 with
      | [] => Some (Flaw pos 1 a "unexpected end of data")
      | b :: r2 =>
          if negb (second_fits a b) then Some (Flaw pos 1 a "invalid continuation byte")
          else if (a <? 224)%N then first_flaw (pos + 2) r2
          else match r2 with
          | [] => Some (Flaw pos 2 a "unexpected end of data")
          | c :: r3 =>
              if negb (continuation c) then Some (Flaw pos 2 a "invalid continuation byte")
              else if (a <? 240)%N then first_flaw (pos + 3) r3
              else match r3 with
              | [] => Some (Flaw pos 3 a "unexpected end of data")
              | d :: r4 =>
                  if negb (continuation d)
                  then Some (Flaw pos 3 a "invalid continuation byte")
                  else first_flaw (pos + 4) r4
              end
          end
      end
  end.

(** Whether the bytes are well-formed UTF-8, which is when
    [bytes.decode('utf-8')] does not raise. *)
Definition valid (l : list N) : bool :=
  match first_flaw 0 l with
  | None => true
  | Some _ => false
  end.

Fixpoint bytes_of (s : string) : list N :=
  match s with
  | EmptyString => []
  | String c r => N_of_ascii c :: bytes_of r
  end.

Fixpoint string_of (l : list N) : string :=
  match l with
  | [] => EmptyString
  | b :: r => String (ascii_of_N b) (string_of r)
  end.

(** [str(e)] of the [UnicodeDecodeError] *)
Definition error_text (f : flaw) : string :=
  "'utf-8' codec can't decode "
  +:+ (if (flaw_length f =? 1)%N
       then "byte 0x" +:+ Digits.hex2 (flaw_byte f) +:+ " in position "
            +:+ Digits.str_of_N (flaw_start f)
       else "bytes in position " +:+ Digits.str_of_N (flaw_start f) +:+ "-"
            +:+ Digits.str_of_N (flaw_start f + flaw_length f - 1))
  +:+ ": " +:+ flaw_reason f.

(** [b.decode('utf-8')]: the text, which the model keeps as its bytes. *)
Definition decode (b : string) : result string :=
  match first_flaw 0 (bytes_of b) with
  | None => Ok b
  | Some f => Raise (Exn UnicodeDecodeError (error_text f))
  end.

Fixpoint is_ascii (s : string) : bool :=
  match s with
  | EmptyString => true
  | String c r => (N_of_ascii c <? 128)%N && is_ascii r
  end.

(** The code points of well-formed UTF-8 bytes. *)
Fixpoint code_points (l : list N) : option (list N) :=
  match l with
  | [] => Some []
  | a :: r1 =>
      if (a <? 128)%N then cons a <$> code_points r1
      else if (a <? 194)%N || (244 <? a)%N then None
      else match r1 with
      | [] => None
      | b :: r2 =>
          if negb (second_fits a b) then None
          else if (a <? 224)%N
          then cons ((a - 192) * 64 + (b - 128))%N <$> code_points r2
          else match r2 with
          | [] => None
          | c :: r3 =>
              if negb (continuation c) then None
              else if (a <? 240)%N
              then cons ((a - 224) * 4096 + (b - 128) * 64 + (c - 128))%N <$> code_points r3
              else match r3 with
              | [] => None
              | d :: r4 =>
                  if negb (continuation d) then None
                  else cons ((a - 240) * 262144 + (b - 128) * 4096 + (c - 128) * 64
                             + (d - 128))%N <$> code_points r4
              end
          end
      end
  end.

(** The UTF-8 bytes of a code point. *)
Definition encode (c : N) : list N :=
  if (c <? 128)%N then [c]
  else if (c <? 2048)%N then [192 + c / 64; 128 + c mod 64]%N
  else if (c <? 65536)%N
  then [224 + c / 4096; 128 + (c / 64) mod 64; 128 + c mod 64]%N
  else [240 + c / 262144; 128 + (c / 4096) mod 64; 128 + (c / 64) mod 64;
        128 + c mod 64]%N.

End Utf8.

(** ** Unicode: what [str.lower] looks up

    The case mappings and the two properties the rule of the final sigma
    needs, as the Unicode Character Database (version 14.0.0, the one of
    CPython 3.11) gives them.  A run [(lo, hi, step, to)] maps the code
    points [lo], [lo + step], ... up to [hi] onto [to], [to + step], ...;
    the other tables are ranges of code points.  With them, the code
    points that [repr] writes as escapes. *)

Module Unicode.

Definition lower_runs : list (N * N * N * N) :=
  [(0x41, 0x5A, 1, 0x61); (0xC0, 0xD6, 1, 0xE0); (0xD8, 0xDE, 1, 0xF8); (0x100, 0x12E, 2, 0x101);
   (0x132, 0x136, 2, 0x133); (0x139, 0x147, 2, 0x13A); (0x14A, 0x176, 2, 0x14B); (0x178, 0x178, 1, 0xFF);
   (0x179, 0x17D, 2, 0x17A); (0x181, 0x181, 1, 0x253); (0x182, 0x184, 2, 0x183); (0x186, 0x186, 1, 0x254);
   (0x187, 0x187, 1, 0x188); (0x189, 0x18A, 1, 0x256); (0x18B, 0x18B, 1, 0x18C); (0x18E, 0x18E, 1, 0x1DD);
   (0x18F, 0x18F, 1, 0x259); (0x190, 0x190, 1, 0x25B); (0x191, 0x191, 1, 0x192); (0x193, 0x193, 1, 0x260);
   (0x194, 0x194, 1, 0x263); (0x196, 0x196, 1, 0x269); (0x197, 0x197, 1, 0x268); (0x198, 0x198, 1, 0x199);
   (0x19C, 0x19C, 1, 0x26F); (0x19D, 0x19D, 1, 0x272); (0x19F, 0x19F, 1, 0x275); (0x1A0, 0x1A4, 2, 0x1A1);
   (0x1A6, 0x1A6, 1, 0x280); (0x1A7, 0x1A7, 1, 0x1A8); (0x1A9, 0x1A9, 1, 0x283); (0x1AC, 0x1AC, 1, 0x1AD);
   (0x1AE, 0x1AE, 1, 0x288); (0x1AF, 0x1AF, 1, 0x1B0); (0x1B1, 0x1B2, 1, 0x28A); (0x1B3, 0x1B5, 2, 0x1B4);
   (0x1B7, 0x1B7, 1, 0x292); (0x1B8, 0x1B8, 1, 0x1B9); (0x1BC, 0x1BC, 1, 0x1BD); (0x1C4, 0x1C4, 1, 0x1C6);
   (0x1C5, 0x1C5, 1, 0x1C6); (0x1C7, 0x1C7, 1, 0x1C9); (0x1C8, 0x1C8, 1, 0x1C9); (0x1CA, 0x1CA, 1, 0x1CC);
   (0x1CB, 0x1DB, 2, 0x1CC); (0x1DE, 0x1EE, 2, 0x1DF); (0x1F1, 0x1F1, 1, 0x1F3); (0x1F2, 0x1F4, 2, 0x1F3);
   (0x1F6, 0x1F6, 1, 0x195); (0x1F7, 0x1F7, 1, 0x1BF); (0x1F8, 0x21E, 2, 0x1F9); (0x220, 0x220, 1, 0x19E);
   (0x222, 0x232, 2, 0x223); (0x23A, 0x23A, 1, 0x2C65); (0x23B, 0x23B, 1, 0x23C); (0x23D, 0x23D, 1, 0x19A);
   (0x23E, 0x23E, 1, 0x2C66); (0x241, 0x241, 1, 0x242); (0x243, 0x243, 1, 0x180); (0x244, 0x244, 1, 0x289);
   (0x245, 0x245, 1, 0x28C); (0x246, 0x24E, 2, 0x247); (0x370, 0x372, 2, 0x371); (0x376, 0x376, 1, 0x377);
   (0x37F, 0x37F, 1, 0x3F3); (0x386, 0x386, 1, 0x3AC); (0x388, 0x38A, 1, 0x3AD); (0x38C, 0x38C, 1, 0x3CC);
   (0x38E, 0x38F, 1, 0x3CD); (0x391, 0x3A1, 1, 0x3B1); (0x3A3, 0x3AB, 1, 0x3C3); (0x3CF, 0x3CF, 1, 0x3D7);
   (0x3D8, 0x3EE, 2, 0x3D9); (0x3F4, 0x3F4, 1, 0x3B8); (0x3F7, 0x3F7, 1, 0x3F8); (0x3F9, 0x3F9, 1, 0x3F2);
   (0x3FA, 0x3FA, 1, 0x3FB); (0x3FD, 0x3FF, 1, 0x37B); (0x400, 0x40F, 1, 0x450); (0x410, 0x42F, 1, 0x430);
   (0x460, 0x480, 2, 0x461); (0x48A, 0x4BE, 2, 0x48B); (0x4C0, 0x4C0, 1, 0x4CF); (0x4C1, 0x4CD, 2, 0x4C2);
   (0x4D0, 0x52E, 2, 0x4D1); (0x531, 0x556, 1, 0x561); (0x10A0, 0x10C5, 1, 0x2D00); (0x10C7, 0x10C7, 1, 0x2D27);
   (0x10CD, 0x10CD, 1, 0x2D2D); (0x13A0, 0x13EF, 1, 0xAB70); (0x13F0, 0x13F5, 1, 0x13F8); (0x1C90, 0x1CBA, 1, 0x10D0);
   (0x1CBD, 0x1CBF, 1, 0x10FD); (0x1E00, 0x1E94, 2, 0x1E01); (0x1E9E, 0x1E9E, 1, 0xDF); (0x1EA0, 0x1EFE, 2, 0x1EA1);
   (0x1F08, 0x1F0F, 1, 0x1F00); (0x1F18, 0x1F1D, 1, 0x1F10); (0x1F28, 0x1F2F, 1, 0x1F20); (0x1F38, 0x1F3F, 1, 0x1F30);
   (0x1F48, 0x1F4D, 1, 0x1F40); (0x1F59, 0x1F5F, 2, 0x1F51); (0x1F68, 0x1F6F, 1, 0x1F60); (0x1F88, 0x1F8F, 1, 0x1F80);
   (0x1F98, 0x1F9F, 1, 0x1F90); (0x1FA8, 0x1FAF, 1, 0x1FA0); (0x1FB8, 0x1FB9, 1, 0x1FB0); (0x1FBA, 0x1FBB, 1, 0x1F70);
   (0x1FBC, 0x1FBC, 1, 0x1FB3); (0x1FC8, 0x1FCB, 1, 0x1F72); (0x1FCC, 0x1FCC, 1, 0x1FC3); (0x1FD8, 0x1FD9, 1, 0x1FD0);
   (0x1FDA, 0x1FDB, 1, 0x1F76); (0x1FE8, 0x1FE9, 1, 0x1FE0); (0x1FEA, 0x1FEB, 1, 0x1F7A); (0x1FEC, 0x1FEC, 1, 0x1FE5);
   (0x1FF8, 0x1FF9, 1, 0x1F78); (0x1FFA, 0x1FFB, 1, 0x1F7C); (0x1FFC, 0x1FFC, 1, 0x1FF3); (0x2126, 0x2126, 1, 0x3C9);
   (0x212A, 0x212A, 1, 0x6B); (0x212B, 0x212B, 1, 0xE5); (0x2132, 0x2132, 1, 0x214E); (0x2160, 0x216F, 1, 0x2170);
   (0x2183, 0x2183, 1, 0x2184); (0x24B6, 0x24CF, 1, 0x24D0); (0x2C00, 0x2C2F, 1, 0x2C30); (0x2C60, 0x2C60, 1, 0x2C61);
   (0x2C62, 0x2C62, 1, 0x26B); (0x2C63, 0x2C63, 1, 0x1D7D); (0x2C64, 0x2C64, 1, 0x27D); (0x2C67, 0x2C6B, 2, 0x2C68);
   (0x2C6D, 0x2C6D, 1, 0x251); (0x2C6E, 0x2C6E, 1, 0x271); (0x2C6F, 0x2C6F, 1, 0x250); (0x2C70, 0x2C70, 1, 0x252);
   (0x2C72, 0x2C72, 1, 0x2C73); (0x2C75, 0x2C75, 1, 0x2C76); (0x2C7E, 0x2C7F, 1, 0x23F); (0x2C80, 0x2CE2, 2, 0x2C81);
   (0x2CEB, 0x2CED, 2, 0x2CEC); (0x2CF2, 0x2CF2, 1, 0x2CF3); (0xA640, 0xA66C, 2, 0xA641); (0xA680, 0xA69A, 2, 0xA681);
   (0xA722, 0xA72E, 2, 0xA723); (0xA732, 0xA76E, 2, 0xA733); (0xA779, 0xA77B, 2, 0xA77A); (0xA77D, 0xA77D, 1, 0x1D79);
   (0xA77E, 0xA786, 2, 0xA77F); (0xA78B, 0xA78B, 1, 0xA78C); (0xA78D, 0xA78D, 1, 0x265); (0xA790, 0xA792, 2, 0xA791);
   (0xA796, 0xA7A8, 2, 0xA797); (0xA7AA, 0xA7AA, 1, 0x266); (0xA7AB, 0xA7AB, 1, 0x25C); (0xA7AC, 0xA7AC, 1, 0x261);
   (0xA7AD, 0xA7AD, 1, 0x26C); (0xA7AE, 0xA7AE, 1, 0x26A); (0xA7B0, 0xA7B0, 1, 0x29E); (0xA7B1, 0xA7B1, 1, 0x287);
   (0xA7B2, 0xA7B2, 1, 0x29D); (0xA7B3, 0xA7B3, 1, 0xAB53); (0xA7B4, 0xA7C2, 2, 0xA7B5); (0xA7C4, 0xA7C4, 1, 0xA794);
   (0xA7C5, 0xA7C5, 1, 0x282); (0xA7C6, 0xA7C6, 1, 0x1D8E); (0xA7C7, 0xA7C9, 2, 0xA7C8); (0xA7D0, 0xA7D0, 1, 0xA7D1);
   (0xA7D6, 0xA7D8, 2, 0xA7D7); (0xA7F5, 0xA7F5, 1, 0xA7F6); (0xFF21, 0xFF3A, 1, 0xFF41); (0x10400, 0x10427, 1, 0x10428);
   (0x104B0, 0x104D3, 1, 0x104D8); (0x10570, 0x1057A, 1, 0x10597); (0x1057C, 0x1058A, 1, 0x105A3); (0x1058C, 0x10592, 1, 0x105B3);
   (0x10594, 0x10595, 1, 0x105BB); (0x10C80, 0x10CB2, 1, 0x10CC0); (0x118A0, 0x118BF, 1, 0x118C0); (0x16E40, 0x16E5F, 1, 0x16E60);
   (0x1E900, 0x1E921, 1, 0x1E922)]%N.

Definition cased_ranges : list (N * N) :=
  [(0x41, 0x5A); (0x61, 0x7A); (0xAA, 0xAA); (0xB5, 0xB5); (0xBA, 0xBA); (0xC0, 0xD6);
   (0xD8, 0xF6); (0xF8, 0x1BA); (0x1BC, 0x1BF); (0x1C4, 0x293); (0x295, 0x2B8); (0x2C0, 0x2C1);
   (0x2E0, 0x2E4); (0x345, 0x345); (0x370, 0x373); (0x376, 0x377); (0x37A, 0x37D); (0x37F, 0x37F);
   (0x386, 0x386); (0x388, 0x38A); (0x38C, 0x38C); (0x38E, 0x3A1); (0x3A3, 0x3F5); (0x3F7, 0x481);
   (0x48A, 0x52F); (0x531, 0x556); (0x560, 0x588); (0x10A0, 0x10C5); (0x10C7, 0x10C7); (0x10CD, 0x10CD);
   (0x10D0, 0x10FA); (0x10FD, 0x10FF); (0x13A0, 0x13F5); (0x13F8, 0x13FD); (0x1C80, 0x1C88); (0x1C90, 0x1CBA);
   (0x1CBD, 0x1CBF); (0x1D00, 0x1DBF); (0x1E00, 0x1F15); (0x1F18, 0x1F1D); (0x1F20, 0x1F45); (0x1F48, 0x1F4D);
   (0x1F50, 0x1F57); (0x1F59, 0x1F59); (0x1F5B, 0x1F5B); (0x1F5D, 0x1F5D); (0x1F5F, 0x1F7D); (0x1F80, 0x1FB4);
   (0x1FB6, 0x1FBC); (0x1FBE, 0x1FBE); (0x1FC2, 0x1FC4); (0x1FC6, 0x1FCC); (0x1FD0, 0x1FD3); (0x1FD6, 0x1FDB);
   (0x1FE0, 0x1FEC); (0x1FF2, 0x1FF4); (0x1FF6, 0x1FFC); (0x2071, 0x2071); (0x207F, 0x207F); (0x2090, 0x209C);
   (0x2102, 0x2102); (0x2107, 0x2107); (0x210A, 0x2113); (0x2115, 0x2115); (0x2119, 0x211D); (0x2124, 0x2124);
   (0x2126, 0x2126); (0x2128, 0x2128); (0x212A, 0x212D); (0x212F, 0x2134); (0x2139, 0x2139); (0x213C, 0x213F);
   (0x2145, 0x2149); (0x214E, 0x214E); (0x2160, 0x217F); (0x2183, 0x2184); (0x24B6, 0x24E9); (0x2C00, 0x2CE4);
   (0x2CEB, 0x2CEE); (0x2CF2, 0x2CF3); (0x2D00, 0x2D25); (0x2D27, 0x2D27); (0x2D2D, 0x2D2D); (0xA640, 0xA66D);
   (0xA680, 0xA69D); (0xA722, 0xA787); (0xA78B, 0xA78E); (0xA790, 0xA7CA); (0xA7D0, 0xA7D1); (0xA7D3, 0xA7D3);
   (0xA7D5, 0xA7D9); (0xA7F5, 0xA7F6); (0xA7F8, 0xA7FA); (0xAB30, 0xAB5A); (0xAB5C, 0xAB68); (0xAB70, 0xABBF);
   (0xFB00, 0xFB06); (0xFB13, 0xFB17); (0xFF21, 0xFF3A); (0xFF41, 0xFF5A); (0x10400, 0x1044F); (0x104B0, 0x104D3);
   (0x104D8, 0x104FB); (0x10570, 0x1057A); (0x1057C, 0x1058A); (0x1058C, 0x10592); (0x10594, 0x10595); (0x10597, 0x105A1);
   (0x105A3, 0x105B1); (0x105B3, 0x105B9); (0x105BB, 0x105BC); (0x10780, 0x10780); (0x10783, 0x10785); (0x10787, 0x107B0);
   (0x107B2, 0x107BA); (0x10C80, 0x10CB2); (0x10CC0, 0x10CF2); (0x118A0, 0x118DF); (0x16E40, 0x16E7F); (0x1D400, 0x1D454);
   (0x1D456, 0x1D49C); (0x1D49E, 0x1D49F); (0x1D4A2, 0x1D4A2); (0x1D4A5, 0x1D4A6); (0x1D4A9, 0x1D4AC); (0x1D4AE, 0x1D4B9);
   (0x1D4BB, 0x1D4BB); (0x1D4BD, 0x1D4C3); (0x1D4C5, 0x1D505); (0x1D507, 0x1D50A); (0x1D50D, 0x1D514); (0x1D516, 0x1D51C);
   (0x1D51E, 0x1D539); (0x1D53B, 0x1D53E); (0x1D540, 0x1D544); (0x1D546, 0x1D546); (0x1D54A, 0x1D550); (0x1D552, 0x1D6A5);
   (0x1D6A8, 0x1D6C0); (0x1D6C2, 0x1D6DA); (0x1D6DC, 0x1D6FA); (0x1D6FC, 0x1D714); (0x1D716, 0x1D734); (0x1D736, 0x1D74E);
   (0x1D750, 0x1D76E); (0x1D770, 0x1D788); (0x1D78A, 0x1D7A8); (0x1D7AA, 0x1D7C2); (0x1D7C4, 0x1D7CB); (0x1DF00, 0x1DF09);
   (0x1DF0B, 0x1DF1E); (0x1E900, 0x1E943); (0x1F130, 0x1F149); (0x1F150, 0x1F169); (0x1F170, 0x1F189)]%N.

Definition case_ignorable_ranges : list (N * N) :=
  [(0x27, 0x27); (0x2E, 0x2E); (0x3A, 0x3A); (0x5E, 0x5E); (0x60, 0x60); (0xA8, 0xA8);
   (0xAD, 0xAD); (0xAF, 0xAF); (0xB4, 0xB4); (0xB7, 0xB8); (0x2B0, 0x36F); (0x374, 0x375);
   (0x37A, 0x37A); (0x384, 0x385); (0x387, 0x387); (0x483, 0x489); (0x559, 0x559); (0x55F, 0x55F);
   (0x591, 0x5BD); (0x5BF, 0x5BF); (0x5C1, 0x5C2); (0x5C4, 0x5C5); (0x5C7, 0x5C7); (0x5F4, 0x5F4);
   (0x600, 0x605); (0x610, 0x61A); (0x61C, 0x61C); (0x640, 0x640); (0x64B, 0x65F); (0x670, 0x670);
   (0x6D6, 0x6DD); (0x6DF, 0x6E8); (0x6EA, 0x6ED); (0x70F, 0x70F); (0x711, 0x711); (0x730, 0x74A);
   (0x7A6, 0x7B0); (0x7EB, 0x7F5); (0x7FA, 0x7FA); (0x7FD, 0x7FD); (0x816, 0x82D); (0x859, 0x85B);
   (0x888, 0x888); (0x890, 0x891); (0x898, 0x89F); (0x8C9, 0x902); (0x93A, 0x93A); (0x93C, 0x93C);
   (0x941, 0x948); (0x94D, 0x94D); (0x951, 0x957); (0x962, 0x963); (0x971, 0x971); (0x981, 0x981);
   (0x9BC, 0x9BC); (0x9C1, 0x9C4); (0x9CD, 0x9CD); (0x9E2, 0x9E3); (0x9FE, 0x9FE); (0xA01, 0xA02);
   (0xA3C, 0xA3C); (0xA41, 0xA42); (0xA47, 0xA48); (0xA4B, 0xA4D); (0xA51, 0xA51); (0xA70, 0xA71);
   (0xA75, 0xA75); (0xA81, 0xA82); (0xABC, 0xABC); (0xAC1, 0xAC5); (0xAC7, 0xAC8); (0xACD, 0xACD);
   (0xAE2, 0xAE3); (0xAFA, 0xAFF); (0xB01, 0xB01); (0xB3C, 0xB3C); (0xB3F, 0xB3F); (0xB41, 0xB44);
   (0xB4D, 0xB4D); (0xB55, 0xB56); (0xB62, 0xB63); (0xB82, 0xB82); (0xBC0, 0xBC0); (0xBCD, 0xBCD);
   (0xC00, 0xC00); (0xC04, 0xC04); (0xC3C, 0xC3C); (0xC3E, 0xC40); (0xC46, 0xC48); (0xC4A, 0xC4D);
   (0xC55, 0xC56); (0xC62, 0xC63); (0xC81, 0xC81); (0xCBC, 0xCBC); (0xCBF, 0xCBF); (0xCC6, 0xCC6);
   (0xCCC, 0xCCD); (0xCE2, 0xCE3); (0xD00, 0xD01); (0xD3B, 0xD3C); (0xD41, 0xD44); (0xD4D, 0xD4D);
   (0xD62, 0xD63); (0xD81, 0xD81); (0xDCA, 0xDCA); (0xDD2, 0xDD4); (0xDD6, 0xDD6); (0xE31, 0xE31);
   (0xE34, 0xE3A); (0xE46, 0xE4E); (0xEB1, 0xEB1); (0xEB4, 0xEBC); (0xEC6, 0xEC6); (0xEC8, 0xECD);
   (0xF18, 0xF19); (0xF35, 0xF35); (0xF37, 0xF37); (0xF39, 0xF39); (0xF71, 0xF7E); (0xF80, 0xF84);
   (0xF86, 0xF87); (0xF8D, 0xF97); (0xF99, 0xFBC); (0xFC6, 0xFC6); (0x102D, 0x1030); (0x1032, 0x1037);
   (0x1039, 0x103A); (0x103D, 0x103E); (0x1058, 0x1059); (0x105E, 0x1060); (0x1071, 0x1074); (0x1082, 0x1082);
   (0x1085, 0x1086); (0x108D, 0x108D); (0x109D, 0x109D); (0x10FC, 0x10FC); (0x135D, 0x135F); (0x1712, 0x1714);
   (0x1732, 0x1733); (0x1752, 0x1753); (0x1772, 0x1773); (0x17B4, 0x17B5); (0x17B7, 0x17BD); (0x17C6, 0x17C6);
   (0x17C9, 0x17D3); (0x17D7, 0x17D7); (0x17DD, 0x17DD); (0x180B, 0x180F); (0x1843, 0x1843); (0x1885, 0x1886);
   (0x18A9, 0x18A9); (0x1920, 0x1922); (0x1927, 0x1928); (0x1932, 0x1932); (0x1939, 0x193B); (0x1A17, 0x1A18);
   (0x1A1B, 0x1A1B); (0x1A56, 0x1A56); (0x1A58, 0x1A5E); (0x1A60, 0x1A60); (0x1A62, 0x1A62); (0x1A65, 0x1A6C);
   (0x1A73, 0x1A7C); (0x1A7F, 0x1A7F); (0x1AA7, 0x1AA7); (0x1AB0, 0x1ACE); (0x1B00, 0x1B03); (0x1B34, 0x1B34);
   (0x1B36, 0x1B3A); (0x1B3C, 0x1B3C); (0x1B42, 0x1B42); (0x1B6B, 0x1B73); (0x1B80, 0x1B81); (0x1BA2, 0x1BA5);
   (0x1BA8, 0x1BA9); (0x1BAB, 0x1BAD); (0x1BE6, 0x1BE6); (0x1BE8, 0x1BE9); (0x1BED, 0x1BED); (0x1BEF, 0x1BF1);
   (0x1C2C, 0x1C33); (0x1C36, 0x1C37); (0x1C78, 0x1C7D); (0x1CD0, 0x1CD2); (0x1CD4, 0x1CE0); (0x1CE2, 0x1CE8);
   (0x1CED, 0x1CED); (0x1CF4, 0x1CF4); (0x1CF8, 0x1CF9); (0x1D2C, 0x1D6A); (0x1D78, 0x1D78); (0x1D9B, 0x1DFF);
   (0x1FBD, 0x1FBD); (0x1FBF, 0x1FC1); (0x1FCD, 0x1FCF); (0x1FDD, 0x1FDF); (0x1FED, 0x1FEF); (0x1FFD, 0x1FFE);
   (0x200B, 0x200F); (0x2018, 0x2019); (0x2024, 0x2024); (0x2027, 0x2027); (0x202A, 0x202E); (0x2060, 0x2064);
   (0x2066, 0x206F); (0x2071, 0x2071); (0x207F, 0x207F); (0x2090, 0x209C); (0x20D0, 0x20F0); (0x2C7C, 0x2C7D);
   (0x2CEF, 0x2CF1); (0x2D6F, 0x2D6F); (0x2D7F, 0x2D7F); (0x2DE0, 0x2DFF); (0x2E2F, 0x2E2F); (0x3005, 0x3005);
   (0x302A, 0x302D); (0x3031, 0x3035); (0x303B, 0x303B); (0x3099, 0x309E); (0x30FC, 0x30FE); (0xA015, 0xA015);
   (0xA4F8, 0xA4FD); (0xA60C, 0xA60C); (0xA66F, 0xA672); (0xA674, 0xA67D); (0xA67F, 0xA67F); (0xA69C, 0xA69F);
   (0xA6F0, 0xA6F1); (0xA700, 0xA721); (0xA770, 0xA770); (0xA788, 0xA78A); (0xA7F2, 0xA7F4); (0xA7F8, 0xA7F9);
   (0xA802, 0xA802); (0xA806, 0xA806); (0xA80B, 0xA80B); (0xA825, 0xA826); (0xA82C, 0xA82C); (0xA8C4, 0xA8C5);
   (0xA8E0, 0xA8F1); (0xA8FF, 0xA8FF); (0xA926, 0xA92D); (0xA947, 0xA951); (0xA980, 0xA982); (0xA9B3, 0xA9B3);
   (0xA9B6, 0xA9B9); (0xA9BC, 0xA9BD); (0xA9CF, 0xA9CF); (0xA9E5, 0xA9E6); (0xAA29, 0xAA2E); (0xAA31, 0xAA32);
   (0xAA35, 0xAA36); (0xAA43, 0xAA43); (0xAA4C, 0xAA4C); (0xAA70, 0xAA70); (0xAA7C, 0xAA7C); (0xAAB0, 0xAAB0);
   (0xAAB2, 0xAAB4); (0xAAB7, 0xAAB8); (0xAABE, 0xAABF); (0xAAC1, 0xAAC1); (0xAADD, 0xAADD); (0xAAEC, 0xAAED);
   (0xAAF3, 0xAAF4); (0xAAF6, 0xAAF6); (0xAB5B, 0xAB5F); (0xAB69, 0xAB6B); (0xABE5, 0xABE5); (0xABE8, 0xABE8);
   (0xABED, 0xABED); (0xFB1E, 0xFB1E); (0xFBB2, 0xFBC2); (0xFE00, 0xFE0F); (0xFE13, 0xFE13); (0xFE20, 0xFE2F);
   (0xFE52, 0xFE52); (0xFE55, 0xFE55); (0xFEFF, 0xFEFF); (0xFF07, 0xFF07); (0xFF0E, 0xFF0E); (0xFF1A, 0xFF1A);
   (0xFF3E, 0xFF3E); (0xFF40, 0xFF40); (0xFF70, 0xFF70); (0xFF9E, 0xFF9F); (0xFFE3, 0xFFE3); (0xFFF9, 0xFFFB);
   (0x101FD, 0x101FD); (0x102E0, 0x102E0); (0x10376, 0x1037A); (0x10780, 0x10785); (0x10787, 0x107B0); (0x107B2, 0x107BA);
   (0x10A01, 0x10A03); (0x10A05, 0x10A06); (0x10A0C, 0x10A0F); (0x10A38, 0x10A3A); (0x10A3F, 0x10A3F); (0x10AE5, 0x10AE6);
   (0x10D24, 0x10D27); (0x10EAB, 0x10EAC); (0x10F46, 0x10F50); (0x10F82, 0x10F85); (0x11001, 0x11001); (0x11038, 0x11046);
   (0x11070, 0x11070); (0x11073, 0x11074); (0x1107F, 0x11081); (0x110B3, 0x110B6); (0x110B9, 0x110BA); (0x110BD, 0x110BD);
   (0x110C2, 0x110C2); (0x110CD, 0x110CD); (0x11100, 0x11102); (0x11127, 0x1112B); (0x1112D, 0x11134); (0x11173, 0x11173);
   (0x11180, 0x11181); (0x111B6, 0x111BE); (0x111C9, 0x111CC); (0x111CF, 0x111CF); (0x1122F, 0x11231); (0x11234, 0x11234);
   (0x11236, 0x11237); (0x1123E, 0x1123E); (0x112DF, 0x112DF); (0x112E3, 0x112EA); (0x11300, 0x11301); (0x1133B, 0x1133C);
   (0x11340, 0x11340); (0x11366, 0x1136C); (0x11370, 0x11374); (0x11438, 0x1143F); (0x11442, 0x11444); (0x11446, 0x11446);
   (0x1145E, 0x1145E); (0x114B3, 0x114B8); (0x114BA, 0x114BA); (0x114BF, 0x114C0); (0x114C2, 0x114C3); (0x115B2, 0x115B5);
   (0x115BC, 0x115BD); (0x115BF, 0x115C0); (0x115DC, 0x115DD); (0x11633, 0x1163A); (0x1163D, 0x1163D); (0x1163F, 0x11640);
   (0x116AB, 0x116AB); (0x116AD, 0x116AD); (0x116B0, 0x116B5); (0x116B7, 0x116B7); (0x1171D, 0x1171F); (0x11722, 0x11725);
   (0x11727, 0x1172B); (0x1182F, 0x11837); (0x11839, 0x1183A); (0x1193B, 0x1193C); (0x1193E, 0x1193E); (0x11943, 0x11943);
   (0x119D4, 0x119D7); (0x119DA, 0x119DB); (0x119E0, 0x119E0); (0x11A01, 0x11A0A); (0x11A33, 0x11A38); (0x11A3B, 0x11A3E);
   (0x11A47, 0x11A47); (0x11A51, 0x11A56); (0x11A59, 0x11A5B); (0x11A8A, 0x11A96); (0x11A98, 0x11A99); (0x11C30, 0x11C36);
   (0x11C38, 0x11C3D); (0x11C3F, 0x11C3F); (0x11C92, 0x11CA7); (0x11CAA, 0x11CB0); (0x11CB2, 0x11CB3); (0x11CB5, 0x11CB6);
   (0x11D31, 0x11D36); (0x11D3A, 0x11D3A); (0x11D3C, 0x11D3D); (0x11D3F, 0x11D45); (0x11D47, 0x11D47); (0x11D90, 0x11D91);
   (0x11D95, 0x11D95); (0x11D97, 0x11D97); (0x11EF3, 0x11EF4); (0x13430, 0x13438); (0x16AF0, 0x16AF4); (0x16B30, 0x16B36);
   (0x16B40, 0x16B43); (0x16F4F, 0x16F4F); (0x16F8F, 0x16F9F); (0x16FE0, 0x16FE1); (0x16FE3, 0x16FE4); (0x1AFF0, 0x1AFF3);
   (0x1AFF5, 0x1AFFB); (0x1AFFD, 0x1AFFE); (0x1BC9D, 0x1BC9E); (0x1BCA0, 0x1BCA3); (0x1CF00, 0x1CF2D); (0x1CF30, 0x1CF46);
   (0x1D167, 0x1D169); (0x1D173, 0x1D182); (0x1D185, 0x1D18B); (0x1D1AA, 0x1D1AD); (0x1D242, 0x1D244); (0x1DA00, 0x1DA36);
   (0x1DA3B, 0x1DA6C); (0x1DA75, 0x1DA75); (0x1DA84, 0x1DA84); (0x1DA9B, 0x1DA9F); (0x1DAA1, 0x1DAAF); (0x1E000, 0x1E006);
   (0x1E008, 0x1E018); (0x1E01B, 0x1E021); (0x1E023, 0x1E024); (0x1E026, 0x1E02A); (0x1E130, 0x1E13D); (0x1E2AE, 0x1E2AE);
   (0x1E2EC, 0x1E2EF); (0x1E8D0, 0x1E8D6); (0x1E944, 0x1E94B); (0x1F3FB, 0x1F3FF); (0xE0001, 0xE0001); (0xE0020, 0xE007F);
   (0xE0100, 0xE01EF)]%N.

(** The code points from U+0080 on that [str.isprintable] refuses. *)
Definition not_printable_ranges : list (N * N) :=
  [(0x80, 0xA0); (0xAD, 0xAD); (0x378, 0x379); (0x380, 0x383); (0x38B, 0x38B); (0x38D, 0x38D);
   (0x3A2, 0x3A2); (0x530, 0x530); (0x557, 0x558); (0x58B, 0x58C); (0x590, 0x590); (0x5C8, 0x5CF);
   (0x5EB, 0x5EE); (0x5F5, 0x605); (0x61C, 0x61C); (0x6DD, 0x6DD); (0x70E, 0x70F); (0x74B, 0x74C);
   (0x7B2, 0x7BF); (0x7FB, 0x7FC); (0x82E, 0x82F); (0x83F, 0x83F); (0x85C, 0x85D); (0x85F, 0x85F);
   (0x86B, 0x86F); (0x88F, 0x897); (0x8E2, 0x8E2); (0x984, 0x984); (0x98D, 0x98E); (0x991, 0x992);
   (0x9A9, 0x9A9); (0x9B1, 0x9B1); (0x9B3, 0x9B5); (0x9BA, 0x9BB); (0x9C5, 0x9C6); (0x9C9, 0x9CA);
   (0x9CF, 0x9D6); (0x9D8, 0x9DB); (0x9DE, 0x9DE); (0x9E4, 0x9E5); (0x9FF, 0xA00); (0xA04, 0xA04);
   (0xA0B, 0xA0E); (0xA11, 0xA12); (0xA29, 0xA29); (0xA31, 0xA31); (0xA34, 0xA34); (0xA37, 0xA37);
   (0xA3A, 0xA3B); (0xA3D, 0xA3D); (0xA43, 0xA46); (0xA49, 0xA4A); (0xA4E, 0xA50); (0xA52, 0xA58);
   (0xA5D, 0xA5D); (0xA5F, 0xA65); (0xA77, 0xA80); (0xA84, 0xA84); (0xA8E, 0xA8E); (0xA92, 0xA92);
   (0xAA9, 0xAA9); (0xAB1, 0xAB1); (0xAB4, 0xAB4); (0xABA, 0xABB); (0xAC6, 0xAC6); (0xACA, 0xACA);
   (0xACE, 0xACF); (0xAD1, 0xADF); (0xAE4, 0xAE5); (0xAF2, 0xAF8); (0xB00, 0xB00); (0xB04, 0xB04);
   (0xB0D, 0xB0E); (0xB11, 0xB12); (0xB29, 0xB29); (0xB31, 0xB31); (0xB34, 0xB34); (0xB3A, 0xB3B);
   (0xB45, 0xB46); (0xB49, 0xB4A); (0xB4E, 0xB54); (0xB58, 0xB5B); (0xB5E, 0xB5E); (0xB64, 0xB65);
   (0xB78, 0xB81); (0xB84, 0xB84); (0xB8B, 0xB8D); (0xB91, 0xB91); (0xB96, 0xB98); (0xB9B, 0xB9B);
   (0xB9D, 0xB9D); (0xBA0, 0xBA2); (0xBA5, 0xBA7); (0xBAB, 0xBAD); (0xBBA, 0xBBD); (0xBC3, 0xBC5);
   (0xBC9, 0xBC9); (0xBCE, 0xBCF); (0xBD1, 0xBD6); (0xBD8, 0xBE5); (0xBFB, 0xBFF); (0xC0D, 0xC0D);
   (0xC11, 0xC11); (0xC29, 0xC29); (0xC3A, 0xC3B); (0xC45, 0xC45); (0xC49, 0xC49); (0xC4E, 0xC54);
   (0xC57, 0xC57); (0xC5B, 0xC5C); (0xC5E, 0xC5F); (0xC64, 0xC65); (0xC70, 0xC76); (0xC8D, 0xC8D);
   (0xC91, 0xC91); (0xCA9, 0xCA9); (0xCB4, 0xCB4); (0xCBA, 0xCBB); (0xCC5, 0xCC5); (0xCC9, 0xCC9);
   (0xCCE, 0xCD4); (0xCD7, 0xCDC); (0xCDF, 0xCDF); (0xCE4, 0xCE5); (0xCF0, 0xCF0); (0xCF3, 0xCFF);
   (0xD0D, 0xD0D); (0xD11, 0xD11); (0xD45, 0xD45); (0xD49, 0xD49); (0xD50, 0xD53); (0xD64, 0xD65);
   (0xD80, 0xD80); (0xD84, 0xD84); (0xD97, 0xD99); (0xDB2, 0xDB2); (0xDBC, 0xDBC); (0xDBE, 0xDBF);
   (0xDC7, 0xDC9); (0xDCB, 0xDCE); (0xDD5, 0xDD5); (0xDD7, 0xDD7); (0xDE0, 0xDE5); (0xDF0, 0xDF1);
   (0xDF5, 0xE00); (0xE3B, 0xE3E); (0xE5C, 0xE80); (0xE83, 0xE83); (0xE85, 0xE85); (0xE8B, 0xE8B);
   (0xEA4, 0xEA4); (0xEA6, 0xEA6); (0xEBE, 0xEBF); (0xEC5, 0xEC5); (0xEC7, 0xEC7); (0xECE, 0xECF);
   (0xEDA, 0xEDB); (0xEE0, 0xEFF); (0xF48, 0xF48); (0xF6D, 0xF70); (0xF98, 0xF98); (0xFBD, 0xFBD);
   (0xFCD, 0xFCD); (0xFDB, 0xFFF); (0x10C6, 0x10C6); (0x10C8, 0x10CC); (0x10CE, 0x10CF); (0x1249, 0x1249);
   (0x124E, 0x124F); (0x1257, 0x1257); (0x1259, 0x1259); (0x125E, 0x125F); (0x1289, 0x1289); (0x128E, 0x128F);
   (0x12B1, 0x12B1); (0x12B6, 0x12B7); (0x12BF, 0x12BF); (0x12C1, 0x12C1); (0x12C6, 0x12C7); (0x12D7, 0x12D7);
   (0x1311, 0x1311); (0x1316, 0x1317); (0x135B, 0x135C); (0x137D, 0x137F); (0x139A, 0x139F); (0x13F6, 0x13F7);
   (0x13FE, 0x13FF); (0x1680, 0x1680); (0x169D, 0x169F); (0x16F9, 0x16FF); (0x1716, 0x171E); (0x1737, 0x173F);
   (0x1754, 0x175F); (0x176D, 0x176D); (0x1771, 0x1771); (0x1774, 0x177F); (0x17DE, 0x17DF); (0x17EA, 0x17EF);
   (0x17FA, 0x17FF); (0x180E, 0x180E); (0x181A, 0x181F); (0x1879, 0x187F); (0x18AB, 0x18AF); (0x18F6, 0x18FF);
   (0x191F, 0x191F); (0x192C, 0x192F); (0x193C, 0x193F); (0x1941, 0x1943); (0x196E, 0x196F); (0x1975, 0x197F);
   (0x19AC, 0x19AF); (0x19CA, 0x19CF); (0x19DB, 0x19DD); (0x1A1C, 0x1A1D); (0x1A5F, 0x1A5F); (0x1A7D, 0x1A7E);
   (0x1A8A, 0x1A8F); (0x1A9A, 0x1A9F); (0x1AAE, 0x1AAF); (0x1ACF, 0x1AFF); (0x1B4D, 0x1B4F); (0x1B7F, 0x1B7F);
   (0x1BF4, 0x1BFB); (0x1C38, 0x1C3A); (0x1C4A, 0x1C4C); (0x1C89, 0x1C8F); (0x1CBB, 0x1CBC); (0x1CC8, 0x1CCF);
   (0x1CFB, 0x1CFF); (0x1F16, 0x1F17); (0x1F1E, 0x1F1F); (0x1F46, 0x1F47); (0x1F4E, 0x1F4F); (0x1F58, 0x1F58);
   (0x1F5A, 0x1F5A); (0x1F5C, 0x1F5C); (0x1F5E, 0x1F5E); (0x1F7E, 0x1F7F); (0x1FB5, 0x1FB5); (0x1FC5, 0x1FC5);
   (0x1FD4, 0x1FD5); (0x1FDC, 0x1FDC); (0x1FF0, 0x1FF1); (0x1FF5, 0x1FF5); (0x1FFF, 0x200F); (0x2028, 0x202F);
   (0x205F, 0x206F); (0x2072, 0x2073); (0x208F, 0x208F); (0x209D, 0x209F); (0x20C1, 0x20CF); (0x20F1, 0x20FF);
   (0x218C, 0x218F); (0x2427, 0x243F); (0x244B, 0x245F); (0x2B74, 0x2B75); (0x2B96, 0x2B96); (0x2CF4, 0x2CF8);
   (0x2D26, 0x2D26); (0x2D28, 0x2D2C); (0x2D2E, 0x2D2F); (0x2D68, 0x2D6E); (0x2D71, 0x2D7E); (0x2D97, 0x2D9F);
   (0x2DA7, 0x2DA7); (0x2DAF, 0x2DAF); (0x2DB7, 0x2DB7); (0x2DBF, 0x2DBF); (0x2DC7, 0x2DC7); (0x2DCF, 0x2DCF);
   (0x2DD7, 0x2DD7); (0x2DDF, 0x2DDF); (0x2E5E, 0x2E7F); (0x2E9A, 0x2E9A); (0x2EF4, 0x2EFF); (0x2FD6, 0x2FEF);
   (0x2FFC, 0x3000); (0x3040, 0x3040); (0x3097, 0x3098); (0x3100, 0x3104); (0x3130, 0x3130); (0x318F, 0x318F);
   (0x31E4, 0x31EF); (0x321F, 0x321F); (0xA48D, 0xA48F); (0xA4C7, 0xA4CF); (0xA62C, 0xA63F); (0xA6F8, 0xA6FF);
   (0xA7CB, 0xA7CF); (0xA7D2, 0xA7D2); (0xA7D4, 0xA7D4); (0xA7DA, 0xA7F1); (0xA82D, 0xA82F); (0xA83A, 0xA83F);
   (0xA878, 0xA87F); (0xA8C6, 0xA8CD); (0xA8DA, 0xA8DF); (0xA954, 0xA95E); (0xA97D, 0xA97F); (0xA9CE, 0xA9CE);
   (0xA9DA, 0xA9DD); (0xA9FF, 0xA9FF); (0xAA37, 0xAA3F); (0xAA4E, 0xAA4F); (0xAA5A, 0xAA5B); (0xAAC3, 0xAADA);
   (0xAAF7, 0xAB00); (0xAB07, 0xAB08); (0xAB0F, 0xAB10); (0xAB17, 0xAB1F); (0xAB27, 0xAB27); (0xAB2F, 0xAB2F);
   (0xAB6C, 0xAB6F); (0xABEE, 0xABEF); (0xABFA, 0xABFF); (0xD7A4, 0xD7AF); (0xD7C7, 0xD7CA); (0xD7FC, 0xF8FF);
   (0xFA6E, 0xFA6F); (0xFADA, 0xFAFF); (0xFB07, 0xFB12); (0xFB18, 0xFB1C); (0xFB37, 0xFB37); (0xFB3D, 0xFB3D);
   (0xFB3F, 0xFB3F); (0xFB42, 0xFB42); (0xFB45, 0xFB45); (0xFBC3, 0xFBD2); (0xFD90, 0xFD91); (0xFDC8, 0xFDCE);
   (0xFDD0, 0xFDEF); (0xFE1A, 0xFE1F); (0xFE53, 0xFE53); (0xFE67, 0xFE67); (0xFE6C, 0xFE6F); (0xFE75, 0xFE75);
   (0xFEFD, 0xFF00); (0xFFBF, 0xFFC1); (0xFFC8, 0xFFC9); (0xFFD0, 0xFFD1); (0xFFD8, 0xFFD9); (0xFFDD, 0xFFDF);
   (0xFFE7, 0xFFE7); (0xFFEF, 0xFFFB); (0xFFFE, 0xFFFF); (0x1000C, 0x1000C); (0x10027, 0x10027); (0x1003B, 0x1003B);
   (0x1003E, 0x1003E); (0x1004E, 0x1004F); (0x1005E, 0x1007F); (0x100FB, 0x100FF); (0x10103, 0x10106); (0x10134, 0x10136);
   (0x1018F, 0x1018F); (0x1019D, 0x1019F); (0x101A1, 0x101CF); (0x101FE, 0x1027F); (0x1029D, 0x1029F); (0x102D1, 0x102DF);
   (0x102FC, 0x102FF); (0x10324, 0x1032C); (0x1034B, 0x1034F); (0x1037B, 0x1037F); (0x1039E, 0x1039E); (0x103C4, 0x103C7);
   (0x103D6, 0x103FF); (0x1049E, 0x1049F); (0x104AA, 0x104AF); (0x104D4, 0x104D7); (0x104FC, 0x104FF); (0x10528, 0x1052F);
   (0x10564, 0x1056E); (0x1057B, 0x1057B); (0x1058B, 0x1058B); (0x10593, 0x10593); (0x10596, 0x10596); (0x105A2, 0x105A2);
   (0x105B2, 0x105B2); (0x105BA, 0x105BA); (0x105BD, 0x105FF); (0x10737, 0x1073F); (0x10756, 0x1075F); (0x10768, 0x1077F);
   (0x10786, 0x10786); (0x107B1, 0x107B1); (0x107BB, 0x107FF); (0x10806, 0x10807); (0x10809, 0x10809); (0x10836, 0x10836);
   (0x10839, 0x1083B); (0x1083D, 0x1083E); (0x10856, 0x10856); (0x1089F, 0x108A6); (0x108B0, 0x108DF); (0x108F3, 0x108F3);
   (0x108F6, 0x108FA); (0x1091C, 0x1091E); (0x1093A, 0x1093E); (0x10940, 0x1097F); (0x109B8, 0x109BB); (0x109D0, 0x109D1);
   (0x10A04, 0x10A04); (0x10A07, 0x10A0B); (0x10A14, 0x10A14); (0x10A18, 0x10A18); (0x10A36, 0x10A37); (0x10A3B, 0x10A3E);
   (0x10A49, 0x10A4F); (0x10A59, 0x10A5F); (0x10AA0, 0x10ABF); (0x10AE7, 0x10AEA); (0x10AF7, 0x10AFF); (0x10B36, 0x10B38);
   (0x10B56, 0x10B57); (0x10B73, 0x10B77); (0x10B92, 0x10B98); (0x10B9D, 0x10BA8); (0x10BB0, 0x10BFF); (0x10C49, 0x10C7F);
   (0x10CB3, 0x10CBF); (0x10CF3, 0x10CF9); (0x10D28, 0x10D2F); (0x10D3A, 0x10E5F); (0x10E7F, 0x10E7F); (0x10EAA, 0x10EAA);
   (0x10EAE, 0x10EAF); (0x10EB2, 0x10EFF); (0x10F28, 0x10F2F); (0x10F5A, 0x10F6F); (0x10F8A, 0x10FAF); (0x10FCC, 0x10FDF);
   (0x10FF7, 0x10FFF); (0x1104E, 0x11051); (0x11076, 0x1107E); (0x110BD, 0x110BD); (0x110C3, 0x110CF); (0x110E9, 0x110EF);
   (0x110FA, 0x110FF); (0x11135, 0x11135); (0x11148, 0x1114F); (0x11177, 0x1117F); (0x111E0, 0x111E0); (0x111F5, 0x111FF);
   (0x11212, 0x11212); (0x1123F, 0x1127F); (0x11287, 0x11287); (0x11289, 0x11289); (0x1128E, 0x1128E); (0x1129E, 0x1129E);
   (0x112AA, 0x112AF); (0x112EB, 0x112EF); (0x112FA, 0x112FF); (0x11304, 0x11304); (0x1130D, 0x1130E); (0x11311, 0x11312);
   (0x11329, 0x11329); (0x11331, 0x11331); (0x11334, 0x11334); (0x1133A, 0x1133A); (0x11345, 0x11346); (0x11349, 0x1134A);
   (0x1134E, 0x1134F); (0x11351, 0x11356); (0x11358, 0x1135C); (0x11364, 0x11365); (0x1136D, 0x1136F); (0x11375, 0x113FF);
   (0x1145C, 0x1145C); (0x11462, 0x1147F); (0x114C8, 0x114CF); (0x114DA, 0x1157F); (0x115B6, 0x115B7); (0x115DE, 0x115FF);
   (0x11645, 0x1164F); (0x1165A, 0x1165F); (0x1166D, 0x1167F); (0x116BA, 0x116BF); (0x116CA, 0x116FF); (0x1171B, 0x1171C);
   (0x1172C, 0x1172F); (0x11747, 0x117FF); (0x1183C, 0x1189F); (0x118F3, 0x118FE); (0x11907, 0x11908); (0x1190A, 0x1190B);
   (0x11914, 0x11914); (0x11917, 0x11917); (0x11936, 0x11936); (0x11939, 0x1193A); (0x11947, 0x1194F); (0x1195A, 0x1199F);
   (0x119A8, 0x119A9); (0x119D8, 0x119D9); (0x119E5, 0x119FF); (0x11A48, 0x11A4F); (0x11AA3, 0x11AAF); (0x11AF9, 0x11BFF);
   (0x11C09, 0x11C09); (0x11C37, 0x11C37); (0x11C46, 0x11C4F); (0x11C6D, 0x11C6F); (0x11C90, 0x11C91); (0x11CA8, 0x11CA8);
   (0x11CB7, 0x11CFF); (0x11D07, 0x11D07); (0x11D0A, 0x11D0A); (0x11D37, 0x11D39); (0x11D3B, 0x11D3B); (0x11D3E, 0x11D3E);
   (0x11D48, 0x11D4F); (0x11D5A, 0x11D5F); (0x11D66, 0x11D66); (0x11D69, 0x11D69); (0x11D8F, 0x11D8F); (0x11D92, 0x11D92);
   (0x11D99, 0x11D9F); (0x11DAA, 0x11EDF); (0x11EF9, 0x11FAF); (0x11FB1, 0x11FBF); (0x11FF2, 0x11FFE); (0x1239A, 0x123FF);
   (0x1246F, 0x1246F); (0x12475, 0x1247F); (0x12544, 0x12F8F); (0x12FF3, 0x12FFF); (0x1342F, 0x143FF); (0x14647, 0x167FF);
   (0x16A39, 0x16A3F); (0x16A5F, 0x16A5F); (0x16A6A, 0x16A6D); (0x16ABF, 0x16ABF); (0x16ACA, 0x16ACF); (0x16AEE, 0x16AEF);
   (0x16AF6, 0x16AFF); (0x16B46, 0x16B4F); (0x16B5A, 0x16B5A); (0x16B62, 0x16B62); (0x16B78, 0x16B7C); (0x16B90, 0x16E3F);
   (0x16E9B, 0x16EFF); (0x16F4B, 0x16F4E); (0x16F88, 0x16F8E); (0x16FA0, 0x16FDF); (0x16FE5, 0x16FEF); (0x16FF2, 0x16FFF);
   (0x187F8, 0x187FF); (0x18CD6, 0x18CFF); (0x18D09, 0x1AFEF); (0x1AFF4, 0x1AFF4); (0x1AFFC, 0x1AFFC); (0x1AFFF, 0x1AFFF);
   (0x1B123, 0x1B14F); (0x1B153, 0x1B163); (0x1B168, 0x1B16F); (0x1B2FC, 0x1BBFF); (0x1BC6B, 0x1BC6F); (0x1BC7D, 0x1BC7F);
   (0x1BC89, 0x1BC8F); (0x1BC9A, 0x1BC9B); (0x1BCA0, 0x1CEFF); (0x1CF2E, 0x1CF2F); (0x1CF47, 0x1CF4F); (0x1CFC4, 0x1CFFF);
   (0x1D0F6, 0x1D0FF); (0x1D127, 0x1D128); (0x1D173, 0x1D17A); (0x1D1EB, 0x1D1FF); (0x1D246, 0x1D2DF); (0x1D2F4, 0x1D2FF);
   (0x1D357, 0x1D35F); (0x1D379, 0x1D3FF); (0x1D455, 0x1D455); (0x1D49D, 0x1D49D); (0x1D4A0, 0x1D4A1); (0x1D4A3, 0x1D4A4);
   (0x1D4A7, 0x1D4A8); (0x1D4AD, 0x1D4AD); (0x1D4BA, 0x1D4BA); (0x1D4BC, 0x1D4BC); (0x1D4C4, 0x1D4C4); (0x1D506, 0x1D506);
   (0x1D50B, 0x1D50C); (0x1D515, 0x1D515); (0x1D51D, 0x1D51D); (0x1D53A, 0x1D53A); (0x1D53F, 0x1D53F); (0x1D545, 0x1D545);
   (0x1D547, 0x1D549); (0x1D551, 0x1D551); (0x1D6A6, 0x1D6A7); (0x1D7CC, 0x1D7CD); (0x1DA8C, 0x1DA9A); (0x1DAA0, 0x1DAA0);
   (0x1DAB0, 0x1DEFF); (0x1DF1F, 0x1DFFF); (0x1E007, 0x1E007); (0x1E019, 0x1E01A); (0x1E022, 0x1E022); (0x1E025, 0x1E025);
   (0x1E02B, 0x1E0FF); (0x1E12D, 0x1E12F); (0x1E13E, 0x1E13F); (0x1E14A, 0x1E14D); (0x1E150, 0x1E28F); (0x1E2AF, 0x1E2BF);
   (0x1E2FA, 0x1E2FE); (0x1E300, 0x1E7DF); (0x1E7E7, 0x1E7E7); (0x1E7EC, 0x1E7EC); (0x1E7EF, 0x1E7EF); (0x1E7FF, 0x1E7FF);
   (0x1E8C5, 0x1E8C6); (0x1E8D7, 0x1E8FF); (0x1E94C, 0x1E94F); (0x1E95A, 0x1E95D); (0x1E960, 0x1EC70); (0x1ECB5, 0x1ED00);
   (0x1ED3E, 0x1EDFF); (0x1EE04, 0x1EE04); (0x1EE20, 0x1EE20); (0x1EE23, 0x1EE23); (0x1EE25, 0x1EE26); (0x1EE28, 0x1EE28);
   (0x1EE33, 0x1EE33); (0x1EE38, 0x1EE38); (0x1EE3A, 0x1EE3A); (0x1EE3C, 0x1EE41); (0x1EE43, 0x1EE46); (0x1EE48, 0x1EE48);
   (0x1EE4A, 0x1EE4A); (0x1EE4C, 0x1EE4C); (0x1EE50, 0x1EE50); (0x1EE53, 0x1EE53); (0x1EE55, 0x1EE56); (0x1EE58, 0x1EE58);
   (0x1EE5A, 0x1EE5A); (0x1EE5C, 0x1EE5C); (0x1EE5E, 0x1EE5E); (0x1EE60, 0x1EE60); (0x1EE63, 0x1EE63); (0x1EE65, 0x1EE66);
   (0x1EE6B, 0x1EE6B); (0x1EE73, 0x1EE73); (0x1EE78, 0x1EE78); (0x1EE7D, 0x1EE7D); (0x1EE7F, 0x1EE7F); (0x1EE8A, 0x1EE8A);
   (0x1EE9C, 0x1EEA0); (0x1EEA4, 0x1EEA4); (0x1EEAA, 0x1EEAA); (0x1EEBC, 0x1EEEF); (0x1EEF2, 0x1EFFF); (0x1F02C, 0x1F02F);
   (0x1F094, 0x1F09F); (0x1F0AF, 0x1F0B0); (0x1F0C0, 0x1F0C0); (0x1F0D0, 0x1F0D0); (0x1F0F6, 0x1F0FF); (0x1F1AE, 0x1F1E5);
   (0x1F203, 0x1F20F); (0x1F23C, 0x1F23F); (0x1F249, 0x1F24F); (0x1F252, 0x1F25F); (0x1F266, 0x1F2FF); (0x1F6D8, 0x1F6DC);
   (0x1F6ED, 0x1F6EF); (0x1F6FD, 0x1F6FF); (0x1F774, 0x1F77F); (0x1F7D9, 0x1F7DF); (0x1F7EC, 0x1F7EF); (0x1F7F1, 0x1F7FF);
   (0x1F80C, 0x1F80F); (0x1F848, 0x1F84F); (0x1F85A, 0x1F85F); (0x1F888, 0x1F88F); (0x1F8AE, 0x1F8AF); (0x1F8B2, 0x1F8FF);
   (0x1FA54, 0x1FA5F); (0x1FA6E, 0x1FA6F); (0x1FA75, 0x1FA77); (0x1FA7D, 0x1FA7F); (0x1FA87, 0x1FA8F); (0x1FAAD, 0x1FAAF);
   (0x1FABB, 0x1FABF); (0x1FAC6, 0x1FACF); (0x1FADA, 0x1FADF); (0x1FAE8, 0x1FAEF); (0x1FAF7, 0x1FAFF); (0x1FB93, 0x1FB93);
   (0x1FBCB, 0x1FBEF); (0x1FBFA, 0x1FFFF); (0x2A6E0, 0x2A6FF); (0x2B739, 0x2B73F); (0x2B81E, 0x2B81F); (0x2CEA2, 0x2CEAF);
   (0x2EBE1, 0x2F7FF); (0x2FA1E, 0x2FFFF); (0x3134B, 0xE00FF); (0xE01F0, 0x10FFFF)]%N.

Definition in_ranges (c : N) (ranges : list (N * N)) : bool :=
  existsb (fun r => (fst r <=? c)%N && (c <=? snd r)%N) ranges.

(** [_PyUnicode_IsCased] and [_PyUnicode_IsCaseIgnorable] *)
Definition cased (c : N) : bool := in_ranges c cased_ranges.
Definition case_ignorable (c : N) : bool := in_ranges c case_ignorable_ranges.

(** [Py_UNICODE_ISPRINTABLE], for a code point from U+0080 on *)
Definition printable (c : N) : bool := negb (in_ranges c not_printable_ranges).

Fixpoint lower_in (runs : list (N * N * N * N)) (c : N) : N :=
  match runs with
  | [] => c
  | (lo, hi, step, to) :: rest =>
      if (lo <=? c)%N && (c <=? hi)%N && ((c - lo) mod step =? 0)%N
      then (to + (c - lo))%N
      else lower_in rest c
  end.

(** [_PyUnicode_ToLowerFull]: one code point, but for the capital I with a
    dot above, which becomes an i and a combining dot. *)
Definition to_lower_full (c : N) : list N :=
  if (c =? 0x130)%N then [0x69; 0x307]%N else [lower_in lower_runs c].

Fixpoint skip_ignorable (l : list N) : list N :=
  match l with
  | [] => []
  | c :: r => if case_ignorable c then skip_ignorable r else l
  end.

(** The first code point that is not case-ignorable is there and is
    cased. *)
Definition reaches_cased (l : list N) : bool :=
  match skip_ignorable l with
  | [] => false
  | c :: _ => cased c
  end.

(** [handle_capital_sigma]: a capital sigma is lowered to the final sigma
    when a cased letter comes before it and none comes after it,
    case-ignorable code points apart.  [before] has the code points before
    the sigma, the nearest first. *)
Definition handle_capital_sigma (before after : list N) : N :=
  if reaches_cased before && negb (reaches_cased after) then 0x3C2%N else 0x3C3%N.

(** [do_lower]: the loop over the code points of the text. *)
Fixpoint lower_from (before rest : list N) : list N :=
  match rest with
  | [] => []
  | c :: r =>
      ((if (c =? 0x3A3)%N then [handle_capital_sigma before r] else to_lower_full c)
       ++ lower_from (c :: before) r)%list
  end.

(** [s.lower()] on the UTF-8 bytes of [s] *)
Definition lower (s : string) : string :=
  match Utf8.code_points (Utf8.bytes_of s) with
  | Some cps => Utf8.string_of (flat_map Utf8.encode (lower_from [] cps))
  | None => s
  end.

End Unicode.

#[global] Arguments Unicode.lower_runs : simpl never.
#[global] Arguments Unicode.cased_ranges : simpl never.
#[global] Arguments Unicode.case_ignorable_ranges : simpl never.
#[global] Arguments Unicode.not_printable_ranges : simpl never.

(** ** Python strings *)

Module PyStr.

Definition is_upper (c : ascii) : bool :=
  let n := N_of_ascii c in (65 <=? n)%N && (n <=? 90)%N.

Definition lower_char (c : ascii) : ascii :=
  if is_upper c then ascii_of_N (N_of_ascii c + 32) else c.

(** [s.lower()] on ASCII text: the letters A to Z, byte by byte. *)
Fixpoint lower_ascii (s : string) : string :=
  match s with
  | EmptyString => EmptyString
  | String c r => String (lower_char c) (lower_ascii r)
  end.

(** [s.lower()]: CPython lowers ASCII text byte by byte, and any other text
    code point by code point. *)
Definition lower (s : string) : string :=
  if Utf8.is_ascii s then lower_ascii s else Unicode.lower s.

(** [s.startswith(p)] *)
Fixpoint startswith (p s : string) : bool :=
  match p, s with
  | EmptyString, _ => true
  | String _ _, EmptyString => false
  | String a p', String b s' => Ascii.eqb a b && startswith p' s'
  end.

(** [needle in hay] on strings *)
Fixpoint str_in (needle hay : string) : bool :=
  startswith needle hay ||
  match hay with
  | EmptyString => false
  | String _ r => str_in needle r
  end.

(** [s.endswith(p)] *)
Fixpoint endswith (p s : string) : bool :=
  String.eqb p s ||
  match s with
  | EmptyString => false
  | String _ r => endswith p r
  end.

(** [s.find(c)] for a one-character [c]: the text before the first [c] and
    the text after it, or [None] when [c] does not occur. *)
Fixpoint split_at (c : ascii) (s : string) : option (string * string) :=
  match s with
  | EmptyString => None
  | String a r =>
      if Ascii.eqb a c then Some (EmptyString, r)
      else match split_at c r with
           | Some (u, v) => Some (String a u, v)
           | None => None
           end
  end.

(** The text of the specification: [q] occurs in [s]. *)
Definition occurs (q s : string) : Prop :=
  exists a b, s = a +:+ q +:+ b.

(** Two strings are the same up to the case of the letters A to Z. *)
Fixpoint same_nocase (a b : string) : Prop :=
  match a, b with
  | EmptyString, EmptyString => True
  | String c a', String d b' => lower_char c = lower_char d /\ same_nocase a' b'
  | _, _ => False
  end.

(** The text of the specification, for ASCII text: [q] occurs in [s] in
    any letter case. *)
Definition occurs_nocase (q s : string) : Prop :=
  exists a m b, s = a +:+ m +:+ b /\ same_nocase m q.


End PyStr.

(** ** Operations on values *)

Module Py.

Fixpoint assoc {A} (k : string) (l : list (string * A)) : option A :=
  match l with
  | [] => None
  | (k', v) :: r => if String.eqb k k' then Some v else assoc k r
  end.

(** [type(v).__name__] *)
Definition type_name (v : json) : string :=
  match v with
  | JNull => "NoneType"
  | JBool _ => "bool"
  | JInt _ => "int"
  | JFloat _ => "float"
  | JStr _ => "str"
  | JList _ => "list"
  | JDict _ => "dict"
  end.

(** [str(e)] of the [AttributeError] for a method that [v] has not. *)
Definition no_attribute (v : json) (name : string) : exn :=
  Exn AttributeError ("'" +:+ type_name v +:+ "' object has no attribute '" +:+ name +:+ "'").

(** [str(e)] of the [TypeError] for a value that is not [what]. *)
Definition not_a (v : json) (what : string) : exn :=
  Exn TypeError ("'" +:+ type_name v +:+ "' object is not " +:+ what).

(** [d.get(k, default)]: only a dict has the method. *)
Definition get (d : json) (k : string) (dflt : json) : result json :=
  match d with
  | JDict items => Ok (default dflt (assoc k items))
  | _ => Raise (no_attribute d "get")
  end.


(** [d[k]] for a string key *)
Definition getitem (d : json) (k : string) : result json :=
  match d with
  | JDict items =>
      match assoc k items with
      | Some v => Ok v
      | None => Raise (Exn KeyError ("'" +:+ k +:+ "'"))
      end
  | JList _ => Raise (Exn TypeError "list indices must be integers or slices, not str")
  | JStr _ => Raise (Exn TypeError "string indices must be integers, not 'str'")
  | _ => Raise (not_a d "subscriptable")
  end.

(** [bool(v)] *)
Definition truthy (v : json) : bool :=
  match v with
  | JNull => false
  | JBool b => b
  | JInt z => negb (z =? 0)%Z
  | JFloat l => negb (String.eqb l "0.0" || String.eqb l "-0.0")
  | JStr s => negb (String.eqb s "")
  | JList l => negb (Nat.eqb (length l) 0)
  | JDict l => negb (Nat.eqb (length l) 0)
  end.

(** [v.lower()]: only a [str] has the method. *)
Definition lower (v : json) : result string :=
  match v with
  | JStr s => Ok (PyStr.lower s)
  | _ => Raise (no_attribute v "lower")
  end.

(** [str(z)] for an [int] *)
Definition str_of_Z (z : Z) : string :=
  match z with
  | Z0 => "0"
  | Zpos p => Digits.str_of_N (Npos p)
  | Zneg p => "-" +:+ Digits.str_of_N (Npos p)
  end.

Definition dquote : ascii := ascii_of_N 34.
Definition squote : ascii := ascii_of_N 39.
Definition backslash : ascii := ascii_of_N 92.

(** One character of [repr(s)], inside the quote [q]. *)
Definition repr_char (q c : ascii) : string :=
  let n := N_of_ascii c in
  if Ascii.eqb c backslash then String backslash (String backslash "")
  else if Ascii.eqb c q then String backslash (String q "")
  else if (n =? 10)%N then String backslash "n"
  else if (n =? 13)%N then String backslash "r"
  else if (n =? 9)%N then String backslash "t"
  else if (n <? 32)%N || (n =? 127)%N
       then String backslash (String "x" (String (Digits.hex_digit (n / 16)) (String (Digits.hex_digit (n mod 16)) "")))
  else String c "".

(** One code point of [repr(s)]: past ASCII, a code point that is not
    printable is written as an escape of two, four or eight digits. *)
Definition repr_code_point (q : ascii) (c : N) : string :=
  if (c <? 128)%N then repr_char q (ascii_of_N c)
  else if Unicode.printable c then Utf8.string_of (Utf8.encode c)
  else if (c <? 256)%N then String backslash ("x" +:+ Digits.hex2 c)
  else if (c <? 65536)%N
  then String backslash ("u" +:+ Digits.hex2 (c / 256) +:+ Digits.hex2 (c mod 256))
  else String backslash
         ("U" +:+ Digits.hex2 (c / 16777216) +:+ Digits.hex2 ((c / 65536) mod 256)
          +:+ Digits.hex2 ((c / 256) mod 256) +:+ Digits.hex2 (c mod 256)).

Definition repr_chars (q : ascii) (s : string) : string :=
  String.concat "" (map (repr_code_point q) (default [] (Utf8.code_points (Utf8.bytes_of s)))).

(** [repr(s)] of a [str]: single quotes, unless the text has a single quote
    and no double quote. *)
Definition repr_str (s : string) : string :=
  let q := if PyStr.str_in (String squote "") s && negb (PyStr.str_in (String dquote "") s)
           then dquote else squote in
  String q (repr_chars q s +:+ String q "").

Definition join (sep : string) (l : list string) : string :=
  match l with
  | [] => ""
  | x :: r => fold_left (fun acc y => acc +:+ sep +:+ y) r x
  end.

(** [repr(v)] *)
Fixpoint repr (v : json) : string :=
  match v with
  | JNull => "None"
  | JBool true => "True"
  | JBool false => "False"
  | JInt z => str_of_Z z
  | JFloat l => l
  | JStr s => repr_str s
  | JList l => "[" +:+ join ", " (map repr l) +:+ "]"
  | JDict l =>
      "{" +:+ join ", " (map (fun kv => repr_str (fst kv) +:+ ": " +:+ repr (snd kv)) l) +:+ "}"
  end.

(** [str(v)], also what an f-string puts in place of [{v}] *)
Definition str (v : json) : string :=
  match v with
  | JStr s => s
  | _ => repr v
  end.

End Py.

(** [for x in v]: the items of a list, the keys of a dict, the characters
    of a str; anything else is not iterable. *)
Module PyIter.

Fixpoint chars (s : string) : list json :=
  match s with
  | EmptyString => []
  | String c r => JStr (String c "") :: chars r
  end.

Definition iter (v : json) : result (list json) :=
  match v with
  | JList l => Ok l
  | JDict l => Ok (map (fun kv => JStr (fst kv)) l)
  | JStr s => Ok (chars s)
  | _ => Raise (Py.not_a v "iterable")
  end.

End PyIter.

(** ** The clock: [datetime.now()] and its renderings *)

Module Clock.

(** One reading of the system clock: the instant, in microseconds since the
    epoch, and the offset of the process's time zone east of UTC, in
    seconds. *)
Record reading : Type := Reading { posix_us : Z; utc_offset : Z }.

Record datetime : Type := Datetime {
  year : Z; month : Z; day : Z;
  hour : Z; minute : Z; second : Z; microsecond : Z
}.

(** The proleptic Gregorian date of a day number counted from 1970-01-01. *)
Definition civil_from_days (days : Z) : Z * Z * Z :=
  let z := (days + 719468)%Z in
  let era := (z / 146097)%Z in
  let doe := (z - era * 146097)%Z in
  let yoe := ((doe - doe / 1460 + doe / 36524 - doe / 146096) / 365)%Z in
  let y := (yoe + era * 400)%Z in
  let doy := (doe - (365 * yoe + yoe / 4 - yoe / 100))%Z in
  let mp := ((5 * doy + 2) / 153)%Z in
  let d := (doy - (153 * mp + 2) / 5 + 1)%Z in
  let m := (if mp <? 10 then mp + 3 else mp - 9)%Z in
  ((if m <=? 2 then y + 1 else y)%Z, m, d).

Definition datetime_of_us (us : Z) : datetime :=
  let secs := (us / 1000000)%Z in
  let sod := (secs mod 86400)%Z in
  let '(y, m, d) := civil_from_days (secs / 86400) in
  Datetime y m d (sod / 3600) (sod mod 3600 / 60) (sod mod 60) (us mod 1000000).

(** [datetime.now()]: the naive local time of the reading. *)
Definition now (r : reading) : datetime :=
  datetime_of_us (posix_us r + utc_offset r * 1000000).

(** [datetime.utcnow()]; the code never calls it, the specification speaks
    of it. *)
Definition utcnow (r : reading) : datetime :=
  datetime_of_us (posix_us r).

(** The last [w] decimal digits of [n], most significant first: [%02d] and
    the like on a component that is in range. *)
Fixpoint pad (w : nat) (n : Z) : string :=
  match w with
  | O => ""
  | S w' => pad w' (n / 10) +:+ String (Digits.digit (Z.to_N (n mod 10))) ""
  end.

(** [d.strftime("%Y-%m-%d")] *)
Definition strftime_date (d : datetime) : string :=
  pad 4 (year d) +:+ "-" +:+ pad 2 (month d) +:+ "-" +:+ pad 2 (day d).

(** [d.strftime("%Y-%m-%d_%H-%M-%S")] *)
Definition strftime_stamp (d : datetime) : string :=
  strftime_date d +:+ "_" +:+ pad 2 (hour d) +:+ "-" +:+ pad 2 (minute d)
  +:+ "-" +:+ pad 2 (second d).

(** [d.isoformat()] *)
Definition isoformat (d : datetime) : string :=
  strftime_date d +:+ "T" +:+ pad 2 (hour d) +:+ ":" +:+ pad 2 (minute d)
  +:+ ":" +:+ pad 2 (second d)
  +:+ (if (microsecond d =? 0)%Z then "" else "." +:+ pad 6 (microsecond d)).

End Clock.

(** ** [mcp_server.py]: the priority heuristic *)

Module MCPEmailSystem.

Import PyStr.

Definition high_priority_keywords : list string :=
  ["urgente"; "urgent"; "crítico"; "critical"; "emergência"; "emergency";
   "imediato"; "immediate"].

Definition medium_priority_keywords : list string :=
  ["importante"; "important"; "atenção"; "attention"; "revisar"; "review"].

(** [for keyword in keywords: if keyword in subject or keyword in text:
    return ...]: whether the loop returns. *)
Fixpoint any_keyword (keywords : list string) (subject text : string) : bool :=
  match keywords with
  | [] => false
  | keyword :: rest =>
      if str_in keyword subject || str_in keyword text then true
      else any_keyword rest subject text
  end.

Definition _estimate_priority (email_data : json) : result string :=
  subject ← Py.get email_data "subject" (JStr "") ≫= Py.lower;
  text ← Py.get email_data "text" (JStr "") ≫= Py.lower;
  if any_keyword high_priority_keywords subject text then Ok "high"
  else if any_keyword medium_priority_keywords subject text then Ok "medium"
  else Ok "normal".


End MCPEmailSystem.

(** [json.dumps(v, indent=2, ensure_ascii=False)] *)
Module Json.

Definition newline : string := String (ascii_of_N 10) "".

Definition escape_char (c : ascii) : string :=
  let n := N_of_ascii c in
  if Ascii.eqb c Py.dquote then String Py.backslash (String Py.dquote "")
  else if Ascii.eqb c Py.backslash then String Py.backslash (String Py.backslash "")
  else if (n =? 10)%N then String Py.backslash "n"
  else if (n =? 13)%N then String Py.backslash "r"
  else if (n =? 9)%N then String Py.backslash "t"
  else if (n =? 8)%N then String Py.backslash "b"
  else if (n =? 12)%N then String Py.backslash "f"
  else if (n <? 32)%N
       then String Py.backslash
              ("u00" +:+ String (Digits.hex_digit (n / 16)) (String (Digits.hex_digit (n mod 16)) ""))
  else String c "".

Fixpoint escape (s : string) : string :=
  match s with
  | EmptyString => EmptyString
  | String c r => escape_char c +:+ escape r
  end.

Definition quoted (s : string) : string :=
  String Py.dquote (escape s +:+ String Py.dquote "").

Fixpoint dumps_at (indent : string) (v : json) : string :=
  let inner := indent +:+ "  " in
  match v with
  | JNull => "null"
  | JBool true => "true"
  | JBool false => "false"
  | JInt z => Py.str_of_Z z
  | JFloat l => l
  | JStr s => quoted s
  | JList [] => "[]"
  | JList l =>
      "[" +:+ newline +:+ inner
      +:+ Py.join ("," +:+ newline +:+ inner) (map (dumps_at inner) l)
      +:+ newline +:+ indent +:+ "]"
  | JDict [] => "{}"
  | JDict l =>
      "{" +:+ newline +:+ inner
      +:+ Py.join ("," +:+ newline +:+ inner)
            (map (fun kv => quoted (fst kv) +:+ ": " +:+ dumps_at inner (snd kv)) l)
      +:+ newline +:+ indent +:+ "}"
  end.

Definition dumps (v : json) : string := dumps_at "" v.

End Json.

(** ** The object store *)

Module Minio.

(** The bytes of an object, told apart by what [json.loads] makes of them:
    [Json v] is the text of the document [v], [Bytes b] is any content that
    does not parse (or does not decode as UTF-8). *)
Inductive content : Type :=
  | Json (v : json)
  | Bytes (b : string).

(** [len(data)] for the bytes the receiver makes of a document,
    [json.dumps(v, indent=2, ensure_ascii=False).encode('utf-8')], and for
    bytes that are no document. *)
Definition content_length (c : content) : nat :=
  match c with
  | Json v => String.length (Json.dumps v)
  | Bytes b => String.length b
  end.

(** [not data]: bytes that parse as a document are not empty. *)
Definition is_empty (c : content) : bool :=
  match c with
  | Json _ => false
  | Bytes b => String.eqb b ""
  end.

(** [json.loads(data.decode('utf-8'))] *)
Definition json_loads (c : content) : result json :=
  match c with
  | Json v => Ok v
  | Bytes _ => Raise (Exn JSONDecodeError "Expecting value: line 1 column 1 (char 0)")
  end.

Record object : Type := Object {
  object_name : string;
  data : content;
  size : nat;
  content_type : string
}.

Fixpoint find (name : string) (b : list object) : option object :=
  match b with
  | [] => None
  | x :: r => if String.eqb name (object_name x) then Some x else find name r
  end.

End Minio.

(** ** Code that reads the clock, calls the network and can raise

    A computation takes the state of the world and gives a result, or an
    exception, and the state it leaves. *)

Definition M (S A : Type) : Type := S -> result A * S.

Global Instance M_ret {S} : MRet (M S) := fun A a s => (Ok a, s).
Global Instance M_bind {S} : MBind (M S) := fun A B k m s =>
  match m s with
  | (Ok a, s') => k a s'
  | (Raise e, s') => (Raise e, s')
  end.

(** A pure operation that can raise, inside a computation. *)
Definition lift {S A} (r : result A) : M S A := fun s => (r, s).

(** [try: body except Exception as e: handler(e)] *)
Definition try_catch {S A} (body : M S A) (handler : exn -> M S A) : M S A :=
  fun s =>
    match body s with
    | (Ok a, s') => (Ok a, s')
    | (Raise e, s') => handler e s'
    end.

(** [for x in l: body(x)] *)
Fixpoint for_each {S A} (l : list A) (body : A -> M S unit) : M S unit :=
  match l with
  | [] => mret tt
  | x :: r => body x;; for_each r body
  end.

(** ** [email_receiver.py] *)

Module EmailReceiver.

Import Minio.

(** What [aiohttp] hands back for a request that was answered. *)
Record http_response : Type := Response { status : Z; body : content }.

Inductive level : Type := INFO | ERROR.

(** What the receiver does to the outside, in the order it does it. *)
Inductive event : Type :=
  | HttpGet (url : string)
  | HttpPost (url : string)
  | PutObject (bucket_name name : string)
  | ListObjects (bucket_name : string)
  | GetObject (bucket_name name : string)
  | Callback (arg : json)
  | Sleep (seconds : Z)
  | Log (l : level) (msg : string).

(** The outside, as the receiver meets it: each call to the clock, to
    MailDev, to MinIO or to the callback is numbered, and the outcome of
    the n-th call is what the record says. *)
Record env : Type := Env {
  clock : nat -> Clock.reading;
  session_get : nat -> string -> result http_response;
  session_post : nat -> string -> result http_response;
  list_objects_raises : nat -> option exn;
  get_object_raises : nat -> string -> option exn;
  callback_raises : nat -> json -> option exn
}.

(** The bucket "received_emails", what was done so far, and the number of
    calls made. *)
Record state : Type := State {
  bucket : list object;
  trace : list event;
  calls : nat
}.

Definition maildev_web_port : Z := 1080.
Definition bucket_name : string := "received_emails".

Definition emit (e : event) : M state unit :=
  fun s => (Ok tt, State (bucket s) (trace s ++ [e])%list (calls s)).

Definition tick : M state nat :=
  fun s => (Ok (calls s), State (bucket s) (trace s) (S (calls s))).

Definition get_bucket : M state (list object) :=
  fun s => (Ok (bucket s), s).

Definition logger_info (msg : string) : M state unit := emit (Log INFO msg).
Definition logger_error (msg : string) : M state unit := emit (Log ERROR msg).

Definition raise_if {S} (o : option exn) : M S unit :=
  match o with
  | Some e => lift (Raise e)
  | None => mret tt
  end.

(** [response.json()] *)
Definition response_json (r : http_response) : result json := json_loads (body r).

Section WithEnv.
Variable E : env.

Definition datetime_now : M state Clock.datetime :=
  n ← tick; mret (Clock.now (clock E n)).

Definition http_get (url : string) : M state http_response :=
  n ← tick; emit (HttpGet url);; lift (session_get E n url).

Definition http_post (url : string) : M state http_response :=
  n ← tick; emit (HttpPost url);; lift (session_post E n url).

Definition asyncio_sleep (seconds : Z) : M state unit := emit (Sleep seconds).

(** [self.minio_client.put_object(bucket_name, name, data=..., length=...,
    content_type=...)], as the module calls it: with a [bytes] value for
    [data], in both of its calls.  The client looks up the [read] method
    of its data before it sends anything, and [bytes] has none: the call
    raises and the bucket is as it was. *)
Definition minio_put_object (name : string) (d : content) (ctype : string) : M state unit :=
  _ ← tick; emit (PutObject bucket_name name);;
  lift (Raise (Exn AttributeError "'bytes' object has no attribute 'read'")).

(** [list(self.minio_client.list_objects(bucket_name, recursive=True))] *)
Definition minio_list_objects : M state (list object) :=
  n ← tick; emit (ListObjects bucket_name);;
  raise_if (list_objects_raises E n);;
  get_bucket.

(** [self.minio_client.get_object(bucket_name, name).read()] *)
Definition minio_get_object (name : string) : M state content :=
  n ← tick; emit (GetObject bucket_name name);;
  raise_if (get_object_raises E n name);;
  b ← get_bucket;
  match find name b with
  | Some o => mret (data o)
  | None => lift (Raise (Exn S3Error "NoSuchKey"))
  end.

Definition mails_url : string :=
  "http://localhost:" +:+ Py.str_of_Z maildev_web_port +:+ "/api/mails".

Definition mail_url (email_id : json) : string :=
  "http://localhost:" +:+ Py.str_of_Z maildev_web_port +:+ "/api/mail/" +:+ Py.str email_id.

Definition read_url (email_id : json) : string :=
  mail_url email_id +:+ "/read".

Definition attachment_url (email_id attachment_id : json) : string :=
  mail_url email_id +:+ "/attachment/" +:+ Py.str attachment_id.

(** [[email for email in emails if not email.get('read', False)]] *)
Fixpoint unread_of (emails : list json) : result (list json) :=
  match emails with
  | [] => Ok []
  | email :: rest =>
      r ← Py.get email "read" (JBool false);
      keep ← unread_of rest;
      Ok (if Py.truthy r then keep else email :: keep)
  end.

Definition get_unread_emails : M state (list json) :=
  try_catch
    (response ← http_get mails_url;
     if (status response =? 200)%Z then
       emails ← lift (response_json response);
       items ← lift (PyIter.iter emails);
       lift (unread_of items)
     else
       logger_error ("Erro ao buscar emails: " +:+ Py.str_of_Z (status response));;
       mret [])
    (fun e =>
       logger_error ("Erro ao buscar emails não lidos: " +:+ exn_str e);;
       mret []).

Definition get_email_content (email_id : json) : M state (option json) :=
  try_catch
    (response ← http_get (mail_url email_id);
     if (status response =? 200)%Z then
       v ← lift (response_json response); mret (Some v)
     else
       logger_error ("Erro ao buscar email " +:+ Py.str email_id +:+ ": "
                     +:+ Py.str_of_Z (status response));;
       mret None)
    (fun e =>
       logger_error ("Erro ao buscar conteúdo do email " +:+ Py.str email_id +:+ ": "
                     +:+ exn_str e);;
       mret None).

Definition mark_email_as_read (email_id : json) : M state unit :=
  try_catch
    (response ← http_post (read_url email_id);
     if (status response =? 200)%Z then
       logger_info ("Email " +:+ Py.str email_id +:+ " marcado como lido")
     else
       logger_error ("Erro ao marcar email " +:+ Py.str email_id +:+ " como lido: "
                     +:+ Py.str_of_Z (status response)))
    (fun e =>
       logger_error ("Erro ao marcar email " +:+ Py.str email_id +:+ " como lido: "
                     +:+ exn_str e)).

Definition email_object_name (timestamp : string) (email_id : json) : string :=
  timestamp +:+ "_" +:+ Py.str email_id +:+ "_email.json".

Definition save_received_email (email_data : json) : M state unit :=
  try_catch
    (email_id ← lift (Py.getitem email_data "id");
     now ← datetime_now;
     let timestamp := Clock.strftime_stamp now in
     let object_name := email_object_name timestamp email_id in
     let email_json := Json email_data in
     minio_put_object object_name email_json "application/json";;
     logger_info ("Email salvo no MinIO: " +:+ object_name))
    (fun e => logger_error ("Erro ao salvar email no MinIO: " +:+ exn_str e)).

Definition download_attachment (email_id attachment_id : json) : M state (option content) :=
  try_catch
    (response ← http_get (attachment_url email_id attachment_id);
     if (status response =? 200)%Z then mret (Some (body response))
     else
       logger_error ("Erro ao baixar anexo " +:+ Py.str attachment_id +:+ ": "
                     +:+ Py.str_of_Z (status response));;
       mret None)
    (fun e =>
       logger_error ("Erro ao baixar anexo " +:+ Py.str attachment_id +:+ ": " +:+ exn_str e);;
       mret None).

Definition attachment_object_name (email_id attachment_id filename : json) : string :=
  Py.str email_id +:+ "_" +:+ Py.str attachment_id +:+ "_" +:+ Py.str filename.

(** The body of the loop of [process_attachments], with its own handler. *)
Definition process_attachment (email_id attachment : json) : M state unit :=
  try_catch
    (attachment_id ← lift (Py.getitem attachment "id");
     attachment_content ← download_attachment email_id attachment_id;
     match attachment_content with
     | Some c =>
         if is_empty c then mret tt
         else
           attachment_id' ← lift (Py.getitem attachment "id");
           filename ← lift (Py.getitem attachment "filename");
           let object_name := attachment_object_name email_id attachment_id' filename in
           ctype ← lift (Py.get attachment "contentType" (JStr "application/octet-stream"));
           minio_put_object object_name c (Py.str ctype);;
           logger_info ("Anexo salvo: " +:+ object_name)
     | None => mret tt
     end)
    (fun e =>
       filename ← lift (Py.get attachment "filename" (JStr "unknown"));
       logger_error ("Erro ao processar anexo " +:+ Py.str filename +:+ ": " +:+ exn_str e)).

Definition process_attachments (email_id attachments : json) : M state unit :=
  try_catch
    (items ← lift (PyIter.iter attachments);
     for_each items (process_attachment email_id))
    (fun e =>
       logger_error ("Erro ao processar anexos do email " +:+ Py.str email_id +:+ ": "
                     +:+ exn_str e)).

Definition error_dict (msg : string) : json := JDict [("error", JStr msg)].

Definition process_received_email (email_data : json) : M state json :=
  try_catch
    (email_id ← lift (Py.getitem email_data "id");
     full_email ← get_email_content email_id;
     match full_email with
     | Some full_email =>
       if negb (Py.truthy full_email)
       then mret (error_dict "Não foi possível obter conteúdo do email")
       else
         id ← lift (Py.getitem email_data "id");
         from ← lift (Py.get full_email "from" (JDict []));
         to ← lift (Py.get full_email "to" (JList []));
         subject ← lift (Py.get full_email "subject" (JStr ""));
         text ← lift (Py.get full_email "text" (JStr ""));
         html ← lift (Py.get full_email "html" (JStr ""));
         attachments ← lift (Py.get full_email "attachments" (JList []));
         now1 ← datetime_now;
         received_at ← lift (Py.get full_email "time" (JStr (Clock.isoformat now1)));
         now2 ← datetime_now;
         let processed_email :=
           JDict [("id", id); ("from", from); ("to", to); ("subject", subject);
                  ("text", text); ("html", html); ("attachments", attachments);
                  ("received_at", received_at);
                  ("processed_at", JStr (Clock.isoformat now2))] in
         save_received_email processed_email;;
         (if Py.truthy attachments then process_attachments id attachments else mret tt);;
         logger_info ("Email " +:+ Py.str id +:+ " processado com sucesso");;
         mret processed_email
     | None => mret (error_dict "Não foi possível obter conteúdo do email")
     end)
    (fun e =>
       shown ← lift (Py.get email_data "id" (JStr "unknown"));
       logger_error ("Erro ao processar email " +:+ Py.str shown +:+ ": " +:+ exn_str e);;
       mret (error_dict (exn_str e))).

(** [await callback(processed_email)] *)
Definition call_callback (processed_email : json) : M state unit :=
  n ← tick; emit (Callback processed_email);;
  raise_if (callback_raises E n processed_email).

(** The body of the [for] loop of [listen_for_emails]; [callback] tells
    whether a callable was passed. *)
Definition listen_iteration (callback : bool) (email : json) : M state unit :=
  shown ← lift (Py.get email "id" (JStr "unknown"));
  logger_info ("Processando email: " +:+ Py.str shown);;
  processed_email ← process_received_email email;
  (if callback then call_callback processed_email else mret tt);;
  email_id ← lift (Py.getitem email "id");
  mark_email_as_read email_id.

(** One turn of the [while True] loop of [listen_for_emails]. *)
Definition listen_cycle (callback : bool) : M state unit :=
  try_catch
    (unread_emails ← get_unread_emails;
     for_each unread_emails (listen_iteration callback);;
     asyncio_sleep 30)
    (fun e =>
       logger_error ("Erro no listener de emails: " +:+ exn_str e);;
       asyncio_sleep 60).

(** [listen_for_emails], stopped after [cycles] turns of a loop that has
    no exit. *)
Fixpoint listen_loop (cycles : nat) (callback : bool) : M state unit :=
  match cycles with
  | O => mret tt
  | S n => listen_cycle callback;; listen_loop n callback
  end.

Definition listen_for_emails (cycles : nat) (callback : bool) : M state unit :=
  logger_info "Iniciando listener de emails do MailDev...";;
  listen_loop cycles callback.

(** [l[start:stop]] *)
Definition clamp (n i : Z) : Z :=
  if (i <? 0)%Z then Z.max (i + n) 0 else Z.min i n.

Definition slice {A} (l : list A) (start stop : Z) : list A :=
  let n := Z.of_nat (length l) in
  let a := clamp n start in
  let b := clamp n stop in
  take (Z.to_nat (b - a)) (drop (Z.to_nat a) l).

(** The loop of [get_received_emails] over the listed objects: an object
    that cannot be read or parsed is logged and left out. *)
Fixpoint read_emails (objects : list object) : M state (list json) :=
  match objects with
  | [] => mret []
  | obj :: rest =>
      read ← try_catch
               (response ← minio_get_object (object_name obj);
                email_data ← lift (json_loads response);
                mret [email_data])
               (fun e =>
                  logger_error ("Erro ao ler email " +:+ object_name obj +:+ ": "
                                +:+ exn_str e);;
                  mret []);
      emails ← read_emails rest;
      mret (read ++ emails)%list
  end.

Definition get_received_emails (limit offset : Z) : M state (list json) :=
  try_catch
    (objects ← minio_list_objects;
     read_emails (slice objects offset (offset + limit)))
    (fun e =>
       logger_error ("Erro ao listar emails recebidos: " +:+ exn_str e);;
       mret []).

(** [a or b], where [b] is evaluated only when [a] is false. *)
Definition or_else (a b : result bool) : result bool :=
  match a with
  | Ok true => Ok true
  | Ok false => b
  | Raise e => Raise e
  end.

(** The condition of the [if] in [search_received_emails]. *)
Definition email_matches (query_lower : string) (email : json) : result bool :=
  or_else (s ← Py.get email "subject" (JStr "") ≫= Py.lower;
           Ok (PyStr.str_in query_lower s))
 (or_else (v ← Py.get email "from" (JDict []);
           Ok (PyStr.str_in query_lower (PyStr.lower (Py.str v))))
 (or_else (v ← Py.get email "to" (JList []);
           Ok (PyStr.str_in query_lower (PyStr.lower (Py.str v))))
 (or_else (s ← Py.get email "text" (JStr "") ≫= Py.lower;
           Ok (PyStr.str_in query_lower s))
          (s ← Py.get email "html" (JStr "") ≫= Py.lower;
           Ok (PyStr.str_in query_lower s))))).

Fixpoint matching_emails (query_lower : string) (all_emails : list json)
    : result (list json) :=
  match all_emails with
  | [] => Ok []
  | email :: rest =>
      hit ← email_matches query_lower email;
      found ← matching_emails query_lower rest;
      Ok (if hit : bool then email :: found else found)
  end.

Definition search_received_emails (query : string) : M state (list json) :=
  try_catch
    (all_emails ← get_received_emails 1000 0;
     let query_lower := PyStr.lower query in
     lift (matching_emails query_lower all_emails))
    (fun e =>
       logger_error ("Erro na busca de emails: " +:+ exn_str e);;
       mret []).

Definition is_email_object (obj : object) : bool :=
  PyStr.endswith "_email.json" (object_name obj).

Definition get_statistics : M state json :=
  try_catch
    (objects ← minio_list_objects;
     let total_emails := length (filter (fun obj => is_email_object obj = true) objects) in
     let total_attachments := length (filter (fun obj => is_email_object obj = false) objects) in
     now ← datetime_now;
     mret (JDict [("total_emails_received", JInt (Z.of_nat total_emails));
                  ("total_attachments", JInt (Z.of_nat total_attachments));
                  ("bucket_size_bytes", JInt (Z.of_nat (foldr Nat.add 0 (map size objects))));
                  ("last_updated", JStr (Clock.isoformat now))]))
    (fun e =>
       logger_error ("Erro ao obter estatísticas: " +:+ exn_str e);;
       mret (error_dict (exn_str e))).

End WithEnv.

(** *** Words of the specification about the receiver *)

(** What the loop of [get_received_emails] keeps of the objects it is
    given, when the first of them is read by the call numbered [n]: an
    object whose read fails, which is gone, or which does not parse, is left
    out. *)
Definition readable (E : env) (b : list object) (n : nat) (o : object) : list json :=
  match get_object_raises E n (object_name o) with
  | Some _ => []
  | None =>
      match find (object_name o) b with
      | Some o' => match data o' with Json v => [v] | Bytes _ => [] end
      | None => []
      end
  end.

Fixpoint readable_from (E : env) (b : list object) (n : nat) (objects : list object)
    : list json :=
  match objects with
  | [] => []
  | o :: rest => (readable E b n o ++ readable_from E b (S n) rest)%list
  end.

Definition is_post (ev : event) : bool :=
  match ev with
  | HttpPost _ => true
  | _ => false
  end.

Definition is_log (ev : event) : bool :=
  match ev with
  | Log _ _ => true
  | _ => false
  end.

(** Nothing in the trace marks a message as consumed. *)
Definition no_post (tr : list event) : Prop :=
  Forall (fun ev => is_post ev = false) tr.

(** A computation that marks no message as consumed. *)
Definition marks_nothing {A} (m : M state A) : Prop :=
  forall s, exists tr, trace (snd (m s)) = (trace s ++ tr)%list /\ no_post tr.

(** A computation whose first act is the event [ev], and which marks no
    message as consumed. *)
Definition starts_with {A} (ev : event) (m : M state A) : Prop :=
  forall s, exists tr, trace (snd (m s)) = (trace s ++ ev :: tr)%list /\ no_post tr.

Definition only_logs (tr : list event) : Prop :=
  Forall (fun ev => is_log ev = true) tr.

(** The trace of one turn of the loop over the unread messages, for a
    message whose id is [email_id]: the request that marks the message
    comes after the request for its content and after everything else the
    turn does (fetching, persisting, the callback), log lines apart; and
    nothing else is marked. *)
Definition marked_after_fetch (email_id : json) (tr : list event) : Prop :=
  exists tr1 tr2,
    tr = (tr1 ++ HttpPost (read_url email_id) :: tr2)%list
    /\ no_post tr1 /\ In (HttpGet (mail_url email_id)) tr1 /\ only_logs tr2.

(** Every request that marks a message as consumed comes after the request
    for the content of that message. *)
Definition marks_follow_fetch (tr : list event) : Prop :=
  forall pre u post,
    tr = (pre ++ HttpPost u :: post)%list ->
    exists email_id, u = read_url email_id /\ In (HttpGet (mail_url email_id)) pre.

(** A computation in which every mark follows its fetch. *)
Definition follows {A} (m : M state A) : Prop :=
  forall s, exists tr,
    trace (snd (m s)) = (trace s ++ tr)%list /\ marks_follow_fetch tr.





(** No callback was passed, or the callback never raises. *)
Definition callback_safe (E : env) (callback : bool) : Prop :=
  callback = false \/ forall n v, callback_raises E n v = None.


(** The store answers every request. *)
Definition store_available (E : env) : Prop :=
  (forall n, list_objects_raises E n = None)
  /\ (forall n name, get_object_raises E n name = None).

(** The documents held by a list of objects, in order. *)
Definition documents (objects : list object) : list json :=
  flat_map (fun o => match data o with Json v => [v] | Bytes _ => [] end) objects.

(** The first of the documents that carries the source id. *)
Fixpoint find_by_id (email_id : string) (emails : list json) : option json :=
  match emails with
  | [] => None
  | m :: rest =>
      match Py.get m "id" JNull with
      | Ok (JStr i) => if String.eqb i email_id then Some m else find_by_id email_id rest
      | _ => find_by_id email_id rest
      end
  end.

Definition str_field (email : json) (k : string) : option string :=
  match Py.get email k (JStr "") with
  | Ok (JStr s) => Some s
  | _ => None
  end.

Definition shown_field (email : json) (k : string) (dflt : json) : option string :=
  match Py.get email k dflt with
  | Ok v => Some (Py.str v)
  | Raise _ => None
  end.

(** The five texts a search looks into: the subject, the sender and the
    recipients as [str] shows them, the plain text and the HTML.  They exist
    for a message record: a dict whose subject, text and html, when
    present, are strings. *)
Definition searched_fields (email : json) : option (list string) :=
  subject ← str_field email "subject";
  from ← shown_field email "from" (JDict []);
  to ← shown_field email "to" (JList []);
  text ← str_field email "text";
  html ← str_field email "html";
  Some [subject; from; to; text; html].

(** Whether one of the five texts has the lowered query in its lowered
    form. *)
Definition hit (query_lower : string) (email : json) : bool :=
  match searched_fields email with
  | Some fields => existsb (fun f => PyStr.str_in query_lower (PyStr.lower f)) fields
  | None => false
  end.


End EmailReceiver.

(** ** [mimetypes.guess_type] *)

Module Mimetypes.

Import PyStr.

(** [posixpath.splitext]: the extension starts at the last dot of the last
    path component, leading dots of the component set aside. *)
Fixpoint rsplit_dot (s : string) : option (string * string) :=
  match s with
  | EmptyString => None
  | String c r =>
      match rsplit_dot r with
      | Some (u, v) => Some (String c u, v)
      | None => if Ascii.eqb c "." then Some (EmptyString, r) else None
      end
  end.

Fixpoint all_dots (s : string) : bool :=
  match s with
  | EmptyString => true
  | String c r => Ascii.eqb c "." && all_dots r
  end.

Fixpoint has_slash (s : string) : bool :=
  match s with
  | EmptyString => false
  | String c r => Ascii.eqb c "/" || has_slash r
  end.

Fixpoint basename (s : string) : string :=
  match s with
  | EmptyString => EmptyString
  | String c r => if has_slash s then basename r else s
  end.

Definition splitext (p : string) : string * string :=
  match rsplit_dot p with
  | Some (root, ext) =>
      if has_slash ext || all_dots (basename root) then (p, "")
      else (root, "." +:+ ext)
  | None => (p, "")
  end.

(** The tables of the module; [types_map] is the one the installation
    provides (the built-in table extended by the system's mime.types). *)
Definition suffix_map : list (string * string) :=
  [(".svgz", ".svg.gz"); (".tgz", ".tar.gz"); (".taz", ".tar.gz"); (".tz", ".tar.gz");
   (".tbz2", ".tar.bz2"); (".txz", ".tar.xz")].

Definition encodings_map : list (string * string) :=
  [(".gz", "gzip"); (".Z", "compress"); (".bz2", "bzip2"); (".xz", "xz"); (".br", "br")].

(** An excerpt of the built-in table. *)
Definition default_types_map : list (string * string) :=
  [(".txt", "text/plain"); (".csv", "text/csv"); (".html", "text/html");
   (".png", "image/png"); (".jpg", "image/jpeg"); (".gif", "image/gif");
   (".mp3", "audio/mpeg"); (".wav", "audio/x-wav");
   (".pdf", "application/pdf"); (".json", "application/json");
   (".zip", "application/zip"); (".tar", "application/x-tar");
   (".bin", "application/octet-stream"); (".exe", "application/octet-stream")].

(** [urllib.parse._splittype], which CPython 3.11 calls to take a URL
    scheme off the name: the text before the first colon, in lower case,
    when it is not empty and has no slash, and the text after that colon.
    (CPython 3.12 takes the scheme and the path that [urlparse] finds;
    [guess_type] below takes the split as a parameter.) *)
Fixpoint scheme_prefix (s : string) : option (string * string) :=
  match s with
  | EmptyString => None
  | String c r =>
      if Ascii.eqb c ":" then Some (EmptyString, r)
      else if Ascii.eqb c "/" then None
      else match scheme_prefix r with
           | Some (u, v) => Some (String c u, v)
           | None => None
           end
  end.

Definition _splittype (url : string) : result (option string * string) :=
  match scheme_prefix url with
  | Some (scheme, data) =>
      if String.eqb scheme "" then Ok (None, url) else Ok (Some (lower scheme), data)
  | None => Ok (None, url)
  end.

(** The branch of [guess_type] for the scheme "data": the media type
    written before the first comma, up to its first semicolon, and
    text/plain when that is not of the form type/subtype. *)
Definition data_url_type (url : string) : option string * option string :=
  match split_at "," url with
  | None => (None, None)
  | Some (before, _) =>
      let type :=
        match split_at ";" before with
        | Some (t, _) => t
        | None => before
        end in
      (Some (if str_in "=" type || negb (str_in "/" type) then "text/plain" else type), None)
  end.

(** [while (ext_lower := ext.lower()) in suffix_map: base, ext =
    splitext(base + suffix_map[ext_lower])]; no extension that the table
    gives is one of its keys, so that the loop ends after one turn. *)
Fixpoint strip_suffixes (fuel : nat) (base ext : string) : string * string :=
  match Py.assoc (lower ext) suffix_map with
  | Some long =>
      match fuel with
      | S f => let '(base', ext') := splitext (base +:+ long) in strip_suffixes f base' ext'
      | O => (base, ext)
      end
  | None => (base, ext)
  end.

(** [mimetypes.guess_type(url)]: the type and the encoding guessed for a
    name; [splittype] is the split of a URL scheme that [urllib] does,
    which can raise, and [types_map] the table of the installation. *)
Definition guess_type (splittype : string -> result (option string * string))
    (types_map : list (string * string)) (url : string)
    : result (option string * option string) :=
  '(scheme, url) ← splittype url;
  match scheme with
  | Some "data" => Ok (data_url_type url)
  | _ =>
      let '(base, ext) := splitext url in
      let '(base, ext) := strip_suffixes (length suffix_map) base ext in
      let '(encoding, ext) :=
        match Py.assoc ext encodings_map with
        | Some enc => (Some enc, snd (splitext base))
        | None => (None, ext)
        end in
      Ok (Py.assoc (lower ext) types_map, encoding)
  end.

End Mimetypes.

(** ** [main.py] *)

Module Main.

(** [smtp_config.json] *)
Record smtp_config : Type := SmtpConfig {
  sender_email : string;
  sender_domain : string;
  sender_password : string;
  smtp_server : string;
  smtp_port : Z;
  use_ssl : bool;
  use_tls : bool;
  use_password : bool
}.

Record EmailRequest : Type := Build_EmailRequest {
  recipient_email : string;
  subject : string;
  body : string;
  debug : bool
}.

(** One part of a MIME message: its content type, the charset of a text
    part, the Content-Transfer-Encoding, the content before that encoding
    is applied, and the file name of its Content-Disposition. *)
Record mime_part : Type := Part {
  maintype : string;
  subtype : string;
  charset : option string;
  transfer_encoding : string;
  payload : string;
  attachment_filename : option string
}.

Record mime_message : Type := Message {
  headers : list (string * string);
  parts : list mime_part
}.

(** [MIMEText(text, _subtype)]: us-ascii when the text is ASCII, else utf-8
    sent as base64. *)
Definition MIMEText (text sub : string) : mime_part :=
  if Utf8.is_ascii text then Part "text" sub (Some "us-ascii") "7bit" text None
  else Part "text" sub (Some "utf-8") "base64" text None.

(** [MIMEImage(data, _subtype)] and [MIMEAudio(data, _subtype)] encode
    base64. *)
Definition MIMEImage (content sub : string) : mime_part :=
  Part "image" sub None "base64" content None.

Definition MIMEAudio (content sub : string) : mime_part :=
  Part "audio" sub None "base64" content None.

(** [MIMEBase(maintype, subtype)] with [set_payload] and
    [encoders.encode_base64]. *)
Definition MIMEBase_base64 (main sub content : string) : mime_part :=
  Part main sub None "base64" content None.

(** [part.add_header('Content-Disposition', 'attachment', filename=filename)] *)
Definition add_disposition (filename : string) (p : mime_part) : mime_part :=
  Part (maintype p) (subtype p) (charset p) (transfer_encoding p) (payload p) (Some filename).

(** [MIMEMultipart()]: a message of no part yet, with the two headers the
    class sets. *)
Definition MIMEMultipart : mime_message :=
  Message [("Content-Type", "multipart/mixed"); ("MIME-Version", "1.0")] [].

(** [message.attach(part)] *)
Definition attach (p : mime_part) (m : mime_message) : mime_message :=
  Message (headers m) (parts m ++ [p])%list.

(** [message[name] = value] *)
Definition set_header (name value : string) (m : mime_message) : mime_message :=
  Message (headers m ++ [(name, value)])%list (parts m).

(** What is kept in a file under [data/]. *)
Inductive file : Type :=
  | ResultFile (result : json)
  | TextFile (text : string).

Inductive smtp_step : Type := Connect | Starttls | Login | Sendmail | Quit.

Inductive event : Type :=
  | GetObject (bucket_name name : string)
  | SmtpConnect (ssl : bool) (server : string) (port : Z)
  | SmtpStarttls
  | SmtpLogin (user password : string)
  | SmtpSendmail (from to msg : string)
  | SmtpQuit
  | Makedirs (path : string)
  | OpenWrite (path : string).

(** The outside, as the dispatcher meets it; calls are numbered as they are
    made. *)
Record env : Type := Env {
  config : smtp_config;
  types_map : list (string * string);
  (** the split of a URL scheme off a name, as [urllib] does it *)
  splittype : string -> result (option string * string);
  clock : nat -> Clock.reading;
  (** the objects of the bucket "emails" *)
  get_object : nat -> string -> result string;
  (** what the relay, or the connection to it, answers to a step *)
  smtp_raises : nat -> smtp_step -> option exn;
  (** whether creating and writing a file fails *)
  write_raises : nat -> string -> option exn;
  (** [message.as_string()] *)
  as_string : mime_message -> string
}.

Record state : Type := State {
  fs : gmap string file;
  trace : list event;
  calls : nat
}.

Definition emit (e : event) : M state unit :=
  fun s => (Ok tt, State (fs s) (trace s ++ [e])%list (calls s)).

Definition tick : M state nat :=
  fun s => (Ok (calls s), State (fs s) (trace s) (S (calls s))).

Definition raise_if (o : option exn) : M state unit :=
  match o with
  | Some e => lift (Raise e)
  | None => mret tt
  end.

Definition store_file (path : string) (content : file) : M state unit :=
  fun s => (Ok tt, State (<[path := content]> (fs s)) (trace s) (calls s)).

(** [os.path.join(a, b)] *)
Definition path_join (a b : string) : string :=
  if PyStr.startswith "/" b then b
  else if String.eqb a "" || PyStr.endswith "/" a then a +:+ b
  else a +:+ "/" +:+ b.

Definition weekday_name (days : Z) : string :=
  nth (Z.to_nat ((days + 3) mod 7)) ["Mon"; "Tue"; "Wed"; "Thu"; "Fri"; "Sat"; "Sun"] "".

Definition month_name (m : Z) : string :=
  nth (Z.to_nat (m - 1))
    ["Jan"; "Feb"; "Mar"; "Apr"; "May"; "Jun"; "Jul"; "Aug"; "Sep"; "Oct"; "Nov"; "Dec"] "".

(** [email.utils.formatdate(localtime=True)] *)
Definition formatdate (r : Clock.reading) : string :=
  let d := Clock.now r in
  let local_days := ((Clock.posix_us r / 1000000 + Clock.utc_offset r) / 86400)%Z in
  let off := Z.abs (Clock.utc_offset r) in
  weekday_name local_days +:+ ", " +:+ Clock.pad 2 (Clock.day d) +:+ " "
  +:+ month_name (Clock.month d) +:+ " " +:+ Clock.pad 4 (Clock.year d) +:+ " "
  +:+ Clock.pad 2 (Clock.hour d) +:+ ":" +:+ Clock.pad 2 (Clock.minute d) +:+ ":"
  +:+ Clock.pad 2 (Clock.second d) +:+ " "
  +:+ (if (Clock.utc_offset r <? 0)%Z then "-" else "+")
  +:+ Clock.pad 2 (off / 3600) +:+ Clock.pad 2 (off mod 3600 / 60).

(** The chain of [except] clauses of [send_email_task]: the detail that
    the first clause matching the exception records. *)
Definition failure_detail (e : exn) : string :=
  if isinstance e SMTPAuthenticationError
  then "Authentication failed. Check your username and password."
  else if isinstance e SMTPConnectError
  then "Failed to connect to the SMTP server."
  else if isinstance e SMTPRecipientsRefused
  then "Recipient address rejected by the server."
  else if isinstance e SMTPSenderRefused
  then "Sender address rejected by the server."
  else if isinstance e SMTPDataError
  then "The SMTP server refused to accept the message data."
  else if isinstance e SMTPException
  then "An SMTP error occurred: " +:+ exn_str e
  else "An unexpected error occurred: " +:+ exn_str e.

Section WithEnv.
Variable E : env.

Definition datetime_now : M state Clock.datetime :=
  n ← tick; mret (Clock.now (clock E n)).

(** [os.makedirs(path, exist_ok=True)] *)
Definition makedirs (path : string) : M state unit :=
  n ← tick; emit (Makedirs path);; raise_if (write_raises E n path).

(** [with open(path, "w") as f: ...]: the file holds [content] afterwards *)
Definition write_file (path : string) (content : file) : M state unit :=
  n ← tick; emit (OpenWrite path);;
  raise_if (write_raises E n path);;
  store_file path content.

Definition save_email_result (email_id status detail client_ip : string)
    (request_headers : json) (message_length : Z) : M state unit :=
  now ← datetime_now;
  let date_str := Clock.strftime_date now in
  let status_dir := if String.eqb status "success" then "success" else "failure" in
  let dir_path := path_join (path_join "data" date_str) status_dir in
  makedirs dir_path;;
  now' ← datetime_now;
  let result :=
    JDict [("email_id", JStr email_id); ("status", JStr status); ("detail", JStr detail);
           ("timestamp", JStr (Clock.isoformat now')); ("client_ip", JStr client_ip);
           ("headers", request_headers); ("message_length", JInt message_length)] in
  write_file (path_join dir_path (email_id +:+ ".json")) (ResultFile result).

Definition save_debug_email (email_id : string) (message : mime_message) : M state unit :=
  now ← datetime_now;
  let date_str := Clock.strftime_date now in
  let dir_path := path_join (path_join "data" date_str) "debug" in
  makedirs dir_path;;
  write_file (path_join dir_path (email_id +:+ "_email.txt")) (TextFile (as_string E message)).

(** [minio_client.get_object("emails", object_name).read()] *)
Definition minio_get_object (object_name : string) : M state string :=
  n ← tick; emit (GetObject "emails" object_name);; lift (get_object E n object_name).

(** [s.split(sep, 1)[1]] *)
Definition split1_second (sep : ascii) (s : string) : result string :=
  match PyStr.split_at sep s with
  | Some (_, rest) => Ok rest
  | None => Raise (Exn IndexError "list index out of range")
  end.

(** [maintype, subtype = ctype.split('/', 1)] *)
Definition split_ctype (ctype : string) : result (string * string) :=
  match PyStr.split_at "/" ctype with
  | Some p => Ok p
  | None => Raise (Exn ValueError "not enough values to unpack (expected 2, got 1)")
  end.

(** [if ctype is None or encoding is not None: ctype =
    "application/octet-stream"] *)
Definition settled_ctype (guessed : option string * option string) : string :=
  match guessed with
  | (Some ctype, None) => ctype
  | _ => "application/octet-stream"
  end.

(** The [if maintype == ...] chain of [add_attachment]. *)
Definition typed_part (main sub file_content : string) : result mime_part :=
  if String.eqb main "text" then
    text ← Utf8.decode file_content; Ok (MIMEText text sub)
  else if String.eqb main "image" then Ok (MIMEImage file_content sub)
  else if String.eqb main "audio" then Ok (MIMEAudio file_content sub)
  else Ok (MIMEBase_base64 main sub file_content).

Definition add_attachment (object_name : string) : M state mime_part :=
  file_content ← minio_get_object object_name;
  filename ← lift (split1_second "_" object_name);
  guessed ← lift (Mimetypes.guess_type (splittype E) (types_map E) filename);
  let ctype := settled_ctype guessed in
  '(main, sub) ← lift (split_ctype ctype);
  attachment ← lift (typed_part main sub file_content);
  mret (add_disposition filename attachment).

(** The loop over [attachment_names]: a name that is [None] or empty is
    passed over. *)
Fixpoint attach_all (attachment_names : list (option string)) (message : mime_message)
    : M state mime_message :=
  match attachment_names with
  | [] => mret message
  | object_name :: rest =>
      match object_name with
      | Some name =>
          if String.eqb name "" then attach_all rest message
          else
            attachment_part ← add_attachment name;
            attach_all rest (attach attachment_part message)
      | None => attach_all rest message
      end
  end.

(** The first lines of the [try] block of [send_email_task]: the message. *)
Definition build_message (email_request : EmailRequest) (email_id : string)
    (attachment_names : list (option string)) : M state mime_message :=
  n ← tick;
  let message :=
    set_header "Message-ID" ("<" +:+ email_id +:+ "@" +:+ sender_domain (config E) +:+ ">")
    (set_header "Date" (formatdate (clock E n))
    (set_header "Subject" (subject email_request)
    (set_header "To" (recipient_email email_request)
    (set_header "From" (sender_email (config E))
    MIMEMultipart)))) in
  let message := attach (MIMEText (body email_request) "plain") message in
  attach_all attachment_names message.

Definition smtp_do (step : smtp_step) (e : event) : M state unit :=
  n ← tick; emit e;; raise_if (smtp_raises E n step).

(** [with smtplib.SMTP(...) as server: body]: leaving the block sends
    QUIT, whether [body] raised or not; a refused QUIT raises in place of
    what [body] raised, a dropped connection does not. *)
Definition server_exit : M state unit :=
  try_catch (smtp_do Quit SmtpQuit)
    (fun e => if isinstance e SMTPServerDisconnected then mret tt else lift (Raise e)).

Definition leaving (body : M state unit) : M state unit :=
  fun s =>
    let '(r, s1) := body s in
    match server_exit s1 with
    | (Ok _, s2) => (r, s2)
    | (Raise e, s2) => (Raise e, s2)
    end.

Definition with_server (ssl : bool) (body : M state unit) : M state unit :=
  smtp_do Connect (SmtpConnect ssl (smtp_server (config E)) (smtp_port (config E)));;
  leaving body.

Definition login_and_send (email_request : EmailRequest) (message : mime_message)
    : M state unit :=
  (if use_password (config E)
   then smtp_do Login (SmtpLogin (sender_email (config E)) (sender_password (config E)))
   else mret tt);;
  smtp_do Sendmail (SmtpSendmail (sender_email (config E)) (recipient_email email_request)
                      (as_string E message)).

Definition deliver (email_request : EmailRequest) (message : mime_message) : M state unit :=
  if use_ssl (config E) then
    with_server true (login_and_send email_request message)
  else
    with_server false
      ((if use_tls (config E) then smtp_do Starttls SmtpStarttls else mret tt);;
       login_and_send email_request message).

(** The [try] block of [send_email_task]. *)
Definition send_email_try (email_request : EmailRequest) (email_id client_ip : string)
    (request_headers : json) (attachment_names : list (option string)) : M state unit :=
  message ← build_message email_request email_id attachment_names;
  let message_length := Z.of_nat (String.length (as_string E message)) in
  deliver email_request message;;
  save_email_result email_id "success" "Email sent successfully" client_ip
    request_headers message_length;;
  if debug email_request then save_debug_email email_id message else mret tt.

Definition send_email_task (email_request : EmailRequest) (email_id client_ip : string)
    (request_headers : json) (attachment_names : list (option string)) : M state unit :=
  try_catch
    (send_email_try email_request email_id client_ip request_headers attachment_names)
    (fun e =>
       save_email_result email_id "failure" (failure_detail e) client_ip request_headers 0).

End WithEnv.

(** The delivery results on disk for a message id: the result files whose
    record carries the id. *)
Definition is_result_for (email_id : string) (f : file) : bool :=
  match f with
  | ResultFile r =>
      match Py.get r "email_id" JNull with
      | Ok (JStr i) => String.eqb i email_id
      | _ => false
      end
  | TextFile _ => false
  end.

Definition results_for (email_id : string) (files : gmap string file) : gmap string file :=
  filter (fun kv => is_result_for email_id (snd kv) = true) files.

Definition is_sendmail (ev : event) : bool :=
  match ev with
  | SmtpSendmail _ _ _ => true
  | _ => false
  end.

(** A computation that leaves the files as they are. *)
Definition keeps_fs {A} (m : M state A) : Prop :=
  forall s, fs (snd (m s)) = fs s.

(** The local disk takes every write. *)
Definition disk_ok (E : env) : Prop := forall n p, write_raises E n p = None.

(** The words of the specification for the place of a result: the date,
    the status and the message id, under [data/]. *)
Definition result_key (date status_dir email_id : string) : string :=
  "data/" +:+ date +:+ "/" +:+ status_dir +:+ "/" +:+ email_id +:+ ".json".

(** The failure classes the specification names. *)
Inductive failure_class : Type :=
  | AuthenticationFailed
  | ConnectionFailed
  | RecipientRejected
  | SenderRejected
  | DataRejected
  | GenericSMTPFailure
  | Uncategorized.

(** The class that a recorded detail names. *)
Definition class_of_detail (detail : string) : option failure_class :=
  if String.eqb detail "Authentication failed. Check your username and password."
  then Some AuthenticationFailed
  else if String.eqb detail "Failed to connect to the SMTP server."
  then Some ConnectionFailed
  else if String.eqb detail "Recipient address rejected by the server."
  then Some RecipientRejected
  else if String.eqb detail "Sender address rejected by the server."
  then Some SenderRejected
  else if String.eqb detail "The SMTP server refused to accept the message data."
  then Some DataRejected
  else if PyStr.startswith "An SMTP error occurred: " detail then Some GenericSMTPFailure
  else if PyStr.startswith "An unexpected error occurred: " detail then Some Uncategorized
  else None.

End Main.

(** ** Concrete runs used by the examples below *)

Module Scenario.

(** 2026-11-03 13:50:00 UTC, read in a process whose zone is UTC. *)
Definition afternoon : Clock.reading := Clock.Reading 1793713800000000 0.

(** 2026-11-03 23:30:00 UTC, read in a process whose zone is UTC+2. *)
Definition late_evening : Clock.reading := Clock.Reading 1793748600000000 7200.

Definition config : Main.smtp_config :=
  Main.SmtpConfig "noreply@example.org" "example.org" "secret" "smtp.example.org" 587
    false true true.

(** A rendering of a message that is enough to tell messages apart. *)
Definition render (m : Main.mime_message) : string :=
  Py.join Json.newline
    (map (fun h => fst h +:+ ": " +:+ snd h) (Main.headers m)
     ++ map (fun p => Main.maintype p +:+ "/" +:+ Main.subtype p +:+ Json.newline
                      +:+ Main.payload p) (Main.parts m))%list.

Definition no_object : nat -> string -> result string :=
  fun _ _ => Raise (Exn S3Error "NoSuchKey").

(** The relay accepts everything and the disk takes every write. *)
Definition all_well (now : Clock.reading) : Main.env :=
  Main.Env config Mimetypes.default_types_map Mimetypes._splittype (fun _ => now) no_object
    (fun _ _ => None) (fun _ _ => None) render.

(** The relay refuses the credentials. *)
Definition login_refused : Main.env :=
  Main.Env config Mimetypes.default_types_map Mimetypes._splittype (fun _ => afternoon) no_object
    (fun _ step =>
       match step with
       | Main.Login =>
           Some (Exn SMTPAuthenticationError "(535, b'5.7.8 Authentication failed')")
       | _ => None
       end)
    (fun _ _ => None) render.

(** The relay is not listening: connecting to it is refused. *)
Definition relay_down : Main.env :=
  Main.Env config Mimetypes.default_types_map Mimetypes._splittype (fun _ => afternoon) no_object
    (fun _ step =>
       match step with
       | Main.Connect => Some (Exn ConnectionRefusedError "[Errno 111] Connection refused")
       | _ => None
       end)
    (fun _ _ => None) render.

(** The relay accepts everything; the disk is full for the copy of the
    message, which is larger than a result file. *)
Definition debug_copy_fails : Main.env :=
  Main.Env config Mimetypes.default_types_map Mimetypes._splittype (fun _ => afternoon) no_object
    (fun _ _ => None)
    (fun _ path =>
       if PyStr.endswith "_email.txt" path
       then Some (Exn OSError_ "[Errno 28] No space left on device")
       else None)
    render.

Definition notes_txt : string := "7d0c2a44-5b1e-4c7f-8e21-0a9b3c4d5e6f_notes.txt".
Definition blob_bin : string := "c91f6e02-3a8d-4b5c-9f10-7e6d5c4b3a29_blob.bin".

(** Two staged attachments: a text file and a file of four bytes that are
    not text. *)
Definition staged : nat -> string -> result string :=
  fun _ name =>
    if String.eqb name notes_txt then Ok "Minutes of the meeting."
    else if String.eqb name blob_bin
    then Ok (String (ascii_of_N 0) (String (ascii_of_N 255) (String (ascii_of_N 16)
              (String (ascii_of_N 128) ""))))
    else Raise (Exn S3Error "NoSuchKey").



Definition with_attachments : Main.env :=
  Main.Env config Mimetypes.default_types_map Mimetypes._splittype (fun _ => afternoon) staged
    (fun _ _ => None) (fun _ _ => None) render.


(** The receiver's outside when nothing fails and MailDev is not asked:
    the clock advances five seconds from one call to the next. *)
Definition ticking (n : nat) : Clock.reading :=
  Clock.Reading (1793713800000000 + 5000000 * Z.of_nat n) 0.

Definition unreachable : nat -> string -> result EmailReceiver.http_response :=
  fun _ _ => Raise (Exn ClientError "Cannot connect to host localhost:1080").

Definition quiet : EmailReceiver.env :=
  EmailReceiver.Env ticking unreachable unreachable
    (fun _ => None) (fun _ _ => None) (fun _ _ => None).


Definition stored_email (email_id subject text : string) : json :=
  JDict [("id", JStr email_id);
         ("from", JDict [("address", JStr "ann@example.com"); ("name", JStr "Ann")]);
         ("to", JList [JDict [("address", JStr "desk@example.org"); ("name", JStr "")]]);
         ("subject", JStr subject); ("text", JStr text); ("html", JStr "");
         ("attachments", JList []);
         ("received_at", JStr "2026-11-03T13:49:58.000Z");
         ("processed_at", JStr "2026-11-03T13:50:00.120000")].

Definition email_object (name : string) (v : json) : Minio.object :=
  Minio.Object name (Minio.Json v) (Minio.content_length (Minio.Json v)) "application/json".

Definition report : json := stored_email "m1" "Weekly report" "Figures attached.".

(** A message and an attachment that is not JSON. *)
Definition mixed_bucket : list Minio.object :=
  [email_object "2026-11-03_13-50-00_m1_email.json" report;
   Minio.Object "m1_att1_logo.png" (Minio.Bytes "PNG....") 7 "image/png"].



Definition receiver_state (b : list Minio.object) : EmailReceiver.state :=
  EmailReceiver.State b [] 0.


Definition answers_ok : nat -> string -> result EmailReceiver.http_response :=
  fun _ _ => Ok (EmailReceiver.Response 200 (Minio.Json (JBool true))).


(** MailDev lists "m1" and "m2" as unread; the content of "m1" cannot be
    had (the answer is 500), the content of "m2" can. *)
Definition maildev_m1_broken : nat -> string -> result EmailReceiver.http_response :=
  fun _ url =>
    if String.eqb url "http://localhost:1080/api/mails" then
      Ok (EmailReceiver.Response 200
            (Minio.Json (JList [JDict [("id", JStr "m1"); ("read", JBool false)];
                                JDict [("id", JStr "m2"); ("read", JBool false)]])))
    else if String.eqb url "http://localhost:1080/api/mail/m2" then
      Ok (EmailReceiver.Response 200
            (Minio.Json (JDict [("id", JStr "m2");
                                ("from", JDict [("address", JStr "bob@example.com")]);
                                ("subject", JStr "Lunch");
                                ("text", JStr "At noon?")])))
    else Ok (EmailReceiver.Response 500 (Minio.Bytes "Internal Server Error")).

Definition first_content_fails : EmailReceiver.env :=
  EmailReceiver.Env ticking maildev_m1_broken answers_ok
    (fun _ => None) (fun _ _ => None) (fun _ _ => None).


Definition unread_m1_m2 : list json :=
  [JDict [("id", JStr "m1"); ("read", JBool false)];
   JDict [("id", JStr "m2"); ("read", JBool false)]].

Definition request (debug : bool) : Main.EmailRequest :=
  Main.Build_EmailRequest "ann@example.com" "Hello" "A short body." debug.

Definition email_id : string := "3f2b8c1e-0d4a-4f6b-9a57-2c1d5e8f7a90".

Definition empty_disk : Main.state := Main.State ∅ [] 0.

End Scenario.

(** ** What a computation of the receiver does and leaves alone *)

Module Observed.

Import Minio EmailReceiver.

(** A computation every event of which satisfies [P]. *)
Definition emits_only {A} (P : event -> Prop) (m : M state A) : Prop :=
  forall s, exists tr, trace (snd (m s)) = (trace s ++ tr)%list /\ Forall P tr.

(** A computation that leaves the bucket as it found it. *)
Definition keeps_bucket {A} (m : M state A) : Prop :=
  forall s, bucket (snd (m s)) = bucket s.

(** A computation that returns, whatever the state it starts in. *)
Definition never_raises {A} (m : M state A) : Prop :=
  forall s, exists a, fst (m s) = Ok a.

Definition is_sleep (ev : event) : bool :=
  match ev with
  | Sleep _ => true
  | _ => false
  end.

Definition not_sleep (ev : event) : Prop := is_sleep ev = false.

(** The number of pauses in a trace. *)
Definition pauses (tr : list event) : nat :=
  length (List.filter is_sleep tr).

(** An event that is not a write, or is a write under a name that starts
    with [prefix]. *)
Definition written_under (prefix : string) (ev : event) : Prop :=
  match ev with
  | PutObject _ name => PyStr.startswith prefix name = true
  | _ => True
  end.

(** An event of the store's read interface, or a log line. *)
Definition reads_only (ev : event) : Prop :=
  match ev with
  | ListObjects _ | GetObject _ _ | Log _ _ => True
  | _ => False
  end.

(** An event that does not touch the store. *)
Definition off_store (ev : event) : Prop :=
  match ev with
  | PutObject _ _ | ListObjects _ | GetObject _ _ => False
  | _ => True
  end.

(** [not email.get('read', False)] for an entry that is a dict. *)
Definition is_unread (email : json) : bool :=
  match Py.get email "read" (JBool false) with
  | Ok r => negb (Py.truthy r)
  | Raise _ => false
  end.

Definition is_dict (v : json) : Prop := exists items, v = JDict items.

End Observed.

(** *** How the listening loop pauses, and what the read side touches *)

Module Pace.

Import Minio EmailReceiver Observed.

(** A pause of the loop is of 30 or of 60 seconds. *)
Definition paced (ev : event) : Prop :=
  forall seconds, ev = Sleep seconds -> seconds = 30%Z \/ seconds = 60%Z.

(** A computation that only reads the store: it leaves the bucket as it is
    and does nothing but list, get and log. *)
Definition only_reads {A} (m : M state A) : Prop :=
  keeps_bucket m /\ emits_only reads_only m.

End Pace.

(** ** Further situations *)

Module Cases.

(** What the MailDev of [Scenario.first_content_fails] answers for the
    content of "m2". *)
Definition lunch : list (string * json) :=
  [("id", JStr "m2"); ("from", JDict [("address", JStr "bob@example.com")]);
   ("subject", JStr "Lunch"); ("text", JStr "At noon?")].

Definition listed_m2 : json := JDict [("id", JStr "m2"); ("read", JBool false)].

End Cases.

(** ** Words about a dispatch *)

Module Session.

Import Main.

(** The commands of a session between connecting and quitting, in the order
    [send_email_task] issues them under the configuration. *)
Definition planned (E : env) (email_request : EmailRequest) (message : mime_message)
    : list event :=
  ((if use_ssl (config E) then []
    else if use_tls (config E) then [SmtpStarttls] else [])
   ++ (if use_password (config E)
       then [SmtpLogin (sender_email (config E)) (sender_password (config E))]
       else [])
   ++ [SmtpSendmail (sender_email (config E)) (recipient_email email_request)
         (as_string E message)])%list.

Definition is_smtp (ev : event) : bool :=
  match ev with
  | SmtpConnect _ _ _ | SmtpStarttls | SmtpLogin _ _ | SmtpSendmail _ _ _ | SmtpQuit => true
  | _ => false
  end.

(** An event that is no exchange with the relay. *)
Definition off_relay (ev : event) : Prop := is_smtp ev = false.

(** A computation every event of which satisfies [P]. *)
Definition emits_only {A} (P : event -> Prop) (m : M state A) : Prop :=
  forall s, exists tr, trace (snd (m s)) = (trace s ++ tr)%list /\ Forall P tr.

(** The names the loop over [attachment_names] does not pass over. *)
Fixpoint kept (attachment_names : list (option string)) : list string :=
  match attachment_names with
  | [] => []
  | Some name :: rest => if String.eqb name "" then kept rest else name :: kept rest
  | None :: rest => kept rest
  end.

(** The part was made for the object [name]: its file name is what follows
    the first underscore of [name]. *)
Definition carries (name : string) (p : mime_part) : Prop :=
  exists u f, PyStr.split_at "_" name = Some (u, f) /\ attachment_filename p = Some f.

End Session.

(** *** A relay that takes the message and then refuses QUIT *)

Module RelayCases.

Definition quit_refused : Main.env :=
  Main.Env Scenario.config Mimetypes.default_types_map Mimetypes._splittype (fun _ => Scenario.afternoon)
    Scenario.no_object
    (fun _ step =>
       match step with
       | Main.Quit => Some (Exn SMTPResponseException "(421, b'4.3.2 Service shutting down')")
       | _ => None
       end)
    (fun _ _ => None) Scenario.render.

End RelayCases.

(** ** [main.py]: staging the attachments and the endpoint *)

Module Upload.

(** What the endpoint needs of an [UploadFile]: its name, which a client
    may leave out, and the bytes [file.file.read()] returns. *)
Record UploadFile : Type := Build_UploadFile {
  filename : option string;
  content : string
}.

(** [f"{file.filename}"] *)
Definition shown (file : UploadFile) : string :=
  match filename file with
  | Some name => name
  | None => "None"
  end.

Inductive event : Type :=
  | Uuid4 (text : string)
  | OpenWrite (path : string)
  | FputObject (bucket_name object_name path : string)
  | Remove (path : string).

(** The outside of the endpoint: the identifiers [uuid.uuid4()] draws, and
    whether writing a temporary file, uploading it and removing it fail.
    Calls are numbered as they are made. *)
Record env : Type := Env {
  uuid4 : nat -> string;
  open_raises : nat -> string -> option exn;
  fput_object_raises : nat -> string -> option exn;
  remove_raises : nat -> string -> option exn
}.

(** The files under [/tmp], the objects of the bucket "emails", what was
    done so far and the number of calls made. *)
Record state : Type := State {
  tmp : gmap string string;
  emails : gmap string string;
  trace : list event;
  calls : nat
}.

Definition emit (e : event) : M state unit :=
  fun s => (Ok tt, State (tmp s) (emails s) (trace s ++ [e])%list (calls s)).

Definition tick : M state nat :=
  fun s => (Ok (calls s), State (tmp s) (emails s) (trace s) (S (calls s))).

Definition raise_if (o : option exn) : M state unit :=
  match o with
  | Some e => lift (Raise e)
  | None => mret tt
  end.

Definition set_tmp (files : gmap string string) : M state unit :=
  fun s => (Ok tt, State files (emails s) (trace s) (calls s)).

Definition get_tmp : M state (gmap string string) :=
  fun s => (Ok (tmp s), s).

Definition put_emails (object_name data : string) : M state unit :=
  fun s => (Ok tt, State (tmp s) (<[object_name := data]> (emails s)) (trace s) (calls s)).

Section WithEnv.
Variable E : env.

(** [str(uuid.uuid4())] *)
Definition new_uuid : M state string :=
  n ← tick; emit (Uuid4 (uuid4 E n));; mret (uuid4 E n).

(** [with open(path, "wb") as f: f.write(data)] *)
Definition write_temp (path data : string) : M state unit :=
  n ← tick; emit (OpenWrite path);;
  raise_if (open_raises E n path);;
  files ← get_tmp; set_tmp (<[path := data]> files).

(** [minio_client.fput_object("emails", object_name, path)]: the object
    gets the bytes of the file at [path]. *)
Definition fput_object (object_name path : string) : M state unit :=
  n ← tick; emit (FputObject "emails" object_name path);;
  raise_if (fput_object_raises E n object_name);;
  files ← get_tmp;
  match files !! path with
  | Some data => put_emails object_name data
  | None => lift (Raise (Exn OSError_ "[Errno 2] No such file or directory"))
  end.

(** [os.remove(path)] *)
Definition os_remove (path : string) : M state unit :=
  n ← tick; emit (Remove path);;
  raise_if (remove_raises E n path);;
  files ← get_tmp;
  match files !! path with
  | Some _ => set_tmp (delete path files)
  | None => lift (Raise (Exn OSError_ "[Errno 2] No such file or directory"))
  end.

Definition upload_to_minio (file : UploadFile) : M state string :=
  uuid ← new_uuid;
  let object_name := uuid +:+ "_" +:+ shown file in
  let temp_file_path := "/tmp/" +:+ object_name in
  write_temp temp_file_path (content file);;
  fput_object object_name temp_file_path;;
  os_remove temp_file_path;;
  mret object_name.

(** The loop of [send_email] over the uploaded files. *)
Fixpoint upload_all (attachments : list UploadFile) (attachment_names : list string)
    : M state (list string) :=
  match attachments with
  | [] => mret attachment_names
  | attachment :: rest =>
      object_name ← upload_to_minio attachment;
      upload_all rest (attachment_names ++ [object_name])%list
  end.

(** What [background_tasks.add_task(send_email_task, ...)] is given. *)
Record scheduled : Type := Scheduled {
  task_request : Main.EmailRequest;
  task_email_id : string;
  task_client_ip : string;
  task_headers : json;
  task_attachment_names : list (option string)
}.

(** The endpoint [/send-email]: the task it schedules and what it answers. *)
Definition send_email (client_ip : string) (request_headers : json)
    (recipient_email subject body : string) (debug : bool)
    (attachments : option (list UploadFile)) : M state (scheduled * json) :=
  email_id ← new_uuid;
  let email_request := Main.Build_EmailRequest recipient_email subject body debug in
  attachment_names ←
    match attachments with
    | Some ((_ :: _) as files) => upload_all files []
    | _ => mret []
    end;
  mret (Scheduled email_request email_id client_ip request_headers
          (map Some attachment_names),
        JDict [("message", JStr "Email is being sent in the background");
               ("email_id", JStr email_id)]).

End WithEnv.

(** The store of the dispatcher, read from the objects that were staged. *)
Definition staged_in (objects : gmap string string) : nat -> string -> result string :=
  fun _ object_name =>
    match objects !! object_name with
    | Some data => Ok data
    | None => Raise (Exn S3Error "NoSuchKey")
    end.

(** The name an upload gives to the object of [file], for the identifier
    [uuid]. *)
Definition named (uuid : string) (file : UploadFile) : string :=
  uuid +:+ "_" +:+ shown file.

(** Every write to the disk, every upload and every removal goes through. *)
Definition unhindered (E : env) : Prop :=
  (forall n p, open_raises E n p = None)
  /\ (forall n o, fput_object_raises E n o = None)
  /\ (forall n p, remove_raises E n p = None).

End Upload.

Module UploadCases.

Definition two_uuids (n : nat) : string :=
  match n with
  | 0 => "3f2b8c1e-0d4a-4f6b-9a57-2c1d5e8f7a90"
  | 1 => "7d0c2a44-5b1e-4c7f-8e21-0a9b3c4d5e6f"
  | _ => "c91f6e02-3a8d-4b5c-9f10-7e6d5c4b3a29"
  end.

Definition smooth : Upload.env :=
  Upload.Env two_uuids (fun _ _ => None) (fun _ _ => None) (fun _ _ => None).

(** The store does not take the upload. *)
Definition store_away : Upload.env :=
  Upload.Env two_uuids (fun _ _ => None)
    (fun _ _ => Some (Exn S3Error "Connection refused")) (fun _ _ => None).

Definition notes : Upload.UploadFile :=
  Upload.Build_UploadFile (Some "meeting_notes.txt") "Minutes of the meeting.".

Definition nothing_staged : Upload.state := Upload.State ∅ ∅ [] 0.

End UploadCases.

(** ** [mcp_server.py]: the other estimates of [MCPEmailSystem] *)

Module MCP.

Import PyStr.

(** [any(word in s for word in words)] *)
Definition any_in (words : list string) (s : string) : bool :=
  existsb (fun word => str_in word s) words.

Definition purchase_words : list string := ["pedido"; "order"; "compra"; "purchase"].
Definition support_words : list string := ["suporte"; "support"; "ajuda"; "help"].
Definition notification_words : list string :=
  ["notificação"; "notification"; "alerta"; "alert"].
Definition automatic_senders : list string := ["noreply"; "no-reply"; "donotreply"].
Definition marketing_words : list string := ["spam"; "promoção"; "promotion"; "marketing"].

Definition _estimate_category (email_data : json) : result string :=
  subject ← Py.get email_data "subject" (JStr "") ≫= Py.lower;
  from ← Py.get email_data "from" (JDict []);
  let from_address := lower (Py.str from) in
  if any_in purchase_words subject then Ok "purchase"
  else if any_in support_words subject then Ok "support"
  else if any_in notification_words subject then Ok "notification"
  else if any_in automatic_senders from_address then Ok "notification"
  else if any_in marketing_words subject then Ok "marketing"
  else Ok "general".

Definition _extract_main_topic (subject : json) : result string :=
  subject_lower ← Py.lower subject;
  if any_in ["pedido"; "order"] subject_lower then Ok "Pedidos e Compras"
  else if any_in ["suporte"; "support"] subject_lower then Ok "Suporte Técnico"
  else if any_in ["reunião"; "meeting"] subject_lower then Ok "Agendamento"
  else if any_in ["relatório"; "report"] subject_lower then Ok "Relatórios"
  else Ok "Geral".

Definition positive_words : list string :=
  ["obrigado"; "thanks"; "excelente"; "excellent"; "ótimo"; "great"; "bom"; "good"].
Definition negative_words : list string :=
  ["problema"; "problem"; "erro"; "error"; "ruim"; "bad"; "péssimo"; "terrible"].

(** [sum(1 for word in words if word in text or word in subject)] *)
Definition count_in (words : list string) (text subject : string) : nat :=
  length (List.filter (fun word => str_in word text || str_in word subject) words).

Definition _estimate_sentiment (email_data : json) : result string :=
  text ← Py.get email_data "text" (JStr "") ≫= Py.lower;
  subject ← Py.get email_data "subject" (JStr "") ≫= Py.lower;
  let positive_count := count_in positive_words text subject in
  let negative_count := count_in negative_words text subject in
  if Nat.ltb negative_count positive_count then Ok "positive"
  else if Nat.ltb positive_count negative_count then Ok "negative"
  else Ok "neutral".

Definition _estimate_urgency (email_data : json) : result string :=
  priority ← MCPEmailSystem._estimate_priority email_data;
  if String.eqb priority "high" then Ok "high"
  else if String.eqb priority "medium" then Ok "medium"
  else Ok "low".

(** One of the words occurs in the text, in any letter case. *)
Definition mentions_any (words : list string) (s : string) : Prop :=
  exists word, In word words /\ occurs_nocase word s.

End MCP.

(** ** [mcp_server.py]: the normalisation and the endpoints *)

(** Characters of a text that is held as its UTF-8 bytes. *)
Module Text.

(** A byte that continues a character begun before it. *)
Definition is_continuation (c : ascii) : bool :=
  let b := N_of_ascii c in (128 <=? b)%N && (b <=? 191)%N.

(** [len(s)] of a [str]: the number of its code points. *)
Fixpoint len (s : string) : nat :=
  match s with
  | EmptyString => 0
  | String c r => if is_continuation c then len r else S (len r)
  end.

(** [s[:n]] of a [str], for [n >= 0]: its first [n] code points. *)
Fixpoint take (n : nat) (s : string) : string :=
  match s with
  | EmptyString => EmptyString
  | String c r =>
      if is_continuation c then String c (take n r)
      else match n with
           | O => EmptyString
           | S m => String c (take m r)
           end
  end.

End Text.

Module MCPServer.

Import Minio EmailReceiver.

(** What a handler answers: the value it returns, or the [HTTPException]
    that leaves it. *)
Inductive answer (A : Type) : Type :=
  | Returned (a : A)
  | HTTPError (status : Z) (text : string).
Arguments Returned {A} a.
Arguments HTTPError {A} status text.

(** An [HTTPException] as a handler raises it. *)
Record HTTPException : Type := Build_HTTPException {
  status_code : Z;
  detail : string
}.

(** The models of the server, as the arguments their constructors are
    given. *)
Record MCPEmailSummary : Type := Summary {
  id : json;
  subject : json;
  from_address : json;
  from_name : json;
  to_addresses : list json;
  received_at : json;
  has_attachments : bool;
  content_preview : json;
  priority : string;
  category : string
}.

Record MCPEmailDetail : Type := Detail {
  detail_id : json;
  detail_subject : json;
  detail_from_address : json;
  detail_from_name : json;
  detail_to_addresses : list json;
  detail_received_at : json;
  text_content : json;
  html_content : json;
  attachments : json;
  metadata : json
}.

Record MCPResponse : Type := Response_ {
  email_id : string;
  response_type : json;
  content : json;
  actions : list string;
  confidence : json;
  reasoning : json
}.

Record MCPWorkflow : Type := Workflow {
  workflow_id : string;
  trigger_email_id : json;
  workflow_type : json;
  conditions : json;
  workflow_actions : json;
  workflow_status : string;
  created_at : string
}.

(** The libraries under the server: whether pydantic refuses the arguments
    of a model, and what [str] makes of an [HTTPException]. *)
Record library : Type := Library {
  summary_raises : MCPEmailSummary -> option exn;
  detail_raises : MCPEmailDetail -> option exn;
  response_raises : MCPResponse -> option exn;
  workflow_raises : MCPWorkflow -> option exn;
  http_exception_str : Z -> string -> string
}.

(** [Model(...)]: the model, unless validation raises. *)
Definition construct {A} (raises : A -> option exn) (a : A) : result A :=
  match raises a with
  | Some e => Raise e
  | None => Ok a
  end.

(** [len(v)] *)
Definition py_len (v : json) : result nat :=
  match v with
  | JStr s => Ok (Text.len s)
  | JList l => Ok (length l)
  | JDict l => Ok (length l)
  | _ => Raise (Exn TypeError ("object of type '" +:+ Py.type_name v +:+ "' has no len()"))
  end.

(** [v[:200]]; a dict raises [KeyError] in place of [TypeError] from
    Python 3.12 on. *)
Definition first_200 (v : json) : result json :=
  match v with
  | JStr s => Ok (JStr (Text.take 200 s))
  | JList l => Ok (JList (take 200 l))
  | JDict _ => Raise (Exn TypeError "unhashable type: 'slice'")
  | _ => Raise (Py.not_a v "subscriptable")
  end.

Definition is_float (v : json) : bool :=
  match v with
  | JFloat _ => true
  | _ => false
  end.

(** [bool], [int] and [float] add up. *)
Definition is_number (v : json) : bool :=
  match v with
  | JBool _ | JInt _ | JFloat _ => true
  | _ => false
  end.

(** [len(a + b)] *)
Definition len_of_sum (a b : json) : result nat :=
  match a, b with
  | JStr x, JStr y => Ok (Text.len (x +:+ y))
  | JList x, JList y => Ok (length (x ++ y)%list)
  | JStr _, _ | JList _, _ =>
      Raise (Exn TypeError
               ("can only concatenate " +:+ Py.type_name a +:+ " (not "
                +:+ String Py.dquote (Py.type_name b)
                +:+ String Py.dquote (") to " +:+ Py.type_name a)))
  | _, _ =>
      if is_number a && is_number b
      then Raise (Exn TypeError
                    ("object of type '"
                     +:+ (if is_float a || is_float b then "float" else "int")
                     +:+ "' has no len()"))
      else Raise (Exn TypeError
                    ("unsupported operand type(s) for +: '" +:+ Py.type_name a
                     +:+ "' and '" +:+ Py.type_name b +:+ "'"))
  end.

(** [v == s] for a [str] [s] *)
Definition eq_str (v : json) (s : string) : bool :=
  match v with
  | JStr t => String.eqb t s
  | _ => false
  end.

(** The loop that collects the addresses of the recipients. *)
Definition to_addresses_of (to_info : json) : list json :=
  match to_info with
  | JList recipients =>
      map (fun recipient =>
             match recipient with
             | JDict items => default (JStr "") (Py.assoc "address" items)
             | _ => JStr (Py.str recipient)
             end) recipients
  | _ => []
  end.

(** [if not mcp_system: raise HTTPException(503, ...)], before the [try]. *)
Definition unavailable {A} : answer A := HTTPError 503 "Sistema MCP não está disponível".

Section WithLibrary.
Variable L : library.
Variable E : env.

(** [raise HTTPException(status_code, detail)] inside a [try] block: the
    block ends with the exception in place of a value. *)
Definition raise_http {A} (status_code : Z) (detail : string)
    : M state (HTTPException + A) :=
  mret (inl (Build_HTTPException status_code detail)).

Definition returns {A} (a : A) : M state (HTTPException + A) := mret (inr a).

(** [try: body except Exception as e: raise HTTPException(500, prefix +
    str(e))]: the handler takes what the block raises, the exceptions of
    the libraries and the [HTTPException]s of the block alike, since
    [HTTPException] derives from [Exception]. *)
Definition guarded {A} (prefix : string) (block : M state (HTTPException + A))
    : M state (answer A) :=
  fun s =>
    match block s with
    | (Ok (inr a), s') => (Ok (Returned a), s')
    | (Ok (inl e), s') =>
        (Ok (HTTPError 500 (prefix +:+ http_exception_str L (status_code e) (detail e))), s')
    | (Raise e, s') => (Ok (HTTPError 500 (prefix +:+ exn_str e)), s')
    end.

(** The [try] block of [normalize_email_for_llm]. *)
Definition summary_of (email_data : json) : result MCPEmailSummary :=
  from_info ← Py.get email_data "from" (JDict []);
  to_info ← Py.get email_data "to" (JList []);
  from_address ← Py.get from_info "address" (JStr "unknown@example.com");
  from_name ← Py.get from_info "name" JNull;
  let to_addresses := to_addresses_of to_info in
  text_content ← Py.get email_data "text" (JStr "");
  html_content ← Py.get email_data "html" (JStr "");
  content_preview ←
    (if Py.truthy text_content then first_200 text_content
     else if Py.truthy html_content then first_200 html_content
     else Ok (JStr "Sem conteúdo"));
  priority ← MCPEmailSystem._estimate_priority email_data;
  category ← MCP._estimate_category email_data;
  id ← Py.get email_data "id" (JStr "");
  subject ← Py.get email_data "subject" (JStr "Sem assunto");
  received_at ← Py.get email_data "received_at" (JStr "");
  listed ← Py.get email_data "attachments" (JList []);
  count ← py_len listed;
  construct (summary_raises L)
    (Summary id subject from_address from_name to_addresses received_at
       (Nat.ltb 0 count) content_preview priority category).

Definition normalize_email_for_llm (email_data : json) : M state MCPEmailSummary :=
  try_catch (lift (summary_of email_data))
    (fun e =>
       logger_error ("Erro ao normalizar email: " +:+ exn_str e);;
       lift (Raise e)).

(** [not (wanted and actual != wanted)] *)
Definition passes (wanted : option string) (actual : string) : bool :=
  match wanted with
  | Some w => if String.eqb w "" then true else String.eqb actual w
  | None => true
  end.

(** The loop of [mcp_get_emails] over the listed messages. *)
Fixpoint normalize_listed (emails : list json) (wanted_category wanted_priority : option string)
    : M state (list MCPEmailSummary) :=
  match emails with
  | [] => mret []
  | email :: rest =>
      kept ← try_catch
               (normalized ← normalize_email_for_llm email;
                if passes wanted_category (category normalized)
                then if passes wanted_priority (priority normalized)
                     then mret [normalized] else mret []
                else mret [])
               (fun e =>
                  shown ← lift (Py.get email "id" JNull);
                  logger_error ("Erro ao normalizar email " +:+ Py.str shown +:+ ": "
                                +:+ exn_str e);;
                  mret []);
      others ← normalize_listed rest wanted_category wanted_priority;
      mret (kept ++ others)%list
  end.

Definition mcp_get_emails (mcp_system : bool) (limit offset : Z)
    (wanted_category wanted_priority : option string)
    : M state (answer (list MCPEmailSummary)) :=
  if negb mcp_system then mret unavailable
  else
    guarded "Erro ao buscar emails: "
      (emails ← get_received_emails E limit offset;
       normalized_emails ← normalize_listed emails wanted_category wanted_priority;
       returns normalized_emails).

Definition mcp_search_emails (mcp_system : bool) (query : string) (limit : Z)
    : M state (answer (list MCPEmailSummary)) :=
  if negb mcp_system then mret unavailable
  else
    guarded "Erro na busca: "
      (emails ← search_received_emails E query;
       normalized_emails ← normalize_listed (slice emails 0 limit) None None;
       returns normalized_emails).

(** The arguments of [MCPEmailDetail] in [mcp_get_email_detail]. *)
Definition detail_of (email : json) : result MCPEmailDetail :=
  from_info ← Py.get email "from" (JDict []);
  to_info ← Py.get email "to" (JList []);
  let to_addresses := to_addresses_of to_info in
  id ← Py.get email "id" (JStr "");
  subject ← Py.get email "subject" (JStr "Sem assunto");
  from_address ← Py.get from_info "address" (JStr "");
  from_name ← Py.get from_info "name" JNull;
  received_at ← Py.get email "received_at" (JStr "");
  text_content ← Py.get email "text" JNull;
  html_content ← Py.get email "html" JNull;
  attachments ← Py.get email "attachments" (JList []);
  processed_at ← Py.get email "processed_at" JNull;
  count ← py_len attachments;
  text ← Py.get email "text" (JStr "");
  html ← Py.get email "html" (JStr "");
  content_length ← len_of_sum text html;
  construct (detail_raises L)
    (Detail id subject from_address from_name to_addresses received_at text_content
       html_content attachments
       (JDict [("processed_at", processed_at);
               ("has_attachments", JBool (Nat.ltb 0 count));
               ("content_length", JInt (Z.of_nat content_length))])).

(** The loop of [mcp_get_email_detail]: the detail of the first listed
    message that carries the id, or [None] when the loop ends. *)
Fixpoint find_detail (all_emails : list json) (email_id : string)
    : result (option MCPEmailDetail) :=
  match all_emails with
  | [] => Ok None
  | email :: rest =>
      carried ← Py.get email "id" JNull;
      if eq_str carried email_id then
        detail ← detail_of email; Ok (Some detail)
      else find_detail rest email_id
  end.

Definition mcp_get_email_detail (mcp_system : bool) (email_id : string)
    : M state (answer MCPEmailDetail) :=
  if negb mcp_system then mret unavailable
  else
    guarded "Erro ao buscar email: "
      (all_emails ← get_received_emails E 1000 0;
       found ← lift (find_detail all_emails email_id);
       match found with
       | Some detail => returns detail
       | None => raise_http 404 "Email não encontrado"
       end).

(** The [if]/[elif] chain of [mcp_respond_to_email]. *)
Definition actions_for (response_type : json) : list string :=
  if eq_str response_type "auto_reply" then ["Resposta automática gerada"]
  else if eq_str response_type "forward" then ["Email encaminhado"]
  else if eq_str response_type "archive" then ["Email arquivado"]
  else if eq_str response_type "flag" then ["Email marcado como importante"]
  else [].

Definition mcp_respond_to_email (mcp_system : bool) (email_id : string)
    (response_data : list (string * json)) : M state (answer MCPResponse) :=
  if negb mcp_system then mret unavailable
  else
    guarded "Erro ao gerar resposta: "
      (let response_type :=
         default (JStr "auto_reply") (Py.assoc "response_type" response_data) in
       let content := default (JStr "") (Py.assoc "content" response_data) in
       let confidence := default (JFloat "0.8") (Py.assoc "confidence" response_data) in
       let reasoning :=
         default (JStr "Resposta gerada automaticamente")
           (Py.assoc "reasoning" response_data) in
       if negb (Py.truthy content)
       then raise_http 400 "Conteúdo da resposta é obrigatório"
       else
         response ← lift (construct (response_raises L)
                            (Response_ email_id response_type content
                               (actions_for response_type) confidence reasoning));
         returns response).

(** [d.strftime('%Y%m%d_%H%M%S')] *)
Definition strftime_compact (d : Clock.datetime) : string :=
  Clock.pad 4 (Clock.year d) +:+ Clock.pad 2 (Clock.month d) +:+ Clock.pad 2 (Clock.day d)
  +:+ "_" +:+ Clock.pad 2 (Clock.hour d) +:+ Clock.pad 2 (Clock.minute d)
  +:+ Clock.pad 2 (Clock.second d).

Definition mcp_create_workflow (mcp_system : bool) (workflow_data : list (string * json))
    : M state (answer MCPWorkflow) :=
  if negb mcp_system then mret unavailable
  else
    guarded "Erro ao criar workflow: "
      (let trigger_email_id := default JNull (Py.assoc "trigger_email_id" workflow_data) in
       let workflow_type :=
         default (JStr "auto_reply") (Py.assoc "workflow_type" workflow_data) in
       let conditions := default (JList []) (Py.assoc "conditions" workflow_data) in
       let actions := default (JList []) (Py.assoc "actions" workflow_data) in
       if negb (Py.truthy trigger_email_id)
       then raise_http 400 "ID do email disparador é obrigatório"
       else
         now ← datetime_now E;
         now' ← datetime_now E;
         workflow ← lift (construct (workflow_raises L)
                            (Workflow ("workflow_" +:+ strftime_compact now)
                               trigger_email_id workflow_type conditions actions "pending"
                               (Clock.isoformat now')));
         returns workflow).

Definition mcp_endpoints_available : json :=
  JList [JStr "/mcp/emails"; JStr "/mcp/emails/{id}"; JStr "/mcp/emails/{id}/context";
         JStr "/mcp/emails/{id}/respond"; JStr "/mcp/workflow"; JStr "/mcp/search"].

(** [{**stats, k: v, ...}] for keys that [stats] does not hold. *)
Definition with_mcp_keys (stats : json) : result json :=
  items ← match stats with
          | JDict items => Ok items
          | _ => Raise (Py.not_a stats "a mapping")
          end;
  Ok (JDict (items ++ [("mcp_endpoints_available", mcp_endpoints_available);
                       ("llm_optimized", JBool true); ("normalized_data", JBool true);
                       ("context_aware", JBool true)])%list).

Definition mcp_get_statistics (mcp_system : bool) : M state (answer json) :=
  if negb mcp_system then mret unavailable
  else
    guarded "Erro ao obter estatísticas: "
      (stats ← get_statistics E;
       mcp_stats ← lift (with_mcp_keys stats);
       returns mcp_stats).

End WithLibrary.

(** What [mcp_get_emails] shows of a listed message: its summary, when
    the message can be normalised and passes the two filters. *)
Definition shown_as (L : library) (wanted_category wanted_priority : option string)
    (email : json) : list MCPEmailSummary :=
  match summary_of L email with
  | Ok normalized =>
      if passes wanted_category (category normalized)
         && passes wanted_priority (priority normalized)
      then [normalized] else []
  | Raise _ => []
  end.

(** The status an answer carries: 200 for a value that is returned. *)
Definition status_of {A} (a : answer A) : Z :=
  match a with
  | Returned _ => 200
  | HTTPError status _ => status
  end.

End MCPServer.

(** *** Situations of the MCP layer *)

Module MCPCases.

(** pydantic accepts what it is given; [str] of an [HTTPException] is its
    status and its detail. *)
Definition lenient : MCPServer.library :=
  MCPServer.Library (fun _ => None) (fun _ => None) (fun _ => None) (fun _ => None)
    (fun status_code detail => Py.str_of_Z status_code +:+ ": " +:+ detail).

(** A stored record whose sender is a list of address records. *)
Definition sender_list : json :=
  JDict [("id", JStr "m7"); ("from", JList [JDict [("address", JStr "ann@example.com")]]);
         ("subject", JStr "Order 7"); ("text", JStr "Shipped.")].

(** A document that is no message record. *)
Definition tags : json := JList [JStr "weekly"].

Definition with_tags : list Minio.object :=
  [Scenario.email_object "2026-11-03_13-50-00_m1_email.json" Scenario.report;
   Scenario.email_object "m1_att2_tags.json" tags].

Definition with_sender_list : list Minio.object :=
  [Scenario.email_object "2026-11-03_13-50-00_m1_email.json" Scenario.report;
   Scenario.email_object "2026-11-03_13-51-00_m7_email.json" sender_list].

End MCPCases.

(** * Properties *)

Example repr_sender :
  Py.str (JDict [("address", JStr "a@b.c"); ("name", JStr "Ann O'Hara")])
  = String.concat "" ["{'address': 'a@b.c', 'name': "; String Py.dquote "Ann O'Hara";
                      String Py.dquote "}"].
Proof. reflexivity. Qed.

Example repr_ex :
  Py.repr (JStr (Utf8.string_of (Utf8.encode 97 ++ Utf8.encode 160 ++ Utf8.encode 98)))
  = String.concat "" ["'a"; String Py.backslash "xa0b'"]
  /\ Py.repr (JStr (Utf8.string_of (Utf8.encode 0x200B)))
     = String.concat "" ["'"; String Py.backslash "u200b'"]
  /\ Py.repr (JStr (Utf8.string_of (Utf8.encode 0xE0001)))
     = String.concat "" ["'"; String Py.backslash "U000e0001'"]
  /\ Py.repr (JStr "café ☕ 𝄞") = "'café ☕ 𝄞'"
  /\ Py.repr (JList [JStr "it's"; JNull; JBool true; JInt (-3)])
     = String.concat "" ["["; String Py.dquote "it's"; String Py.dquote ", None, True, -3]"].
Proof. repeat split; vm_compute; reflexivity. Qed.

Example str_of_Z_ex : Py.str_of_Z 1205 = "1205" /\ Py.str_of_Z (-30) = "-30".
Proof. split; reflexivity. Qed.

Example now_ex :
  Clock.isoformat (Clock.now (Clock.Reading 1793713800000000 0)) = "2026-11-03T13:50:00"
  /\ Clock.strftime_stamp (Clock.now (Clock.Reading 1793713800000001 (-10800)))
     = "2026-11-03_10-50-00"
  /\ Clock.isoformat (Clock.now (Clock.Reading 951782400000250 3600)) = "2000-02-29T01:00:00.000250".
Proof. repeat split; vm_compute; reflexivity. Qed.

Example splitext_ex :
  Mimetypes.splitext "archive.tar.gz" = ("archive.tar", ".gz")
  /\ Mimetypes.splitext ".bashrc" = (".bashrc", "")
  /\ Mimetypes.splitext "dir.d/readme" = ("dir.d/readme", "")
  /\ Mimetypes.splitext "notes.txt" = ("notes", ".txt").
Proof. repeat split; reflexivity. Qed.

Example guess_type_ex :
  let guess := Mimetypes.guess_type Mimetypes._splittype Mimetypes.default_types_map in
  guess "photo.JPG" = Ok (Some "image/jpeg", None)
  /\ guess "backup.tar.gz" = Ok (Some "application/x-tar", Some "gzip")
  /\ guess "backup.TGZ" = Ok (Some "application/x-tar", Some "gzip")
  /\ guess "blob.bin" = Ok (Some "application/octet-stream", None)
  /\ guess "model.xyz" = Ok (None, None)
  /\ guess "data:x.txt" = Ok (None, None)
  /\ guess "data:,x.bin" = Ok (Some "text/plain", None)
  /\ guess "DATA:image/png;base64,AAAA" = Ok (Some "image/png", None)
  /\ guess "C:notes.txt" = Ok (Some "text/plain", None).
Proof. cbv zeta. repeat split; vm_compute; reflexivity. Qed.

Example decode_error_ex :
  Utf8.decode (Utf8.string_of [97; 255]%N)
  = Raise (Exn UnicodeDecodeError
             "'utf-8' codec can't decode byte 0xff in position 1: invalid start byte")
  /\ Utf8.decode (Utf8.string_of [226; 130; 40]%N)
     = Raise (Exn UnicodeDecodeError
                "'utf-8' codec can't decode bytes in position 0-1: invalid continuation byte")
  /\ Utf8.decode (Utf8.string_of [240; 144; 128]%N)
     = Raise (Exn UnicodeDecodeError
                "'utf-8' codec can't decode bytes in position 0-2: unexpected end of data")
  /\ Utf8.decode (Utf8.string_of [237; 160; 128]%N)
     = Raise (Exn UnicodeDecodeError
                "'utf-8' codec can't decode byte 0xed in position 0: invalid continuation byte").
Proof. repeat split; vm_compute; reflexivity. Qed.

Example utf8_ex :
  Utf8.valid [195; 169]%N = true            (* e acute *)
  /\ Utf8.valid [226; 130; 172]%N = true    (* the euro sign *)
  /\ Utf8.valid [192; 128]%N = false        (* an overlong form *)
  /\ Utf8.valid [237; 160; 128]%N = false   (* a surrogate *)
  /\ Utf8.valid [255]%N = false.
Proof. repeat split; reflexivity. Qed.

Example slice_ex :
  EmailReceiver.slice [1; 2; 3; 4; 5] 1 3 = [2; 3]
  /\ EmailReceiver.slice [1; 2; 3; 4; 5] (-2) 10 = [4; 5]
  /\ EmailReceiver.slice [1; 2; 3; 4; 5] 3 2 = []
  /\ EmailReceiver.slice [1; 2; 3; 4; 5] 0 (0 + 50) = [1; 2; 3; 4; 5].
Proof. repeat split; reflexivity. Qed.

Example path_join_ex :
  Main.path_join (Main.path_join "data" "2026-11-03") "success" = "data/2026-11-03/success"
  /\ Main.path_join "data/" "x.json" = "data/x.json"
  /\ Main.path_join "data" "/etc/passwd" = "/etc/passwd".
Proof. repeat split; reflexivity. Qed.

Example formatdate_ex :
  Main.formatdate Scenario.afternoon = "Tue, 03 Nov 2026 13:50:00 +0000"
  /\ Main.formatdate Scenario.late_evening = "Wed, 04 Nov 2026 01:30:00 +0200".
Proof. split; vm_compute; reflexivity. Qed.

Example dumps_ex :
  Json.dumps (JDict [("id", JStr "m1"); ("to", JList [JStr "a"; JStr "b"]); ("n", JInt 3);
                     ("none", JList [])])
  = String.concat Json.newline
      ["{";
       String.concat "" ["  "; String Py.dquote "id"; String Py.dquote ": ";
                         String Py.dquote "m1"; String Py.dquote ","];
       String.concat "" ["  "; String Py.dquote "to"; String Py.dquote ": ["];
       String.concat "" ["    "; String Py.dquote "a"; String Py.dquote ","];
       String.concat "" ["    "; String Py.dquote "b"; String Py.dquote ""];
       "  ],";
       String.concat "" ["  "; String Py.dquote "n"; String Py.dquote ": 3,"];
       String.concat "" ["  "; String Py.dquote "none"; String Py.dquote ": []"];
       "}"].
Proof. vm_compute. reflexivity. Qed.

Example handler_order_ex :
  Main.failure_detail (Exn SMTPAuthenticationError "(535, b'denied')")
  = "Authentication failed. Check your username and password."
  /\ Main.failure_detail (Exn SMTPHeloError "(500, b'?')")
     = "An SMTP error occurred: (500, b'?')"
  /\ Main.failure_detail (Exn OSError_ "[Errno 111] Connection refused")
     = "An unexpected error occurred: [Errno 111] Connection refused".
Proof. repeat split; reflexivity. Qed.

Example lower_ex :
  PyStr.lower "CRÍTICO, Urgent" = "crítico, urgent"
  /\ PyStr.lower "ÉCOLE" = "école"
  /\ PyStr.lower "ΟΔΟΣ ΣΟΦΟΣ Σ" = "οδος σοφος σ"
  /\ PyStr.lower "İstanbul" = "i̇stanbul"
  /\ PyStr.lower "ǅ Ⓐ Ａ 𐐀" = "ǆ ⓐ ａ 𐐨".
Proof. repeat split; vm_compute; reflexivity. Qed.

Example priority_ex :
  MCPEmailSystem._estimate_priority (JDict [("subject", JStr "URGENT: server"); ("text", JStr "x")]) = Ok "high"
  /\ MCPEmailSystem._estimate_priority (JDict [("subject", JStr "An Important note")]) = Ok "medium"
  /\ MCPEmailSystem._estimate_priority (JDict []) = Ok "normal".
Proof. repeat split; reflexivity. Qed.

(** ** Strings: the tests of the code against the words of the specification *)

Section StringFacts.
Import PyStr.

Lemma append_assoc (a b c : string) : (a +:+ b) +:+ c = a +:+ (b +:+ c).
Proof. induction a as [|x a IH]; simpl; [reflexivity | f_equal; exact IH]. Qed.

Lemma startswith_spec (p s : string) :
  startswith p s = true <-> exists r, s = p +:+ r.
Proof.
  revert s; induction p as [|a p IH]; intros s; simpl.
  - split; [intros _; now exists s | reflexivity].
  - destruct s as [|b s].
    + split; [discriminate | intros [r Hr]; discriminate].
    + rewrite andb_true_iff, Ascii.eqb_eq, IH. split.
      * intros [-> [r ->]]. now exists r.
      * intros [r Hr]. injection Hr as -> ->. split; [reflexivity | now exists r].
Qed.

Lemma str_in_spec (q s : string) : str_in q s = true <-> occurs q s.
Proof.
  unfold occurs. induction s as [|c s IH].
  - simpl. rewrite orb_false_r, startswith_spec. split.
    + intros [r Hr]. now exists "", r.
    + intros [a [b Hab]]. destruct a; [now exists b | discriminate].
  - cbn [str_in]. rewrite orb_true_iff, IH, startswith_spec. split.
    + intros [[r Hr] | [a [b Hab]]].
      * now exists "", r.
      * exists (String c a), b. simpl. now rewrite Hab.
    + intros [a [b Hab]]. destruct a as [|x a].
      * left. now exists b.
      * right. simpl in Hab. injection Hab as _ ->. now exists a, b.
Qed.

Lemma lower_of_ascii (s : string) : Utf8.is_ascii s = true -> lower s = lower_ascii s.
Proof. intros H. unfold lower. now rewrite H. Qed.

Lemma lower_ascii_app (a b : string) :
  lower_ascii (a +:+ b) = lower_ascii a +:+ lower_ascii b.
Proof. induction a as [|x a IH]; simpl; [reflexivity | f_equal; exact IH]. Qed.

Lemma lower_ascii_app_inv (s x y : string) :
  lower_ascii s = x +:+ y ->
  exists s1 s2, s = s1 +:+ s2 /\ lower_ascii s1 = x /\ lower_ascii s2 = y.
Proof.
  revert s; induction x as [|c x IH]; intros s H; simpl in H.
  - now exists "", s.
  - destruct s as [|d s]; [discriminate |]. simpl in H. injection H as Hc Hs.
    destruct (IH _ Hs) as (s1 & s2 & -> & <- & <-).
    exists (String d s1), s2. simpl. now rewrite Hc.
Qed.

Lemma same_nocase_lower (a b : string) : same_nocase a b <-> lower_ascii a = lower_ascii b.
Proof.
  revert b; induction a as [|c a IH]; intros [|d b]; simpl; try easy.
  rewrite IH. split.
  - now intros [-> ->].
  - intros H. now injection H.
Qed.

Lemma str_in_lower_ascii (q s : string) :
  str_in (lower_ascii q) (lower_ascii s) = true <-> occurs_nocase q s.
Proof.
  rewrite str_in_spec. unfold occurs, occurs_nocase. split.
  - intros (a & b & H).
    destruct (lower_ascii_app_inv _ _ _ H) as (s1 & s2 & -> & <- & H2).
    destruct (lower_ascii_app_inv _ _ _ H2) as (m & s3 & -> & Hm & <-).
    exists s1, m, s3. split; [reflexivity | now apply same_nocase_lower].
  - intros (a & m & b & -> & Hm%same_nocase_lower).
    exists (lower_ascii a), (lower_ascii b). now rewrite !lower_ascii_app, Hm.
Qed.

(** What the code computes on ASCII text, [k in s.lower()] for a word [k]
    that has no capital, is the occurrence of [k] in [s] in any letter
    case. *)
Lemma str_in_lower (k s : string) :
  lower_ascii k = k -> Utf8.is_ascii s = true ->
  str_in k (lower s) = true <-> occurs_nocase k s.
Proof.
  intros Hk Hs. rewrite (lower_of_ascii s Hs), <- Hk at 1. apply str_in_lower_ascii.
Qed.


End StringFacts.

(** ** The priority heuristic *)

Section Priority.
Import PyStr MCPEmailSystem.






End Priority.

(** ** The dispatcher: failure classes *)

Section Dispatch.
Import Main.

Lemma digit_not_slash (z : Z) : Ascii.eqb (Digits.digit (Z.to_N (z mod 10))) "/" = false.
Proof.
  pose proof (Z.mod_pos_bound z 10 ltac:(lia)) as H.
  assert (Hk : exists k, (k < 10)%nat /\ (z mod 10)%Z = Z.of_nat k).
  { exists (Z.to_nat (z mod 10)). lia. }
  destruct Hk as (k & Hk & ->).
  do 10 (destruct k as [|k]; [reflexivity |]). lia.
Qed.

Lemma has_slash_date (d : Clock.datetime) :
  Mimetypes.has_slash (Clock.strftime_date d) = false.
Proof.
  unfold Clock.strftime_date, Clock.pad.
  cbn [String.append Mimetypes.has_slash].
  rewrite !digit_not_slash. reflexivity.
Qed.

Lemma startswith_slash (s : string) :
  Mimetypes.has_slash s = false -> PyStr.startswith "/" s = false.
Proof.
  destruct s as [|c s]; [reflexivity |]. cbn [Mimetypes.has_slash PyStr.startswith].
  intros [H _]%orb_false_iff. rewrite Ascii.eqb_sym, H. reflexivity.
Qed.

Lemma endswith_app (x y : string) :
  y <> "" -> PyStr.endswith "/" (x +:+ y) = PyStr.endswith "/" y.
Proof.
  intros Hy. induction x as [|c x IH]; [reflexivity |].
  cbn [String.append PyStr.endswith]. rewrite IH.
  replace (String.eqb "/" (String c (x +:+ y))) with false; [reflexivity |].
  symmetry. cbn [String.eqb]. destruct (Ascii.eqb "/" c); [| reflexivity].
  destruct (x +:+ y) eqn:E; [| reflexivity].
  destruct x; [now destruct y | discriminate].
Qed.

Lemma endswith_no_slash (s : string) :
  Mimetypes.has_slash s = false -> PyStr.endswith "/" s = false.
Proof.
  induction s as [|c s IH]; [reflexivity |].
  cbn [Mimetypes.has_slash PyStr.endswith String.eqb].
  intros [H1 H2]%orb_false_iff. rewrite (IH H2), Ascii.eqb_sym, H1. reflexivity.
Qed.

Lemma path_join_plain (a b : string) :
  a <> "" -> PyStr.endswith "/" a = false -> PyStr.startswith "/" b = false ->
  path_join a b = a +:+ "/" +:+ b.
Proof.
  intros Ha He Hb. unfold path_join. rewrite Hb, He.
  apply String.eqb_neq in Ha. rewrite Ha. reflexivity.
Qed.

Lemma app_not_empty (a b : string) : b <> "" -> a +:+ b <> "".
Proof. destruct a; [easy | discriminate]. Qed.

(** The path of a result file, when the id does not start a path of its
    own. *)
Lemma result_path (d : Clock.datetime) (status email_id : string) :
  PyStr.startswith "/" email_id = false ->
  path_join
    (path_join (path_join "data" (Clock.strftime_date d))
       (if String.eqb status "success" then "success" else "failure"))
    (email_id +:+ ".json")
  = result_key (Clock.strftime_date d)
      (if String.eqb status "success" then "success" else "failure") email_id.
Proof.
  intros Hid. pose proof (has_slash_date d) as Hd.
  set (date := Clock.strftime_date d) in *.
  set (dir := if String.eqb status "success" then "success" else "failure").
  assert (Hdate : date <> "") by (subst date; discriminate).
  assert (Hdir : dir <> "" /\ PyStr.startswith "/" dir = false
                 /\ PyStr.endswith "/" dir = false).
  { subst dir. destruct (String.eqb status "success"); repeat split; discriminate. }
  destruct Hdir as (Hdir1 & Hdir2 & Hdir3).
  rewrite (path_join_plain "data" date); [| discriminate | reflexivity | now apply startswith_slash].
  rewrite (path_join_plain _ dir); [| discriminate | | exact Hdir2].
  2:{ change ("data" +:+ "/" +:+ date) with ("data/" +:+ date).
      rewrite endswith_app by exact Hdate. now apply endswith_no_slash. }
  rewrite path_join_plain.
  - unfold result_key. cbn [String.append]. rewrite !append_assoc. reflexivity.
  - discriminate.
  - rewrite endswith_app by (apply app_not_empty; exact Hdir1).
    change ("/" +:+ dir) with (String "/" dir). cbn [PyStr.endswith String.eqb].
    rewrite Hdir3. destruct dir; [easy | reflexivity].
  - destruct email_id; [reflexivity | exact Hid].
Qed.

Lemma save_email_result_run E s email_id status detail client_ip request_headers len :
  disk_ok E ->
  PyStr.startswith "/" email_id = false ->
  let date := Clock.strftime_date (Clock.now (clock E (calls s))) in
  let dir := if String.eqb status "success" then "success" else "failure" in
  exists r tr,
    save_email_result E email_id status detail client_ip request_headers len s
    = (Ok tt, State (<[result_key date dir email_id := ResultFile r]> (fs s))
                (trace s ++ tr) (4 + calls s))
    /\ Py.get r "email_id" JNull = Ok (JStr email_id)
    /\ Py.get r "status" JNull = Ok (JStr status)
    /\ Py.get r "detail" JNull = Ok (JStr detail).
Proof.
  intros Hw Hid date dir.
  unfold save_email_result, datetime_now, makedirs, write_file, tick, emit, raise_if,
    store_file.
  unfold mbind, M_bind, mret, M_ret, lift. cbn [fs trace calls].
  rewrite !Hw. cbn [fs trace calls].
  rewrite result_path by exact Hid.
  eexists _, _. split.
  - rewrite <- app_assoc. reflexivity.
  - repeat split.
Qed.

(** C9, as the code has it. A delivery result is written under
    [data/{date}/{status}/{id}.json], where the status is "success" or
    "failure" and the date is the calendar date of [datetime.now()], the
    local time of the process: it is the UTC date when the zone of the
    process is UTC. *)
Theorem result_key_by_local_date E s email_id status detail client_ip request_headers len :
  disk_ok E ->
  PyStr.startswith "/" email_id = false ->
  let reading := clock E (calls s) in
  let dir := if String.eqb status "success" then "success" else "failure" in
  exists r s',
    save_email_result E email_id status detail client_ip request_headers len s
    = (Ok tt, s')
    /\ fs s' = <[result_key (Clock.strftime_date (Clock.now reading)) dir email_id
                  := ResultFile r]> (fs s)
    /\ Py.get r "email_id" JNull = Ok (JStr email_id)
    /\ (dir = "success" \/ dir = "failure")
    /\ (Clock.utc_offset reading = 0%Z -> Clock.now reading = Clock.utcnow reading).
Proof.
  intros Hw Hid reading dir.
  destruct (save_email_result_run E s email_id status detail client_ip request_headers
              len Hw Hid) as (r & tr & Hrun & Hr & _).
  exists r. eexists. split; [exact Hrun |]. cbn [fs].
  split; [reflexivity |]. split; [exact Hr |]. split.
  - subst dir. destruct (String.eqb status "success"); auto.
  - intros H0. unfold Clock.now, Clock.utcnow. f_equal. lia.
Qed.

Lemma result_key_by_local_date_witness :
  exists r s',
    save_email_result (Scenario.all_well Scenario.late_evening) Scenario.email_id
      "success" "Email sent successfully" "127.0.0.1" (JDict []) 120 Scenario.empty_disk
    = (Ok tt, s')
    /\ fs s' = <[result_key "2026-11-04" "success" Scenario.email_id := ResultFile r]> ∅
    /\ Py.get r "email_id" JNull = Ok (JStr Scenario.email_id)
    /\ ("success" = "success" \/ "success" = "failure")
    /\ (7200%Z = 0%Z ->
        Clock.now Scenario.late_evening = Clock.utcnow Scenario.late_evening).
Proof.
  apply (result_key_by_local_date (Scenario.all_well Scenario.late_evening)
           Scenario.empty_disk Scenario.email_id "success").
  - intros n p. reflexivity.
  - reflexivity.
Defined.

(** C9 as stated fails: late in the evening of 3 November 2026 (UTC), in
    a process two hours east of UTC, the result goes under 2026-11-04 and
    nothing is written under the UTC date. *)
Lemma result_key_not_utc_date :
  let s' := snd (save_email_result (Scenario.all_well Scenario.late_evening)
                   Scenario.email_id "success" "Email sent successfully" "127.0.0.1"
                   (JDict []) 120 Scenario.empty_disk) in
  Clock.strftime_date (Clock.utcnow Scenario.late_evening) = "2026-11-03"
  /\ fs s' !! result_key "2026-11-03" "success" Scenario.email_id = None
  /\ is_Some (fs s' !! result_key "2026-11-04" "success" Scenario.email_id).
Proof.
  cbv zeta. split; [| split].
  - vm_compute. reflexivity.
  - vm_compute. reflexivity.
  - vm_compute. eexists. reflexivity.
Qed.

(** C5 fails on the code. The relay is not listening: the connection is
    refused, which [smtplib.SMTP(server, port)] raises as the
    [ConnectionRefusedError] of the socket, an [OSError] that is no
    [SMTPConnectError].  The dispatch fails while connecting, nothing else
    is exchanged with the relay; the clause of the handler for failed
    connections does not catch the exception, the last clause does, and
    the failure is recorded with the detail of an uncategorized failure. *)
Theorem refused_connection_recorded_uncategorized :
  let s' := snd (send_email_task Scenario.relay_down (Scenario.request false)
                   Scenario.email_id "127.0.0.1" (JDict []) [] Scenario.empty_disk) in
  let detail := "An unexpected error occurred: [Errno 111] Connection refused" in
  List.filter Session.is_smtp (trace s') = [SmtpConnect false "smtp.example.org" 587]
  /\ (exists r,
        fs s' !! result_key "2026-11-03" "failure" Scenario.email_id = Some (ResultFile r)
        /\ Py.get r "status" JNull = Ok (JStr "failure")
        /\ Py.get r "detail" JNull = Ok (JStr detail))
  /\ class_of_detail detail = Some Uncategorized
  /\ class_of_detail detail <> Some ConnectionFailed
  /\ class_of_detail (failure_detail (Exn SMTPConnectError "(554, b'No service')"))
     = Some ConnectionFailed.
Proof.
  cbv zeta. split; [vm_compute; reflexivity |]. split.
  - eexists. split; [vm_compute; reflexivity |]. split; reflexivity.
  - split; [reflexivity |]. split; [discriminate | reflexivity].
Qed.

(** C1 fails on the code. The message is sent and its success is
    recorded; the copy asked for by the debug flag cannot be written; the
    last handler of the task then records a failure for the same id: two
    delivery results, one under success/ and one under failure/. *)
Theorem debug_copy_failure_two_results :
  let s' := snd (send_email_task Scenario.debug_copy_fails (Scenario.request true)
                   Scenario.email_id "127.0.0.1" (JDict []) [] Scenario.empty_disk) in
  size (results_for Scenario.email_id (fs s')) = 2
  /\ is_Some (fs s' !! result_key "2026-11-03" "success" Scenario.email_id)
  /\ is_Some (fs s' !! result_key "2026-11-03" "failure" Scenario.email_id)
  /\ existsb is_sendmail (trace s') = true.
Proof.
  cbv zeta. split; [| split; [| split]].
  - vm_compute. reflexivity.
  - vm_compute. eexists. reflexivity.
  - vm_compute. eexists. reflexivity.
  - vm_compute. reflexivity.
Qed.

(** *** Assembly *)










(** *** One result per dispatch, as long as the disk takes every write *)

Lemma kf_ret {A} (a : A) : keeps_fs (mret a).
Proof. intros s. reflexivity. Qed.

Lemma kf_lift {A} (r : result A) : keeps_fs (lift r).
Proof. intros s. reflexivity. Qed.

Lemma kf_tick : keeps_fs tick.
Proof. intros s. reflexivity. Qed.

Lemma kf_emit (e : event) : keeps_fs (emit e).
Proof. intros s. reflexivity. Qed.

Lemma kf_raise_if (o : option exn) : keeps_fs (raise_if o).
Proof. destruct o; intros s; reflexivity. Qed.

Lemma kf_bind {A B} (m : M state A) (k : A -> M state B) :
  keeps_fs m -> (forall a, keeps_fs (k a)) -> keeps_fs (m ≫= k).
Proof.
  intros Hm Hk s. unfold mbind, M_bind. specialize (Hm s).
  destruct (m s) as [[a | e] s1]; cbn [snd] in *; [| exact Hm].
  now rewrite Hk.
Qed.

Lemma kf_try {A} (m : M state A) (h : exn -> M state A) :
  keeps_fs m -> (forall e, keeps_fs (h e)) -> keeps_fs (try_catch m h).
Proof.
  intros Hm Hh s. unfold try_catch. specialize (Hm s).
  destruct (m s) as [[a | e] s1]; cbn [snd] in *; [exact Hm |].
  now rewrite Hh.
Qed.

Ltac kf_step :=
  first
    [ apply kf_ret | apply kf_lift | apply kf_tick | apply kf_emit | apply kf_raise_if
    | apply kf_bind; [| intros ?]
    | apply kf_try; [| intros ?]
    | match goal with
      | |- keeps_fs (if ?b then _ else _) => destruct b
      | |- keeps_fs (match ?x with _ => _ end) => destruct x
      | |- keeps_fs (let '(_, _) := ?x in _) => destruct x
      end ].

Ltac kf := repeat kf_step.

Lemma kf_add_attachment E name : keeps_fs (add_attachment E name).
Proof. unfold add_attachment, minio_get_object. kf. Qed.

Lemma kf_attach_all E names message : keeps_fs (attach_all E names message).
Proof.
  revert message. induction names as [|[name|] rest IH]; intros message; cbn [attach_all].
  - apply kf_ret.
  - destruct (String.eqb name ""); [apply IH |].
    apply kf_bind; [apply kf_add_attachment | intros p; apply IH].
  - apply IH.
Qed.

Lemma kf_build_message E email_request email_id names :
  keeps_fs (build_message E email_request email_id names).
Proof. unfold build_message. apply kf_bind; [apply kf_tick | intros n; apply kf_attach_all]. Qed.

Lemma kf_smtp_do E step ev : keeps_fs (smtp_do E step ev).
Proof. unfold smtp_do. kf. Qed.

Lemma kf_leaving E body : keeps_fs body -> keeps_fs (leaving E body).
Proof.
  intros Hb s. unfold leaving. specialize (Hb s). destruct (body s) as [r s1].
  cbn [snd] in Hb.
  assert (Hq : keeps_fs (server_exit E)).
  { unfold server_exit. apply kf_try; [apply kf_smtp_do | intros e; kf]. }
  specialize (Hq s1). destruct (server_exit E s1) as [[[] | e] s2]; cbn [snd] in *;
    congruence.
Qed.

Lemma kf_deliver E email_request message : keeps_fs (deliver E email_request message).
Proof.
  assert (Hl : keeps_fs (login_and_send E email_request message)).
  { unfold login_and_send. kf; apply kf_smtp_do. }
  unfold deliver, with_server.
  destruct (use_ssl (config E)).
  - apply kf_bind; [apply kf_smtp_do | intros _; apply kf_leaving, Hl].
  - apply kf_bind; [apply kf_smtp_do | intros _; apply kf_leaving].
    apply kf_bind; [| intros _; exact Hl].
    destruct (use_tls (config E)); [apply kf_smtp_do | apply kf_ret].
Qed.

Lemma debug_path (d : Clock.datetime) (email_id : string) :
  PyStr.startswith "/" email_id = false ->
  path_join (path_join (path_join "data" (Clock.strftime_date d)) "debug")
    (email_id +:+ "_email.txt")
  = "data/" +:+ Clock.strftime_date d +:+ "/debug/" +:+ email_id +:+ "_email.txt".
Proof.
  intros Hid. pose proof (has_slash_date d) as Hd.
  set (date := Clock.strftime_date d) in *.
  assert (Hdate : date <> "") by (subst date; discriminate).
  rewrite (path_join_plain "data" date); [| discriminate | reflexivity | now apply startswith_slash].
  rewrite (path_join_plain _ "debug"); [| discriminate | | reflexivity].
  2:{ change ("data" +:+ "/" +:+ date) with ("data/" +:+ date).
      rewrite endswith_app by exact Hdate. now apply endswith_no_slash. }
  rewrite path_join_plain.
  - cbn [String.append]. rewrite !append_assoc. reflexivity.
  - discriminate.
  - rewrite endswith_app by discriminate. reflexivity.
  - destruct email_id; [reflexivity | exact Hid].
Qed.

Lemma save_debug_email_run E s email_id message :
  disk_ok E ->
  PyStr.startswith "/" email_id = false ->
  exists d tr n,
    save_debug_email E email_id message s
    = (Ok tt,
       State (<["data/" +:+ Clock.strftime_date d +:+ "/debug/" +:+ email_id +:+ "_email.txt"
                := TextFile (as_string E message)]> (fs s))
         (trace s ++ tr) n).
Proof.
  intros Hw Hid.
  unfold save_debug_email, datetime_now, makedirs, write_file, tick, emit, raise_if,
    store_file.
  unfold mbind, M_bind, mret, M_ret, lift. cbn [fs trace calls].
  rewrite !Hw. cbn [fs trace calls]. rewrite debug_path by exact Hid.
  eexists _, _, _. rewrite <- app_assoc. reflexivity.
Qed.

Lemma append_inj_length (a b x y : string) :
  String.length a = String.length b -> a +:+ x = b +:+ y -> a = b /\ x = y.
Proof.
  revert b. induction a as [|c a IH]; intros [|c' b] Hlen H; try discriminate.
  - now split.
  - cbn in H. injection H as -> H. injection Hlen as Hlen.
    destruct (IH b Hlen H) as [-> ->]. now split.
Qed.

Lemma result_key_not_debug (d d' : Clock.datetime) (dir email_id : string) :
  dir = "success" \/ dir = "failure" ->
  result_key (Clock.strftime_date d) dir email_id
  <> "data/" +:+ Clock.strftime_date d' +:+ "/debug/" +:+ email_id +:+ "_email.txt".
Proof.
  intros Hdir H. unfold result_key in H.
  apply String.app_inj in H.
  apply append_inj_length in H as [_ H]; [| reflexivity].
  destruct Hdir as [-> | ->]; discriminate H.
Qed.

Lemma results_for_insert_result (email_id key : string) (r : json) (files : gmap string file) :
  Py.get r "email_id" JNull = Ok (JStr email_id) ->
  results_for email_id files = ∅ ->
  results_for email_id (<[key := ResultFile r]> files) = {[key := ResultFile r]}.
Proof.
  intros Hr Hempty. unfold results_for in *.
  rewrite map_filter_insert_True.
  - rewrite Hempty. apply insert_empty.
  - cbn. rewrite Hr. now rewrite String.eqb_refl.
Qed.

Lemma results_for_insert_text (email_id key : string) (t : string) (files : gmap string file) :
  results_for email_id (<[key := TextFile t]> files) = delete key (results_for email_id files).
Proof.
  unfold results_for.
  rewrite map_filter_insert_False by (cbn; discriminate).
  apply map_filter_delete.
Qed.

(** As long as the disk takes every write, a dispatch leaves exactly one
    result for its id, whatever the relay and the attachment store do. *)
Lemma send_email_task_one_result E email_request email_id client_ip request_headers
    attachment_names s :
  disk_ok E ->
  PyStr.startswith "/" email_id = false ->
  results_for email_id (fs s) = ∅ ->
  let run := send_email_task E email_request email_id client_ip request_headers
               attachment_names s in
  fst run = Ok tt /\ size (results_for email_id (fs (snd run))) = 1.
Proof.
  intros Hw Hid Hfresh run.
  assert (Hfail : forall e s1, fs s1 = fs s ->
            let run := save_email_result E email_id "failure" (failure_detail e) client_ip
                         request_headers 0 s1 in
            fst run = Ok tt /\ size (results_for email_id (fs (snd run))) = 1).
  { intros e s1 Hs1.
    destruct (save_email_result_run E s1 email_id "failure" (failure_detail e) client_ip
                request_headers 0 Hw Hid) as (r & tr & -> & Hr & _).
    cbn [fst snd fs]. split; [reflexivity |].
    rewrite results_for_insert_result, map_size_singleton; congruence. }
  assert (Hrun : run = send_email_task E email_request email_id client_ip request_headers
                         attachment_names s) by reflexivity.
  clearbody run.
  unfold send_email_task, try_catch, send_email_try in Hrun.
  unfold mbind at 1, M_bind at 1 in Hrun.
  pose proof (kf_build_message E email_request email_id attachment_names s) as Hb.
  destruct (build_message E email_request email_id attachment_names s) as [[message | e] s1];
    cbn [snd] in Hb; [| subst run; now apply Hfail].
  unfold mbind at 1, M_bind at 1 in Hrun.
  pose proof (kf_deliver E email_request message s1) as Hd.
  destruct (deliver E email_request message s1) as [[[] | e] s2];
    cbn [snd] in Hd; [| subst run; apply Hfail; congruence].
  unfold mbind at 1, M_bind at 1 in Hrun.
  destruct (save_email_result_run E s2 email_id "success" "Email sent successfully" client_ip
              request_headers (Z.of_nat (String.length (as_string E message))) Hw Hid)
    as (r & tr & Hsave & Hr & _).
  rewrite Hsave in Hrun.
  assert (Hone : results_for email_id
                   (<[result_key (Clock.strftime_date (Clock.now (clock E (calls s2))))
                        "success" email_id := ResultFile r]> (fs s2))
                 = {[result_key (Clock.strftime_date (Clock.now (clock E (calls s2))))
                       "success" email_id := ResultFile r]}).
  { apply results_for_insert_result; congruence. }
  destruct (debug email_request).
  - match type of Hrun with
    | context [save_debug_email E email_id message ?s3] =>
        destruct (save_debug_email_run E s3 email_id message Hw Hid)
          as (d & tr' & n & Hdebug)
    end.
    rewrite Hdebug in Hrun. subst run.
    cbn [fst snd fs]. split; [reflexivity |].
    rewrite results_for_insert_text. cbn [String.eqb Ascii.eqb Bool.eqb].
    rewrite Hone, delete_singleton_ne, map_size_singleton; [reflexivity |].
    intros H. symmetry in H. revert H. apply result_key_not_debug. now left.
  - unfold mret, M_ret in Hrun. subst run. cbn [fst snd fs]. split; [reflexivity |].
    cbn [String.eqb Ascii.eqb Bool.eqb]. now rewrite Hone, map_size_singleton.
Qed.

End Dispatch.


(** ** The read side of the receiver *)

Ltac run_R :=
  unfold mbind, M_bind, mret, M_ret, lift, EmailReceiver.tick, EmailReceiver.emit,
    EmailReceiver.raise_if, EmailReceiver.get_bucket,
    EmailReceiver.logger_error, EmailReceiver.logger_info;
  cbn [EmailReceiver.bucket EmailReceiver.trace EmailReceiver.calls].

Section ReadSide.
Import Minio EmailReceiver.

Lemma read_emails_run E (objects : list object) s :
  exists tr,
    read_emails E objects s
    = (Ok (readable_from E (bucket s) (calls s) objects),
       State (bucket s) (trace s ++ tr) (length objects + calls s)).
Proof.
  revert s. induction objects as [|o rest IH]; intros s.
  - exists []. cbn. rewrite app_nil_r. now destruct s.
  - cbn [read_emails readable_from]. unfold try_catch, minio_get_object, readable. run_R.
    destruct (get_object_raises E (calls s) (object_name o)) as [e|].
    + run_R. edestruct IH as [tr ->]. cbn [bucket trace calls length].
      eexists. rewrite <- !app_assoc. f_equal. f_equal. lia.
    + run_R. destruct (find (object_name o) (bucket s)) as [o'|].
      * unfold json_loads. destruct (data o') as [v | b]; run_R;
          edestruct IH as [tr ->]; cbn [bucket trace calls length];
          eexists; rewrite <- ?app_assoc; f_equal; f_equal; lia.
      * run_R. edestruct IH as [tr ->]. cbn [bucket trace calls length].
        eexists. rewrite <- !app_assoc. f_equal. f_equal. lia.
Qed.

Lemma get_received_emails_run E limit offset s :
  fst (get_received_emails E limit offset s)
  = Ok (match list_objects_raises E (calls s) with
        | Some _ => []
        | None => readable_from E (bucket s) (S (calls s))
                    (slice (bucket s) offset (offset + limit))
        end).
Proof.
  unfold get_received_emails, try_catch, minio_list_objects. run_R.
  destruct (list_objects_raises E (calls s)) as [e|]; run_R; [reflexivity |].
  match goal with
  | |- context [read_emails E ?l ?s0] => destruct (read_emails_run E l s0) as [tr ->]
  end.
  reflexivity.
Qed.

Lemma search_received_emails_run E query s :
  fst (search_received_emails E query s)
  = Ok (match fst (get_received_emails E 1000 0 s) with
        | Ok all_emails =>
            match matching_emails (PyStr.lower query) all_emails with
            | Ok found => found
            | Raise _ => []
            end
        | Raise _ => []
        end).
Proof.
  unfold search_received_emails, try_catch. run_R.
  destruct (get_received_emails E 1000 0 s) as [[all_emails | e] s1]; cbn [fst].
  - destruct (matching_emails (PyStr.lower query) all_emails); reflexivity.
  - reflexivity.
Qed.

Lemma get_statistics_run E s :
  match list_objects_raises E (calls s) with
  | Some e => fst (get_statistics E s) = Ok (error_dict (exn_str e))
  | None =>
      exists total_emails total_attachments bytes updated,
        fst (get_statistics E s)
        = Ok (JDict [("total_emails_received", JInt total_emails);
                     ("total_attachments", JInt total_attachments);
                     ("bucket_size_bytes", JInt bytes);
                     ("last_updated", JStr updated)])
  end.
Proof.
  unfold get_statistics, try_catch, minio_list_objects, datetime_now. run_R.
  destruct (list_objects_raises E (calls s)) as [e|]; run_R; [reflexivity |].
  eexists _, _, _, _. reflexivity.
Qed.

(** *** Search *)

Lemma email_matches_record (query_lower : string) (email : json) :
  is_Some (searched_fields email) ->
  email_matches query_lower email = Ok (hit query_lower email).
Proof.
  intros [fields Hf]. unfold hit. rewrite Hf. revert Hf.
  unfold searched_fields, str_field, shown_field, email_matches.
  destruct email; try discriminate. cbn [Py.get mbind option_bind].
  generalize (default (JStr "") (Py.assoc "subject" items)) as subject.
  generalize (default (JDict []) (Py.assoc "from" items)) as from.
  generalize (default (JList []) (Py.assoc "to" items)) as to.
  generalize (default (JStr "") (Py.assoc "text" items)) as text.
  generalize (default (JStr "") (Py.assoc "html" items)) as html.
  intros html text to from subject.
  destruct subject; try discriminate.
  destruct text; try discriminate.
  destruct html; try discriminate.
  intros [= <-]. cbn [mbind result_bind Py.lower or_else existsb].
  repeat match goal with
         | |- context [PyStr.str_in ?q ?t] => destruct (PyStr.str_in q t); cbn
         end; reflexivity.
Qed.












End ReadSide.


(** ** The write side of the receiver *)

Section WriteSide.
Import Minio EmailReceiver.
Local Open Scope list_scope.








(** *** What a polling cycle does, in order *)

Lemma mn_ret {A} (a : A) : marks_nothing (mret a).
Proof. intros s. exists []. cbn. rewrite app_nil_r. split; [reflexivity | constructor]. Qed.

Lemma mn_lift {A} (r : result A) : marks_nothing (lift r).
Proof. intros s. exists []. cbn. rewrite app_nil_r. split; [reflexivity | constructor]. Qed.

Lemma mn_tick : marks_nothing tick.
Proof. intros s. exists []. cbn. rewrite app_nil_r. split; [reflexivity | constructor]. Qed.

Lemma mn_get_bucket : marks_nothing get_bucket.
Proof. intros s. exists []. cbn. rewrite app_nil_r. split; [reflexivity | constructor]. Qed.

Lemma mn_emit (e : event) : is_post e = false -> marks_nothing (emit e).
Proof. intros He s. exists [e]. cbn. split; [reflexivity | now repeat constructor]. Qed.

Lemma mn_raise_if (o : option exn) : marks_nothing (raise_if (S := state) o).
Proof. destruct o; [apply mn_lift | apply mn_ret]. Qed.

Lemma mn_bind {A B} (m : M state A) (k : A -> M state B) :
  marks_nothing m -> (forall a, marks_nothing (k a)) -> marks_nothing (m ≫= k).
Proof.
  intros Hm Hk s. unfold mbind, M_bind.
  destruct (Hm s) as (tr1 & H1 & P1). destruct (m s) as [[a | e] s1]; cbn [snd] in *.
  - destruct (Hk a s1) as (tr2 & H2 & P2). exists (tr1 ++ tr2).
    rewrite H2, H1, app_assoc. split; [reflexivity | now apply Forall_app].
  - now exists tr1.
Qed.

Lemma mn_try {A} (m : M state A) (h : exn -> M state A) :
  marks_nothing m -> (forall e, marks_nothing (h e)) -> marks_nothing (try_catch m h).
Proof.
  intros Hm Hh s. unfold try_catch.
  destruct (Hm s) as (tr1 & H1 & P1). destruct (m s) as [[a | e] s1]; cbn [snd] in *.
  - now exists tr1.
  - destruct (Hh e s1) as (tr2 & H2 & P2). exists (tr1 ++ tr2).
    rewrite H2, H1, app_assoc. split; [reflexivity | now apply Forall_app].
Qed.

Lemma mn_for_each {A} (l : list A) (body : A -> M state unit) :
  (forall a, marks_nothing (body a)) -> marks_nothing (for_each l body).
Proof.
  intros Hb. induction l as [|a l IH]; cbn [for_each].
  - apply mn_ret.
  - apply mn_bind; [apply Hb | intros _; exact IH].
Qed.

Ltac mn_step :=
  first
    [ apply mn_ret | apply mn_lift | apply mn_tick | apply mn_get_bucket
    | apply mn_raise_if
    | apply mn_emit; reflexivity
    | apply mn_bind; [| intros ?]
    | apply mn_try; [| intros ?]
    | apply mn_for_each; intros ?
    | match goal with
      | |- marks_nothing (if ?b then _ else _) => destruct b
      | |- marks_nothing (match ?x with _ => _ end) => destruct x
      end ].

Ltac mn := repeat mn_step.

Lemma mn_http_get E url : marks_nothing (http_get E url).
Proof. unfold http_get. mn. Qed.

Lemma mn_datetime_now E : marks_nothing (datetime_now E).
Proof. unfold datetime_now. mn. Qed.

Lemma mn_put_object name d ctype : marks_nothing (minio_put_object name d ctype).
Proof. unfold minio_put_object. mn. Qed.

Lemma mn_get_email_content E email_id : marks_nothing (get_email_content E email_id).
Proof. unfold get_email_content, logger_error. mn; apply mn_http_get. Qed.

Lemma mn_save_received_email E email : marks_nothing (save_received_email E email).
Proof.
  unfold save_received_email, logger_error, logger_info.
  mn; first [apply mn_datetime_now | apply mn_put_object].
Qed.

Lemma mn_download_attachment E email_id attachment_id :
  marks_nothing (download_attachment E email_id attachment_id).
Proof. unfold download_attachment, logger_error. mn; apply mn_http_get. Qed.

Lemma mn_process_attachments E email_id attachments :
  marks_nothing (process_attachments E email_id attachments).
Proof.
  unfold process_attachments, process_attachment, logger_error, logger_info.
  mn; first [apply mn_download_attachment | apply mn_put_object].
Qed.

Lemma mn_process_received_email E email : marks_nothing (process_received_email E email).
Proof.
  unfold process_received_email, logger_error, logger_info.
  mn; first [apply mn_get_email_content | apply mn_datetime_now
            | apply mn_save_received_email | apply mn_process_attachments].
Qed.

Lemma mn_call_callback E v : marks_nothing (call_callback E v).
Proof. unfold call_callback. mn. Qed.

Lemma mn_get_unread_emails E : marks_nothing (get_unread_emails E).
Proof. unfold get_unread_emails, logger_error. mn; apply mn_http_get. Qed.

Lemma sw_bind {A B} ev (m : M state A) (k : A -> M state B) :
  starts_with ev m -> (forall a, marks_nothing (k a)) -> starts_with ev (m ≫= k).
Proof.
  intros Hm Hk s. unfold mbind, M_bind.
  destruct (Hm s) as (tr1 & H1 & P1). destruct (m s) as [[a | e] s1]; cbn [snd] in *.
  - destruct (Hk a s1) as (tr2 & H2 & P2). exists (tr1 ++ tr2).
    rewrite H2, H1, <- app_assoc. split; [reflexivity | now apply Forall_app].
  - now exists tr1.
Qed.

Lemma sw_try {A} ev (m : M state A) (h : exn -> M state A) :
  starts_with ev m -> (forall e, marks_nothing (h e)) -> starts_with ev (try_catch m h).
Proof.
  intros Hm Hh s. unfold try_catch.
  destruct (Hm s) as (tr1 & H1 & P1). destruct (m s) as [[a | e] s1]; cbn [snd] in *.
  - now exists tr1.
  - destruct (Hh e s1) as (tr2 & H2 & P2). exists (tr1 ++ tr2).
    rewrite H2, H1, <- app_assoc. split; [reflexivity | now apply Forall_app].
Qed.

Lemma sw_lift_ok {A B} ev (a : A) (k : A -> M state B) :
  starts_with ev (k a) -> starts_with ev (lift (Ok a) ≫= k).
Proof. intros H s. exact (H s). Qed.

Lemma sw_http_get E url : starts_with (HttpGet url) (http_get E url).
Proof.
  intros s. exists []. unfold http_get. run_R.
  destruct (session_get E (calls s) url); split; (reflexivity || constructor).
Qed.

Lemma sw_get_email_content E email_id :
  starts_with (HttpGet (mail_url email_id)) (get_email_content E email_id).
Proof.
  unfold get_email_content, logger_error.
  apply sw_try; [| intros e; mn].
  apply sw_bind; [apply sw_http_get | intros r; mn].
Qed.

(** Processing a message that has an id starts with the request for its
    content, and marks nothing. *)
Lemma sw_process_received_email E email email_id :
  Py.getitem email "id" = Ok email_id ->
  starts_with (HttpGet (mail_url email_id)) (process_received_email E email).
Proof.
  intros Hid. unfold process_received_email. rewrite Hid.
  apply sw_try.
  2:{ intros e. unfold logger_error. mn. }
  apply sw_lift_ok.
  apply sw_bind; [apply sw_get_email_content |].
  intros full. unfold logger_info.
  mn; first [apply mn_datetime_now | apply mn_save_received_email
            | apply mn_process_attachments].
Qed.

Ltac list_eq :=
  repeat (progress (rewrite <- ?app_assoc; cbn [app])); reflexivity.

Lemma only_logs_no_post (tr : list event) : only_logs tr -> no_post tr.
Proof.
  unfold only_logs, no_post. induction 1 as [|ev tr Hev _ IH]; constructor.
  - now destruct ev.
  - exact IH.
Qed.

Lemma mark_email_as_read_run E email_id s :
  fst (mark_email_as_read E email_id s) = Ok tt
  /\ exists tr,
       trace (snd (mark_email_as_read E email_id s))
       = trace s ++ HttpPost (read_url email_id) :: tr
       /\ only_logs tr.
Proof.
  unfold mark_email_as_read, try_catch, http_post. run_R.
  destruct (session_post E (calls s) (read_url email_id)) as [[st b] | e]; run_R;
    cbn [status]; [destruct (st =? 200)%Z |];
    (split; [reflexivity |]); eexists; cbn [snd trace]; rewrite <- app_assoc;
    (split; [reflexivity | repeat constructor]).
Qed.

Lemma try_catch_total {A} (m : M state A) (h : exn -> M state A) s :
  (forall e s1, exists a, fst (h e s1) = Ok a) -> exists a, fst (try_catch m h s) = Ok a.
Proof.
  intros Hh. unfold try_catch. destruct (m s) as [[a | e] s1]; [now exists a | apply Hh].
Qed.

Lemma getitem_dict (email : json) (k : string) (v : json) :
  Py.getitem email k = Ok v ->
  exists items, email = JDict items /\ forall d, Py.get email k d = Ok v.
Proof.
  destruct email; try discriminate. cbn. intros H. eexists. split; [reflexivity |].
  intros d. destruct (Py.assoc k items); [now injection H as -> | discriminate].
Qed.

(** Processing a message that has an id does not raise. *)
Lemma process_received_email_total E email email_id s :
  Py.getitem email "id" = Ok email_id ->
  exists v, fst (process_received_email E email s) = Ok v.
Proof.
  intros Hid. apply getitem_dict in Hid as (items & -> & Hget).
  unfold process_received_email. apply try_catch_total.
  intros e s1. rewrite Hget. run_R. eauto.
Qed.

Lemma mn_raise {A B} (e : exn) (k : A -> M state B) :
  marks_nothing (lift (Raise e) ≫= k).
Proof. intros s. exists []. cbn. rewrite app_nil_r. split; [reflexivity | constructor]. Qed.

Lemma bind_raises {A B} (m : M state A) (k : A -> M state B) s :
  (forall a s1, exists e, fst (k a s1) = Raise e) -> exists e, fst ((m ≫= k) s) = Raise e.
Proof.
  intros Hk. unfold mbind, M_bind. destruct (m s) as [[a | e] s1]; [apply Hk | eauto].
Qed.

Lemma no_post_cons (ev : event) (tr : list event) :
  is_post ev = false -> no_post tr -> no_post (ev :: tr).
Proof. intros. now constructor. Qed.

(** One turn of the loop over the unread messages: either nothing is
    marked, or the message is marked after the request for its content. *)
Lemma listen_iteration_shape E callback email s :
  exists tr,
    trace (snd (listen_iteration E callback email s)) = trace s ++ tr
    /\ ((no_post tr /\ exists e, fst (listen_iteration E callback email s) = Raise e)
        \/ (fst (listen_iteration E callback email s) = Ok tt
            /\ exists email_id, Py.getitem email "id" = Ok email_id
                                /\ marked_after_fetch email_id tr)).
Proof.
  remember (listen_iteration E callback email s) as run eqn:Hrun.
  destruct (Py.getitem email "id") as [email_id | e0] eqn:Hid.
  - destruct (getitem_dict _ _ _ Hid) as (items & -> & Hget).
    unfold listen_iteration in Hrun. rewrite Hget, Hid in Hrun.
    unfold mbind at 1 2 3, M_bind, lift at 1, logger_info, emit in Hrun.
    cbn [bucket trace calls] in Hrun.
    match type of Hrun with
    | context [process_received_email E ?em ?s1] =>
        destruct (sw_process_received_email E em email_id Hid s1) as (trp & Hp & Pp);
        destruct (process_received_email E em s1) as [[v | e] s2]
    end; cbn [snd trace] in Hp.
    + assert (Hcb : exists trc, trace (snd ((if callback then call_callback E v else mret tt) s2))
                                = trace s2 ++ trc /\ no_post trc).
      { destruct callback; [apply mn_call_callback | apply (mn_ret tt)]. }
      destruct Hcb as (trc & Hc & Pc).
      unfold mbind, M_bind in Hrun.
      destruct ((if callback then call_callback E v else mret tt) s2) as [[[] | e] s3];
        cbn [snd] in Hc.
      * unfold lift at 1 in Hrun.
        destruct (mark_email_as_read_run E email_id s3) as (Hr & trm & Hm & Pm).
        destruct (mark_email_as_read E email_id s3) as [r s4]. cbn [fst snd] in *.
        subst run r. cbn [fst snd].
        exists ((Log INFO ("Processando email: " +:+ Py.str email_id)
                 :: HttpGet (mail_url email_id) :: trp ++ trc)
                ++ HttpPost (read_url email_id) :: trm).
        split.
        { rewrite Hm, Hc, Hp. list_eq. }
        right. split; [reflexivity |]. exists email_id. split; [reflexivity |].
        eexists _, _. split; [reflexivity |]. split; [| split].
        { apply no_post_cons; [reflexivity |]. apply no_post_cons; [reflexivity |].
          now apply Forall_app. }
        { right. now left. }
        { exact Pm. }
      * subst run. cbn [fst snd].
        exists (Log INFO ("Processando email: " +:+ Py.str email_id)
                :: HttpGet (mail_url email_id) :: trp ++ trc).
        split.
        { rewrite Hc, Hp. list_eq. }
        left. split; [| eexists; reflexivity].
        apply no_post_cons; [reflexivity |]. apply no_post_cons; [reflexivity |].
        now apply Forall_app.
    + subst run. cbn [fst snd].
      exists (Log INFO ("Processando email: " +:+ Py.str email_id)
              :: HttpGet (mail_url email_id) :: trp).
      split.
      { rewrite Hp. list_eq. }
      left. split; [| eexists; reflexivity].
      apply no_post_cons; [reflexivity |]. now apply no_post_cons.
  - assert (Hmn : marks_nothing (listen_iteration E callback email)).
    { unfold listen_iteration, logger_info. rewrite Hid.
      apply mn_bind; [apply mn_lift | intros shown].
      apply mn_bind; [apply mn_emit; reflexivity | intros _].
      apply mn_bind; [apply mn_process_received_email | intros v].
      apply mn_bind; [destruct callback; [apply mn_call_callback | apply mn_ret] | intros _].
      apply mn_raise. }
    subst run. destruct (Hmn s) as (tr & Htr & Ptr). exists tr. split; [exact Htr |].
    left. split; [exact Ptr |].
    unfold listen_iteration. rewrite Hid.
    do 4 (apply bind_raises; intros ? ?). unfold mbind, M_bind, lift. eauto.
Qed.

Lemma listen_iteration_ok E callback email email_id s :
  Py.getitem email "id" = Ok email_id ->
  callback_safe E callback ->
  fst (listen_iteration E callback email s) = Ok tt.
Proof.
  intros Hid Hcb. destruct (getitem_dict _ _ _ Hid) as (items & -> & Hget).
  unfold listen_iteration. rewrite Hget, Hid.
  unfold mbind at 1 2 3, M_bind, lift at 1, logger_info, emit. cbn [bucket trace calls].
  match goal with
  | |- context [process_received_email E ?em ?s1] =>
      destruct (process_received_email_total E em email_id s1 Hid) as [v Hv];
      destruct (process_received_email E em s1) as [r s2]
  end.
  cbn [fst] in Hv. subst r. unfold mbind, M_bind.
  assert (Hc : exists s3, (if callback then call_callback E v else mret tt) s2 = (Ok tt, s3)).
  { destruct Hcb as [-> | Hcb]; [eexists; reflexivity |].
    destruct callback; [| eexists; reflexivity].
    unfold call_callback. run_R. rewrite Hcb. eexists. reflexivity. }
  destruct Hc as [s3 ->]. unfold lift. apply mark_email_as_read_run.
Qed.

Lemma no_post_split (tr pre post : list event) (u : string) :
  no_post tr -> tr <> pre ++ HttpPost u :: post.
Proof.
  intros Hn ->. apply Forall_app in Hn as [_ Hn]. now inversion Hn.
Qed.

Lemma mff_no_post (tr : list event) : no_post tr -> marks_follow_fetch tr.
Proof. intros Hn pre u post H. now apply no_post_split in H. Qed.

Lemma mff_app (a b : list event) :
  marks_follow_fetch a -> marks_follow_fetch b -> marks_follow_fetch (a ++ b).
Proof.
  intros Ha Hb pre u post H.
  apply app_eq_app in H as [l [[-> Hl] | [-> Hl]]].
  - destruct l as [|x l].
    + cbn [app] in Hl. destruct (Hb [] u post (eq_sym Hl)) as (i & _ & []).
    + cbn [app] in Hl. injection Hl as Hx Hpost. subst x.
      apply (Ha pre u l). reflexivity.
  - destruct (Hb l u post Hl) as (i & -> & Hin). exists i. split; [reflexivity |].
    apply in_or_app. now right.
Qed.

Lemma mff_marked (email_id : json) (tr : list event) :
  marked_after_fetch email_id tr -> marks_follow_fetch tr.
Proof.
  intros (tr1 & tr2 & -> & P1 & Hin & P2) pre u post H.
  apply app_eq_app in H as [l [[-> Hl] | [-> Hl]]].
  - destruct l as [|x l].
    + cbn [app] in Hl. injection Hl as Hu Hpost. exists email_id.
      rewrite app_nil_r in Hin. split; [congruence | exact Hin].
    + cbn [app] in Hl. injection Hl as Hx Hpost. subst x.
      apply Forall_app in P1 as [_ P1]. inversion P1 as [|? ? Hp _]. discriminate Hp.
  - destruct l as [|x l].
    + cbn [app] in Hl. injection Hl as Hu Hpost. exists email_id.
      rewrite app_nil_r. split; [congruence | exact Hin].
    + cbn [app] in Hl. injection Hl as Hx Hl.
      apply only_logs_no_post in P2. now apply no_post_split in Hl.
Qed.

Lemma follows_of_mn {A} (m : M state A) : marks_nothing m -> follows m.
Proof.
  intros Hm s. destruct (Hm s) as (tr & H & P). exists tr. split; [exact H |].
  now apply mff_no_post.
Qed.

Lemma follows_bind {A B} (m : M state A) (k : A -> M state B) :
  follows m -> (forall a, follows (k a)) -> follows (m ≫= k).
Proof.
  intros Hm Hk s. unfold mbind, M_bind.
  destruct (Hm s) as (tr1 & H1 & P1). destruct (m s) as [[a | e] s1]; cbn [snd] in *.
  - destruct (Hk a s1) as (tr2 & H2 & P2). exists (tr1 ++ tr2).
    rewrite H2, H1, app_assoc. split; [reflexivity | now apply mff_app].
  - now exists tr1.
Qed.

Lemma follows_try {A} (m : M state A) (h : exn -> M state A) :
  follows m -> (forall e, follows (h e)) -> follows (try_catch m h).
Proof.
  intros Hm Hh s. unfold try_catch.
  destruct (Hm s) as (tr1 & H1 & P1). destruct (m s) as [[a | e] s1]; cbn [snd] in *.
  - now exists tr1.
  - destruct (Hh e s1) as (tr2 & H2 & P2). exists (tr1 ++ tr2).
    rewrite H2, H1, app_assoc. split; [reflexivity | now apply mff_app].
Qed.

Lemma follows_for_each {A} (l : list A) (body : A -> M state unit) :
  (forall a, follows (body a)) -> follows (for_each l body).
Proof.
  intros Hb. induction l as [|a l IH]; cbn [for_each].
  - apply follows_of_mn, mn_ret.
  - apply follows_bind; [apply Hb | intros _; exact IH].
Qed.

Lemma follows_listen_iteration E callback email :
  follows (listen_iteration E callback email).
Proof.
  intros s. destruct (listen_iteration_shape E callback email s)
    as (tr & Htr & [[Hn _] | (_ & email_id & _ & Hm)]);
    exists tr; (split; [exact Htr |]).
  - now apply mff_no_post.
  - now apply (mff_marked email_id).
Qed.

Lemma follows_listen_cycle E callback : follows (listen_cycle E callback).
Proof.
  unfold listen_cycle. apply follows_try.
  - apply follows_bind; [apply follows_of_mn, mn_get_unread_emails | intros unread].
    apply follows_bind; [apply follows_for_each; intros email;
                         apply follows_listen_iteration | intros _].
    apply follows_of_mn. unfold asyncio_sleep. mn.
  - intros e. apply follows_of_mn. unfold logger_error, asyncio_sleep. mn.
Qed.

(** A message that has an id is marked, after the request for its content,
    whatever its processing did. *)
Lemma listen_iteration_marks E callback email email_id s :
  Py.getitem email "id" = Ok email_id ->
  callback_safe E callback ->
  fst (listen_iteration E callback email s) = Ok tt
  /\ exists tr,
       trace (snd (listen_iteration E callback email s)) = trace s ++ tr
       /\ marked_after_fetch email_id tr.
Proof.
  intros Hid Hcb.
  pose proof (listen_iteration_ok E callback email email_id s Hid Hcb) as Hok.
  split; [exact Hok |].
  destruct (listen_iteration_shape E callback email s)
    as (tr & Htr & [[_ [e He]] | (_ & i & Hi & Hm)]); [congruence |].
  exists tr. split; [exact Htr |]. congruence.
Qed.

(** C2, as the code has it. In a polling cycle, a request that marks a
    message as consumed comes only after the request for the content of
    that message, so after the processing of the message has ended; and a
    message that has an id, with no callback or one that does not raise,
    is marked whatever its processing did: whether its content could be
    fetched or not, whether it was persisted or not. *)
Theorem mark_follows_processing E callback s :
  (exists tr,
     trace (snd (listen_cycle E callback s)) = trace s ++ tr
     /\ marks_follow_fetch tr)
  /\ (forall email email_id s0,
        Py.getitem email "id" = Ok email_id ->
        callback_safe E callback ->
        fst (listen_iteration E callback email s0) = Ok tt
        /\ exists tr,
             trace (snd (listen_iteration E callback email s0)) = trace s0 ++ tr
             /\ marked_after_fetch email_id tr).
Proof.
  split; [apply follows_listen_cycle |].
  intros email email_id s0 Hid Hcb. now apply listen_iteration_marks.
Qed.


Lemma mark_follows_processing_witness :
  fst (listen_iteration Scenario.first_content_fails false
         (JDict [("id", JStr "m1"); ("read", JBool false)])
         (Scenario.receiver_state [])) = Ok tt
  /\ exists tr,
       trace (snd (listen_iteration Scenario.first_content_fails false
                     (JDict [("id", JStr "m1"); ("read", JBool false)])
                     (Scenario.receiver_state []))) = [] ++ tr
       /\ marked_after_fetch (JStr "m1") tr.
Proof.
  apply (proj2 (mark_follows_processing Scenario.first_content_fails false
                  (Scenario.receiver_state []))).
  - reflexivity.
  - left. reflexivity.
Defined.

(** C2 as stated fails: the content of "m1" cannot be fetched, nothing is
    persisted, and the message is marked as consumed all the same (MailDev
    answers 200 to the request): the next cycles will not see it. *)
Lemma unfetched_message_marked :
  let s := snd (listen_cycle Scenario.first_content_fails false
                  (Scenario.receiver_state [])) in
  find_by_id "m1" (documents (bucket s)) = None
  /\ In (HttpGet "http://localhost:1080/api/mail/m1") (trace s)
  /\ In (HttpPost "http://localhost:1080/api/mail/m1/read") (trace s)
  /\ In (Log INFO "Email m1 marcado como lido") (trace s).
Proof.
  cbv zeta. split; [| split; [| split]].
  - vm_compute. reflexivity.
  - vm_compute. tauto.
  - vm_compute. tauto.
  - vm_compute. tauto.
Qed.

End WriteSide.

(** ** The read side, further: pages, counts and what a search returns *)

Section Paging.
Import Minio EmailReceiver.
Local Open Scope list_scope.

Lemma readable_length E (b : list object) (n : nat) (o : object) :
  length (readable E b n o) <= 1.
Proof.
  unfold readable. destruct (get_object_raises E n (object_name o)); [cbn; lia |].
  destruct (find (object_name o) b) as [o'|]; [| cbn; lia].
  destruct (data o'); cbn; lia.
Qed.

Lemma readable_from_length E (b : list object) (n : nat) (objects : list object) :
  length (readable_from E b n objects) <= length objects.
Proof.
  revert n. induction objects as [|o rest IH]; intros n; cbn [readable_from]; [cbn; lia |].
  rewrite length_app. specialize (IH (S n)). pose proof (readable_length E b n o).
  cbn [length]. lia.
Qed.

Lemma slice_length {A} (l : list A) (offset limit : Z) :
  (0 <= limit)%Z -> (Z.of_nat (length (slice l offset (offset + limit))) <= limit)%Z.
Proof.
  intros Hl. unfold slice. rewrite length_take, length_drop. unfold clamp.
  destruct (Z.ltb_spec offset 0), (Z.ltb_spec (offset + limit) 0); lia.
Qed.

Lemma slice_from {A} (l : list A) (o a : nat) :
  slice l (Z.of_nat o) (Z.of_nat o + Z.of_nat a) = take a (drop o l).
Proof.
  unfold slice, clamp.
  destruct (Z.ltb_spec (Z.of_nat o) 0) as [|_]; [lia |].
  destruct (Z.ltb_spec (Z.of_nat o + Z.of_nat a) 0) as [|_]; [lia |].
  destruct (Nat.le_gt_cases (length l) o) as [Hge | Hlt].
  - replace (Z.to_nat (Z.min (Z.of_nat o) (Z.of_nat (length l)))) with (length l) by lia.
    rewrite (drop_ge l (length l)) by lia. rewrite (drop_ge l o) by lia.
    now rewrite !take_nil.
  - replace (Z.to_nat (Z.min (Z.of_nat o) (Z.of_nat (length l)))) with o by lia.
    destruct (Nat.le_gt_cases (o + a) (length l)) as [Hin | Hout].
    + f_equal. lia.
    + rewrite (take_ge (drop o l) a) by (rewrite length_drop; lia).
      apply take_ge. rewrite length_drop. lia.
Qed.

Lemma slice_app {A} (l : list A) (offset a b : Z) :
  (0 <= offset)%Z -> (0 <= a)%Z -> (0 <= b)%Z ->
  slice l offset (offset + (a + b))
  = slice l offset (offset + a) ++ slice l (offset + a) (offset + a + b).
Proof.
  intros Ho Ha Hb.
  rewrite <- (Z2Nat.id offset Ho), <- (Z2Nat.id a Ha), <- (Z2Nat.id b Hb).
  generalize (Z.to_nat offset) (Z.to_nat a) (Z.to_nat b). intros o x y.
  rewrite (slice_from l o x).
  replace (Z.of_nat x + Z.of_nat y)%Z with (Z.of_nat (x + y)) by lia.
  rewrite (slice_from l o (x + y)).
  replace (Z.of_nat o + Z.of_nat x)%Z with (Z.of_nat (o + x)) by lia.
  rewrite (slice_from l (o + x) y).
  now rewrite <- take_take_drop, drop_drop.
Qed.

Lemma slice_In {A} (l : list A) (start stop : Z) (x : A) :
  In x (slice l start stop) -> In x l.
Proof.
  unfold slice. intros H.
  apply list_elem_of_In in H. apply list_elem_of_In.
  eapply subseteq_drop, subseteq_take, H.
Qed.

Lemma readable_from_any_call E (b : list object) (n m : nat) (objects : list object) :
  store_available E -> readable_from E b n objects = readable_from E b m objects.
Proof.
  intros [_ Hget]. revert n m.
  induction objects as [|o rest IH]; intros n m; cbn [readable_from]; [reflexivity |].
  rewrite (IH (S n) (S m)). f_equal. unfold readable. now rewrite !Hget.
Qed.

Lemma readable_from_app E (b : list object) (n : nat) (l1 l2 : list object) :
  store_available E ->
  readable_from E b n (l1 ++ l2) = readable_from E b n l1 ++ readable_from E b n l2.
Proof.
  intros Hav. revert n. induction l1 as [|o rest IH]; intros n; cbn [readable_from app].
  - reflexivity.
  - rewrite IH, <- app_assoc. do 2 f_equal. now apply readable_from_any_call.
Qed.

Lemma filter_partition (objects : list object) :
  length (filter (fun obj => is_email_object obj = true) objects)
  + length (filter (fun obj => is_email_object obj = false) objects)
  = length objects.
Proof.
  induction objects as [|o rest IH]; [reflexivity |].
  rewrite !filter_cons. destruct (is_email_object o) eqn:Ho.
  - destruct (decide (true = true)); [| congruence].
    destruct (decide (true = false)); [congruence |]. cbn [length]. lia.
  - destruct (decide (false = true)); [congruence |].
    destruct (decide (false = false)); [| congruence]. cbn [length]. lia.
Qed.

Lemma matching_emails_sublist (query_lower : string) (emails found : list json) :
  matching_emails query_lower emails = Ok found -> sublist found emails.
Proof.
  revert found. induction emails as [|m rest IH]; intros found; cbn [matching_emails].
  - intros [= <-]. constructor.
  - destruct (email_matches query_lower m) as [h|]; cbn [mbind result_bind]; [| discriminate].
    destruct (matching_emails query_lower rest) as [f|]; cbn [mbind result_bind];
      [| discriminate].
    intros [= <-]. destruct h; [apply sublist_skip | apply sublist_cons]; now apply IH.
Qed.

Lemma matching_emails_raises (query_lower : string) (emails : list json) (m : json) :
  In m emails ->
  (exists e, email_matches query_lower m = Raise e) ->
  exists e, matching_emails query_lower emails = Raise e.
Proof.
  intros Hin [e He]. induction emails as [|x rest IH]; [destruct Hin |].
  cbn [matching_emails]. destruct Hin as [-> | Hin].
  - rewrite He. cbn. eauto.
  - destruct (email_matches query_lower x); cbn [mbind result_bind]; [| eauto].
    destruct (IH Hin) as [e' ->]. cbn. eauto.
Qed.

Lemma str_in_empty (s : string) : PyStr.str_in "" s = true.
Proof. destruct s; reflexivity. Qed.

Lemma hit_empty (m : json) : is_Some (searched_fields m) -> hit "" m = true.
Proof.
  intros [fields Hf]. unfold hit. rewrite Hf.
  unfold searched_fields in Hf.
  destruct (str_field m "subject"); [| discriminate]. cbn [mbind option_bind] in Hf.
  destruct (shown_field m "from" (JDict [])); [| discriminate]. cbn [mbind option_bind] in Hf.
  destruct (shown_field m "to" (JList [])); [| discriminate]. cbn [mbind option_bind] in Hf.
  destruct (str_field m "text"); [| discriminate]. cbn [mbind option_bind] in Hf.
  destruct (str_field m "html"); [| discriminate]. cbn [mbind option_bind] in Hf.
  injection Hf as <-. cbn [existsb]. now rewrite str_in_empty.
Qed.

Lemma matching_emails_all (emails : list json) :
  (forall m, In m emails -> is_Some (searched_fields m)) ->
  matching_emails "" emails = Ok emails.
Proof.
  induction emails as [|m rest IH]; intros Hrec; [reflexivity |].
  cbn [matching_emails].
  rewrite email_matches_record by (apply Hrec; now left).
  rewrite hit_empty by (apply Hrec; now left).
  rewrite IH by (intros; apply Hrec; now right). reflexivity.
Qed.

End Paging.

Section ReadSideFurther.
Import Minio EmailReceiver.
Local Open Scope list_scope.

(** X1. [get_received_emails] never returns more entries than the limit it
    is given, when the limit is not negative: whatever the offset, whatever
    the store holds and however its reads fail. *)
Theorem page_never_exceeds_limit E s (limit offset : Z) :
  (0 <= limit)%Z ->
  exists emails,
    fst (get_received_emails E limit offset s) = Ok emails
    /\ (Z.of_nat (length emails) <= limit)%Z.
Proof.
  intros Hl. rewrite get_received_emails_run. eexists. split; [reflexivity |].
  destruct (list_objects_raises E (calls s)); [cbn; lia |].
  pose proof (readable_from_length E (bucket s) (S (calls s))
                (slice (bucket s) offset (offset + limit))).
  pose proof (slice_length (bucket s) offset limit Hl). lia.
Qed.

Lemma page_never_exceeds_limit_witness :
  exists emails,
    fst (get_received_emails Scenario.quiet 1 0
           (Scenario.receiver_state Scenario.mixed_bucket)) = Ok emails
    /\ (Z.of_nat (length emails) <= 1)%Z.
Proof.
  apply (page_never_exceeds_limit Scenario.quiet
           (Scenario.receiver_state Scenario.mixed_bucket) 1 0).
  lia.
Defined.

(** X2. Pages of [get_received_emails] fit together: when the store answers
    and is not written to in between, the page of [a] entries at [offset]
    followed by the page of [b] entries at [offset + a] is the page of
    [a + b] entries at [offset]. *)
Theorem pages_concatenate E s1 s2 s3 (offset a b : Z) :
  store_available E ->
  bucket s2 = bucket s1 -> bucket s3 = bucket s1 ->
  (0 <= offset)%Z -> (0 <= a)%Z -> (0 <= b)%Z ->
  exists p q,
    fst (get_received_emails E a offset s1) = Ok p
    /\ fst (get_received_emails E b (offset + a) s2) = Ok q
    /\ fst (get_received_emails E (a + b) offset s3) = Ok (p ++ q).
Proof.
  intros Hav H2 H3 Ho Ha Hb. pose proof Hav as [Hlist _].
  rewrite !get_received_emails_run, !Hlist, H2, H3.
  eexists _, _. split; [reflexivity |]. split; [reflexivity |]. f_equal.
  rewrite slice_app, readable_from_app by assumption.
  f_equal; now apply readable_from_any_call.
Qed.

Lemma pages_concatenate_witness :
  exists p q,
    fst (get_received_emails Scenario.quiet 1 0
           (Scenario.receiver_state Scenario.mixed_bucket)) = Ok p
    /\ fst (get_received_emails Scenario.quiet 1 (0 + 1)
              (Scenario.receiver_state Scenario.mixed_bucket)) = Ok q
    /\ fst (get_received_emails Scenario.quiet (1 + 1) 0
              (Scenario.receiver_state Scenario.mixed_bucket)) = Ok (p ++ q).
Proof.
  apply (pages_concatenate Scenario.quiet); try reflexivity; try lia.
  split; reflexivity.
Defined.

(** X3. When the store lists its objects, [get_statistics] counts every
    object exactly once, as a message or as an attachment: the two counts
    add up to the number of objects, and the size is the sum of the sizes. *)
Theorem statistics_count_every_object E s :
  list_objects_raises E (calls s) = None ->
  exists total_emails total_attachments updated,
    fst (get_statistics E s)
    = Ok (JDict [("total_emails_received", JInt (Z.of_nat total_emails));
                 ("total_attachments", JInt (Z.of_nat total_attachments));
                 ("bucket_size_bytes",
                  JInt (Z.of_nat (foldr Nat.add 0 (map size (bucket s)))));
                 ("last_updated", JStr updated)])
    /\ total_emails + total_attachments = length (bucket s).
Proof.
  intros Hlist.
  unfold get_statistics, try_catch, minio_list_objects, datetime_now. run_R.
  rewrite Hlist. run_R. eexists _, _, _. split; [reflexivity |].
  apply filter_partition.
Qed.

Lemma statistics_count_every_object_witness :
  exists total_emails total_attachments updated,
    fst (get_statistics Scenario.quiet (Scenario.receiver_state Scenario.mixed_bucket))
    = Ok (JDict [("total_emails_received", JInt (Z.of_nat total_emails));
                 ("total_attachments", JInt (Z.of_nat total_attachments));
                 ("bucket_size_bytes",
                  JInt (Z.of_nat (foldr Nat.add 0 (map size Scenario.mixed_bucket))));
                 ("last_updated", JStr updated)])
    /\ total_emails + total_attachments = length Scenario.mixed_bucket.
Proof.
  apply (statistics_count_every_object Scenario.quiet
           (Scenario.receiver_state Scenario.mixed_bucket)).
  reflexivity.
Defined.

(** X4. What [search_received_emails] returns is taken from what
    [get_received_emails(limit=1000)] returns in the same state, in the
    same order: a search never makes up an entry and never reorders. *)
Theorem search_returns_listed_in_order E query s :
  exists listed found,
    fst (get_received_emails E 1000 0 s) = Ok listed
    /\ fst (search_received_emails E query s) = Ok found
    /\ sublist found listed.
Proof.
  rewrite search_received_emails_run, get_received_emails_run. cbn [fst].
  eexists _, _. split; [reflexivity |]. split; [reflexivity |].
  destruct (matching_emails _ _) as [found|] eqn:Hm.
  - eapply matching_emails_sublist, Hm.
  - apply sublist_nil_l.
Qed.

(** X5. The empty query matches everything: when every listed document is a
    message record, searching for the empty string returns the whole
    listing of the first 1000 objects. *)
Theorem empty_query_returns_listing E s (listed : list json) :
  fst (get_received_emails E 1000 0 s) = Ok listed ->
  (forall m, In m listed -> is_Some (searched_fields m)) ->
  fst (search_received_emails E "" s) = Ok listed.
Proof.
  intros Hlisted Hrec. rewrite search_received_emails_run, Hlisted.
  cbn [PyStr.lower]. now rewrite matching_emails_all.
Qed.

Lemma empty_query_returns_listing_witness :
  fst (search_received_emails Scenario.quiet ""
         (Scenario.receiver_state Scenario.mixed_bucket)) = Ok [Scenario.report].
Proof.
  apply (empty_query_returns_listing Scenario.quiet
           (Scenario.receiver_state Scenario.mixed_bucket) [Scenario.report]).
  - vm_compute. reflexivity.
  - intros m [<- | []]. vm_compute. eauto.
Defined.

(** X6. One listed document that is not a dict, or whose subject is not a
    string, empties every search: the error raised on it is caught by the
    handler of the whole search, which returns the empty list, so the
    documents that do match are not returned either. *)
Theorem malformed_document_empties_search E query s (listed : list json) (m : json) :
  fst (get_received_emails E 1000 0 s) = Ok listed ->
  In m listed ->
  (forall subject, Py.get m "subject" (JStr "") <> Ok (JStr subject)) ->
  fst (search_received_emails E query s) = Ok [].
Proof.
  intros Hlisted Hin Hbad. rewrite search_received_emails_run, Hlisted.
  destruct (matching_emails_raises (PyStr.lower query) listed m Hin) as [e ->];
    [| reflexivity].
  unfold email_matches.
  destruct (Py.get m "subject" (JStr "")) as [v|e] eqn:Hget.
  - destruct v; try (cbn; eauto). now destruct (Hbad s0).
  - cbn. eauto.
Qed.

Lemma malformed_document_empties_search_witness :
  fst (search_received_emails Scenario.quiet "report"
         (Scenario.receiver_state
            [Scenario.email_object "2026-11-03_13-50-00_m1_email.json" Scenario.report;
             Scenario.email_object "m1_att2_tags.json" (JList [JStr "weekly"])]))
  = Ok [].
Proof.
  apply (malformed_document_empties_search Scenario.quiet "report"
           (Scenario.receiver_state
              [Scenario.email_object "2026-11-03_13-50-00_m1_email.json" Scenario.report;
               Scenario.email_object "m1_att2_tags.json" (JList [JStr "weekly"])])
           [Scenario.report; JList [JStr "weekly"]] (JList [JStr "weekly"])).
  - vm_compute. reflexivity.
  - right. left. reflexivity.
  - intros subject. discriminate.
Defined.

End ReadSideFurther.

(** ** What the receiver emits, writes and leaves alone *)

Section ReceiverEffects.
Import Minio EmailReceiver Observed.
Local Open Scope list_scope.

Variable P : event -> Prop.

Lemma eo_ret {A} (a : A) : emits_only P (mret a).
Proof. intros s. exists []. cbn. now rewrite app_nil_r. Qed.

Lemma eo_lift {A} (r : result A) : emits_only P (lift r).
Proof. intros s. exists []. cbn. now rewrite app_nil_r. Qed.

Lemma eo_tick : emits_only P tick.
Proof. intros s. exists []. cbn. now rewrite app_nil_r. Qed.

Lemma eo_get_bucket : emits_only P get_bucket.
Proof. intros s. exists []. cbn. now rewrite app_nil_r. Qed.

Lemma eo_raise_if (o : option exn) : emits_only P (raise_if (S := state) o).
Proof. destruct o; [apply eo_lift | apply eo_ret]. Qed.

Lemma eo_emit (ev : event) : P ev -> emits_only P (emit ev).
Proof. intros Hev s. exists [ev]. cbn. split; [reflexivity | now constructor]. Qed.

Lemma eo_bind {A B} (m : M state A) (k : A -> M state B) :
  emits_only P m -> (forall a, emits_only P (k a)) -> emits_only P (m ≫= k).
Proof.
  intros Hm Hk s. unfold mbind, M_bind. destruct (Hm s) as (tr1 & E1 & F1).
  destruct (m s) as [[a | e] s1]; cbn [snd] in *.
  - destruct (Hk a s1) as (tr2 & E2 & F2). exists (tr1 ++ tr2).
    rewrite E2, E1, app_assoc. split; [reflexivity | now apply Forall_app].
  - now exists tr1.
Qed.

Lemma eo_try {A} (m : M state A) (h : exn -> M state A) :
  emits_only P m -> (forall e, emits_only P (h e)) -> emits_only P (try_catch m h).
Proof.
  intros Hm Hh s. unfold try_catch. destruct (Hm s) as (tr1 & E1 & F1).
  destruct (m s) as [[a | e] s1]; cbn [snd] in *.
  - now exists tr1.
  - destruct (Hh e s1) as (tr2 & E2 & F2). exists (tr1 ++ tr2).
    rewrite E2, E1, app_assoc. split; [reflexivity | now apply Forall_app].
Qed.

Lemma eo_for_each {A} (l : list A) (body : A -> M state unit) :
  (forall a, emits_only P (body a)) -> emits_only P (for_each l body).
Proof.
  intros Hb. induction l as [|x r IH]; cbn [for_each]; [apply eo_ret |].
  apply eo_bind; [apply Hb | intros _; exact IH].
Qed.

End ReceiverEffects.

Ltac eo_step :=
  first
    [ apply eo_ret | apply eo_lift | apply eo_tick | apply eo_get_bucket
    | apply eo_raise_if
    | apply eo_emit; first [reflexivity | exact I | solve [auto]]
    | apply eo_bind; [| intros ?]
    | apply eo_try; [| intros ?]
    | apply eo_for_each; intros ?
    | match goal with
      | |- Observed.emits_only _ (if ?b then _ else _) => destruct b
      | |- Observed.emits_only _ (match ?x with _ => _ end) => destruct x
      end ].

Ltac eo := repeat eo_step.

Section ReceiverEmits.
Import Minio EmailReceiver Observed.
Local Open Scope list_scope.

Variable E : env.
Variable P : event -> Prop.
Hypothesis logs : forall l msg, P (Log l msg).

Lemma eo_http_get url : P (HttpGet url) -> emits_only P (http_get E url).
Proof. intros. unfold http_get. eo. Qed.

Lemma eo_datetime_now : emits_only P (datetime_now E).
Proof. unfold datetime_now. eo. Qed.

Lemma eo_put_object name d ctype :
  P (PutObject bucket_name name) -> emits_only P (minio_put_object name d ctype).
Proof. intros. unfold minio_put_object. eo. Qed.

Lemma eo_list_objects :
  P (ListObjects bucket_name) -> emits_only P (minio_list_objects E).
Proof. intros. unfold minio_list_objects. eo. Qed.

Lemma eo_get_object name :
  P (GetObject bucket_name name) -> emits_only P (minio_get_object E name).
Proof. intros. unfold minio_get_object. eo. Qed.

Lemma eo_get_unread_emails :
  (forall u, P (HttpGet u)) -> emits_only P (get_unread_emails E).
Proof.
  intros. unfold get_unread_emails, logger_error.
  apply eo_try; [apply eo_bind; [now apply eo_http_get | intros ?] | intros ?]; eo.
Qed.

Lemma eo_get_email_content email_id :
  (forall u, P (HttpGet u)) -> emits_only P (get_email_content E email_id).
Proof.
  intros. unfold get_email_content, logger_error.
  apply eo_try; [apply eo_bind; [now apply eo_http_get | intros ?] | intros ?]; eo.
Qed.

Lemma eo_download_attachment email_id attachment_id :
  (forall u, P (HttpGet u)) ->
  emits_only P (download_attachment E email_id attachment_id).
Proof.
  intros. unfold download_attachment, logger_error.
  apply eo_try; [apply eo_bind; [now apply eo_http_get | intros ?] | intros ?]; eo.
Qed.

Lemma eo_save_received_email email :
  (forall name, P (PutObject bucket_name name)) ->
  emits_only P (save_received_email E email).
Proof.
  intros. unfold save_received_email, logger_error, logger_info.
  apply eo_try; [| intros ?; eo].
  apply eo_bind; [eo | intros ?].
  apply eo_bind; [apply eo_datetime_now | intros ?].
  apply eo_bind; [now apply eo_put_object | intros ?]. eo.
Qed.

Lemma eo_process_attachment email_id attachment :
  (forall u, P (HttpGet u)) ->
  (forall attachment_id filename,
     P (PutObject bucket_name (attachment_object_name email_id attachment_id filename))) ->
  emits_only P (process_attachment E email_id attachment).
Proof.
  intros. unfold process_attachment, logger_error, logger_info.
  apply eo_try; [| intros ?; eo].
  apply eo_bind; [eo | intros ?].
  apply eo_bind; [now apply eo_download_attachment | intros [c|]]; [| eo].
  destruct (is_empty c); [eo |].
  apply eo_bind; [eo | intros ?]. apply eo_bind; [eo | intros ?].
  apply eo_bind; [eo | intros ?].
  apply eo_bind; [now apply eo_put_object | intros ?]. eo.
Qed.

Lemma eo_process_attachments email_id attachments :
  (forall u, P (HttpGet u)) ->
  (forall attachment_id filename,
     P (PutObject bucket_name (attachment_object_name email_id attachment_id filename))) ->
  emits_only P (process_attachments E email_id attachments).
Proof.
  intros. unfold process_attachments, logger_error.
  apply eo_try; [| intros ?; eo].
  apply eo_bind; [eo | intros ?].
  apply eo_for_each. intros ?. now apply eo_process_attachment.
Qed.

Lemma eo_process_received_email email :
  (forall u, P (HttpGet u)) ->
  (forall name, P (PutObject bucket_name name)) ->
  emits_only P (process_received_email E email).
Proof.
  intros. unfold process_received_email, logger_error, logger_info.
  apply eo_try; [| intros ?; eo].
  apply eo_bind; [eo | intros ?].
  apply eo_bind; [now apply eo_get_email_content | intros [full|]]; [| eo].
  destruct (negb (Py.truthy full)); [eo |].
  do 7 (apply eo_bind; [eo | intros ?]).
  apply eo_bind; [apply eo_datetime_now | intros ?].
  apply eo_bind; [eo | intros ?].
  apply eo_bind; [apply eo_datetime_now | intros ?].
  apply eo_bind; [now apply eo_save_received_email | intros ?].
  apply eo_bind; [| intros ?; eo].
  match goal with |- emits_only _ (if ?b then _ else _) => destruct b end; [| eo].
  now apply eo_process_attachments.
Qed.

Lemma eo_mark_email_as_read email_id :
  (forall u, P (HttpPost u)) -> emits_only P (mark_email_as_read E email_id).
Proof.
  intros. unfold mark_email_as_read, http_post, logger_error, logger_info. eo.
Qed.

Lemma eo_listen_iteration callback email :
  (forall u, P (HttpGet u)) ->
  (forall u, P (HttpPost u)) ->
  (forall name, P (PutObject bucket_name name)) ->
  (forall v, P (Callback v)) ->
  emits_only P (listen_iteration E callback email).
Proof.
  intros. unfold listen_iteration, call_callback, logger_info.
  apply eo_bind; [eo | intros ?]. apply eo_bind; [eo | intros ?].
  apply eo_bind; [now apply eo_process_received_email | intros ?].
  apply eo_bind; [destruct callback; eo | intros ?].
  apply eo_bind; [eo | intros ?]. now apply eo_mark_email_as_read.
Qed.

Lemma eo_read_emails objects :
  (forall name, P (GetObject bucket_name name)) ->
  emits_only P (read_emails E objects).
Proof.
  intros. induction objects as [|o rest IH]; cbn [read_emails]; [eo |].
  apply eo_bind; [| intros ?; apply eo_bind; [exact IH | intros ?; eo]].
  unfold logger_error. apply eo_try; [| intros ?; eo].
  apply eo_bind; [now apply eo_get_object | intros ?]. eo.
Qed.

Lemma eo_get_received_emails limit offset :
  P (ListObjects bucket_name) ->
  (forall name, P (GetObject bucket_name name)) ->
  emits_only P (get_received_emails E limit offset).
Proof.
  intros. unfold get_received_emails, logger_error.
  apply eo_try; [| intros ?; eo].
  apply eo_bind; [now apply eo_list_objects | intros ?]. now apply eo_read_emails.
Qed.

End ReceiverEmits.

Section ReceiverKeeps.
Import Minio EmailReceiver Observed.
Local Open Scope list_scope.

Lemma kb_ret {A} (a : A) : keeps_bucket (mret a).
Proof. intros s. reflexivity. Qed.

Lemma kb_lift {A} (r : result A) : keeps_bucket (lift r).
Proof. intros s. reflexivity. Qed.

Lemma kb_tick : keeps_bucket tick.
Proof. intros s. reflexivity. Qed.

Lemma kb_get_bucket : keeps_bucket get_bucket.
Proof. intros s. reflexivity. Qed.

Lemma kb_emit (ev : event) : keeps_bucket (emit ev).
Proof. intros s. reflexivity. Qed.

Lemma kb_raise_if (o : option exn) : keeps_bucket (raise_if (S := state) o).
Proof. destruct o; [apply kb_lift | apply kb_ret]. Qed.

Lemma kb_bind {A B} (m : M state A) (k : A -> M state B) :
  keeps_bucket m -> (forall a, keeps_bucket (k a)) -> keeps_bucket (m ≫= k).
Proof.
  intros Hm Hk s. unfold mbind, M_bind. specialize (Hm s).
  destruct (m s) as [[a | e] s1]; cbn [snd] in *; [| exact Hm].
  now rewrite (Hk a s1).
Qed.

Lemma kb_try {A} (m : M state A) (h : exn -> M state A) :
  keeps_bucket m -> (forall e, keeps_bucket (h e)) -> keeps_bucket (try_catch m h).
Proof.
  intros Hm Hh s. unfold try_catch. specialize (Hm s).
  destruct (m s) as [[a | e] s1]; cbn [snd] in *; [exact Hm |].
  now rewrite (Hh e s1).
Qed.

Lemma kb_for_each {A} (l : list A) (body : A -> M state unit) :
  (forall a, keeps_bucket (body a)) -> keeps_bucket (for_each l body).
Proof.
  intros Hb. induction l as [|x r IH]; cbn [for_each]; [apply kb_ret |].
  apply kb_bind; [apply Hb | intros _; exact IH].
Qed.

End ReceiverKeeps.

Ltac kb_step :=
  first
    [ apply kb_ret | apply kb_lift | apply kb_tick | apply kb_get_bucket
    | apply kb_emit | apply kb_raise_if
    | apply kb_bind; [| intros ?]
    | apply kb_try; [| intros ?]
    | apply kb_for_each; intros ?
    | match goal with
      | |- Observed.keeps_bucket (if ?b then _ else _) => destruct b
      | |- Observed.keeps_bucket (match ?x with _ => _ end) => destruct x
      end ].

Ltac kb := repeat kb_step.

Section ReadOnly.
Import Minio EmailReceiver Observed Pace.
Local Open Scope list_scope.

Lemma kb_read_emails E objects : keeps_bucket (read_emails E objects).
Proof.
  induction objects as [|o rest IH]; cbn [read_emails]; [kb |].
  apply kb_bind; [| intros ?; apply kb_bind; [exact IH | intros ?; kb]].
  unfold minio_get_object, logger_error. kb.
Qed.

Lemma kb_get_received_emails E limit offset :
  keeps_bucket (get_received_emails E limit offset).
Proof.
  unfold get_received_emails, minio_list_objects, logger_error.
  apply kb_try; [| intros ?; kb].
  apply kb_bind; [kb | intros ?; apply kb_read_emails].
Qed.

(** X7. The read side only reads: [get_received_emails],
    [search_received_emails] and [get_statistics] leave the bucket as they
    found it, and what they do outside is listing objects, getting objects
    and logging; they make no request to MailDev and write nothing. *)
Theorem read_side_only_reads E (limit offset : Z) (query : string) :
  only_reads (get_received_emails E limit offset)
  /\ only_reads (search_received_emails E query)
  /\ only_reads (get_statistics E).
Proof.
  assert (Hlist : only_reads (get_received_emails E 1000 0)
                  /\ only_reads (get_received_emails E limit offset)).
  { split; (split; [apply kb_get_received_emails |]);
      now apply eo_get_received_emails. }
  destruct Hlist as [[K1 E1] Hpage]. split; [exact Hpage |]. split; split.
  - unfold search_received_emails, logger_error.
    apply kb_try; [| intros ?; kb]. apply kb_bind; [exact K1 | intros ?; kb].
  - unfold search_received_emails, logger_error.
    apply eo_try; [| intros ?; eo]. apply eo_bind; [exact E1 | intros ?; eo].
  - unfold get_statistics, minio_list_objects, datetime_now, logger_error. kb.
  - unfold get_statistics, minio_list_objects, datetime_now, logger_error. eo.
Qed.

End ReadOnly.

Section LoopAndAttachments.
Import Minio EmailReceiver Observed Pace.
Local Open Scope list_scope.

Lemma not_sleep_paced (tr : list event) : Forall not_sleep tr -> Forall paced tr.
Proof.
  intros H. eapply Forall_impl; [exact H |]. intros ev Hev seconds ->. discriminate.
Qed.

Lemma pauses_app (a b : list event) : pauses (a ++ b) = pauses a + pauses b.
Proof. unfold pauses. now rewrite List.filter_app, length_app. Qed.

Lemma pauses_none (tr : list event) : Forall not_sleep tr -> pauses tr = 0.
Proof.
  unfold pauses. induction 1 as [|ev tr Hev _ IH]; [reflexivity |].
  cbn [List.filter]. now rewrite Hev.
Qed.

Lemma listen_cycle_shape E callback s :
  fst (listen_cycle E callback s) = Ok tt
  /\ exists tr seconds,
       trace (snd (listen_cycle E callback s)) = trace s ++ tr ++ [Sleep seconds]
       /\ Forall not_sleep tr /\ (seconds = 30%Z \/ seconds = 60%Z).
Proof.
  assert (Hlog : forall l msg, not_sleep (Log l msg)) by reflexivity.
  destruct (eo_get_unread_emails E not_sleep Hlog (fun _ => eq_refl) s) as (tr1 & E1 & F1).
  unfold listen_cycle, try_catch, mbind, M_bind.
  destruct (get_unread_emails E s) as [[unread | e] s1]; cbn [snd] in E1.
  - destruct (eo_for_each not_sleep unread (listen_iteration E callback)
                (fun email => eo_listen_iteration E not_sleep Hlog callback email
                                (fun _ => eq_refl) (fun _ => eq_refl) (fun _ => eq_refl)
                                (fun _ => eq_refl)) s1) as (tr2 & E2 & F2).
    destruct (for_each unread (listen_iteration E callback) s1) as [[[] | e] s2];
      cbn [snd] in E2; unfold logger_error, asyncio_sleep, emit; cbn.
    + split; [reflexivity |]. exists (tr1 ++ tr2), 30%Z. rewrite E2, E1, <- !app_assoc.
      split; [reflexivity |]. split; [now apply Forall_app | now left].
    + split; [reflexivity |].
      eexists (tr1 ++ tr2 ++ [Log ERROR _]), 60%Z. rewrite E2, E1, <- !app_assoc.
      split; [reflexivity |]. split; [| now right].
      apply Forall_app. split; [exact F1 |]. apply Forall_app. split; [exact F2 |].
      now constructor.
  - unfold logger_error, asyncio_sleep, emit; cbn. split; [reflexivity |].
    eexists (tr1 ++ [Log ERROR _]), 60%Z. rewrite E1, <- !app_assoc.
    split; [reflexivity |]. split; [| now right].
    apply Forall_app. split; [exact F1 | now constructor].
Qed.

Lemma listen_loop_shape E callback (cycles : nat) s :
  fst (listen_loop E cycles callback s) = Ok tt
  /\ exists tr,
       trace (snd (listen_loop E cycles callback s)) = trace s ++ tr
       /\ pauses tr = cycles /\ Forall paced tr.
Proof.
  revert s. induction cycles as [|n IH]; intros s; cbn [listen_loop].
  - split; [reflexivity |]. exists []. cbn. rewrite app_nil_r. now repeat split.
  - unfold mbind, M_bind.
    destruct (listen_cycle_shape E callback s) as (Hok & tr1 & d & E1 & F1 & Hd).
    destruct (listen_cycle E callback s) as [[[] | e] s1]; cbn [fst snd] in *;
      [| discriminate].
    destruct (IH s1) as (Hok2 & tr2 & E2 & Hp & F2). split; [exact Hok2 |].
    exists ((tr1 ++ [Sleep d]) ++ tr2). rewrite E2, E1, <- !app_assoc.
    split; [reflexivity |]. split.
    + rewrite !pauses_app, (pauses_none tr1 F1), Hp. reflexivity.
    + apply Forall_app. split; [now apply not_sleep_paced |].
      constructor; [| exact F2]. intros seconds [= <-]. exact Hd.
Qed.

(** X8. The listening loop never ends by an exception and pauses exactly
    once per turn, for 30 or for 60 seconds: whatever MailDev, the store and
    the callback do, [cycles] turns of [listen_for_emails] return and leave
    [cycles] pauses in the trace. *)
Theorem loop_pauses_once_per_turn E callback (cycles : nat) s :
  fst (listen_for_emails E cycles callback s) = Ok tt
  /\ exists tr,
       trace (snd (listen_for_emails E cycles callback s)) = trace s ++ tr
       /\ pauses tr = cycles /\ Forall paced tr.
Proof.
  unfold listen_for_emails, logger_info, emit, mbind, M_bind.
  match goal with
  | |- context [listen_loop E cycles callback ?s0] =>
      destruct (listen_loop_shape E callback cycles s0) as (Hok & tr & E1 & Hp & F1)
  end.
  split; [exact Hok |]. cbn [trace] in E1.
  eexists (Log INFO _ :: tr). rewrite E1, <- app_assoc. split; [reflexivity |].
  split; [exact Hp |]. constructor; [| exact F1]. intros seconds. discriminate.
Qed.

Lemma under_message_id (email_id attachment_id filename : json) :
  PyStr.startswith (Py.str email_id +:+ "_")
    (attachment_object_name email_id attachment_id filename) = true.
Proof.
  apply startswith_spec. exists (Py.str attachment_id +:+ "_" +:+ Py.str filename).
  unfold attachment_object_name. now rewrite append_assoc.
Qed.

Lemma process_attachments_returns E email_id attachments s :
  fst (process_attachments E email_id attachments s) = Ok tt.
Proof.
  unfold process_attachments, try_catch.
  match goal with |- context [(?m ≫= ?k) s] => destruct ((m ≫= k) s) as [[[] | e] s1] end;
    reflexivity.
Qed.

(** X9. [process_attachments] never raises, and every write it attempts is
    addressed to a name that starts with the id of the message followed by
    an underscore. *)
Theorem attachments_written_under_message_id E (email_id attachments : json) s :
  fst (process_attachments E email_id attachments s) = Ok tt
  /\ exists tr,
       trace (snd (process_attachments E email_id attachments s)) = trace s ++ tr
       /\ Forall (written_under (Py.str email_id +:+ "_")) tr.
Proof.
  split; [apply process_attachments_returns |].
  apply (eo_process_attachments E (written_under (Py.str email_id +:+ "_"))).
  - intros l msg. exact I.
  - intros u. exact I.
  - intros attachment_id filename. apply under_message_id.
Qed.

Lemma for_each_app {A} (l1 l2 : list A) (body : A -> M state unit) s :
  for_each (l1 ++ l2) body s
  = match for_each l1 body s with
    | (Ok _, s1) => for_each l2 body s1
    | (Raise e, s1) => (Raise e, s1)
    end.
Proof.
  revert s. induction l1 as [|x r IH]; intros s; cbn [for_each app]; [reflexivity |].
  unfold mbind, M_bind. destruct (body x s) as [[[] | e] s1]; [apply IH | reflexivity].
Qed.

Lemma process_attachment_dict E email_id attachment s :
  is_dict attachment -> fst (process_attachment E email_id attachment s) = Ok tt.
Proof.
  intros [items ->]. unfold process_attachment, try_catch.
  match goal with |- context [(?m ≫= ?k) s] => destruct ((m ≫= k) s) as [[[] | e] s1] end;
    reflexivity.
Qed.

Lemma process_attachment_other E email_id attachment s :
  ~ is_dict attachment ->
  exists e, process_attachment E email_id attachment s = (Raise e, s).
Proof.
  intros Hnot. unfold process_attachment, try_catch.
  destruct attachment; try (cbn; eauto). destruct Hnot. now eexists.
Qed.

Lemma for_each_dicts E email_id (attachments : list json) s :
  Forall is_dict attachments ->
  fst (for_each attachments (process_attachment E email_id) s) = Ok tt.
Proof.
  intros Hall. revert s. induction Hall as [|a r Ha _ IH]; intros s; cbn [for_each];
    [reflexivity |].
  unfold mbind, M_bind. pose proof (process_attachment_dict E email_id a s Ha) as Hok.
  destruct (process_attachment E email_id a s) as [[[] | e] s1]; cbn [fst] in Hok;
    [apply IH | discriminate].
Qed.

(** X10. An entry of the attachment list that is not a dict ends the loop
    over the attachments: the entries before it are processed, the entries
    after it are not, and one more error line is logged. *)
Theorem non_dict_attachment_ends_loop E (email_id : json) (pre post : list json)
    (bad : json) s :
  Forall is_dict pre ->
  ~ is_dict bad ->
  let done := snd (process_attachments E email_id (JList pre) s) in
  let run := snd (process_attachments E email_id (JList (pre ++ bad :: post)) s) in
  bucket run = bucket done
  /\ calls run = calls done
  /\ exists msg, trace run = trace done ++ [Log ERROR msg].
Proof.
  intros Hpre Hbad.
  pose proof (for_each_dicts E email_id pre s Hpre) as Hok.
  destruct (for_each pre (process_attachment E email_id) s) as [[[] | e] s1] eqn:Hrun;
    cbn [fst] in Hok; [| discriminate].
  assert (Hdone : process_attachments E email_id (JList pre) s = (Ok tt, s1)).
  { unfold process_attachments, try_catch, mbind, M_bind, lift. cbn [PyIter.iter].
    now rewrite Hrun. }
  destruct (process_attachment_other E email_id bad s1 Hbad) as [e Hb].
  assert (Hall : exists msg,
             process_attachments E email_id (JList (pre ++ bad :: post)) s
             = (Ok tt, State (bucket s1) (trace s1 ++ [Log ERROR msg]) (calls s1))).
  { unfold process_attachments, try_catch, mbind, M_bind, lift. cbn [PyIter.iter].
    rewrite for_each_app, Hrun. cbn [for_each]. unfold mbind, M_bind. rewrite Hb.
    unfold logger_error, emit. eexists. reflexivity. }
  destruct Hall as [msg Hall]. cbv zeta. rewrite Hdone, Hall. cbn [snd bucket calls trace].
  eauto.
Qed.

Lemma non_dict_attachment_ends_loop_witness :
  let pre := [JDict [("id", JStr "a1"); ("filename", JStr "logo.png")]] in
  let post := [JDict [("id", JStr "a2"); ("filename", JStr "notes.txt")]] in
  let done := snd (process_attachments Scenario.quiet (JStr "m1") (JList pre)
                     (Scenario.receiver_state [])) in
  let run := snd (process_attachments Scenario.quiet (JStr "m1")
                    (JList (pre ++ JStr "a3" :: post)) (Scenario.receiver_state [])) in
  bucket run = bucket done
  /\ calls run = calls done
  /\ exists msg, trace run = trace done ++ [Log ERROR msg].
Proof.
  apply (non_dict_attachment_ends_loop Scenario.quiet (JStr "m1")
           [JDict [("id", JStr "a1"); ("filename", JStr "logo.png")]]
           [JDict [("id", JStr "a2"); ("filename", JStr "notes.txt")]]
           (JStr "a3") (Scenario.receiver_state [])).
  - constructor; [now eexists | constructor].
  - intros [items Hitems]. discriminate.
Defined.

End LoopAndAttachments.

Section Ingestion.
Import Minio EmailReceiver Observed.
Local Open Scope list_scope.

Lemma unread_of_dicts (items : list json) :
  Forall is_dict items -> unread_of items = Ok (List.filter is_unread items).
Proof.
  induction 1 as [|m r [fields ->] _ IH]; [reflexivity |].
  cbn [unread_of List.filter]. rewrite IH. unfold is_unread. cbn [Py.get mbind result_bind].
  now destruct (Py.truthy _).
Qed.

Lemma unread_of_other (items : list json) (bad : json) :
  In bad items -> ~ is_dict bad -> exists e, unread_of items = Raise e.
Proof.
  intros Hin Hbad. induction items as [|m r IH]; [destruct Hin |].
  cbn [unread_of]. destruct (Py.get m "read" (JBool false)) as [v|e] eqn:Hget;
    cbn [mbind result_bind]; [| eauto].
  destruct Hin as [-> | Hin].
  - destruct bad; try discriminate. destruct Hbad. now eexists.
  - destruct (IH Hin) as [e ->]. cbn. eauto.
Qed.

(** X11. [get_unread_emails] never raises.  When MailDev answers 200 with a
    list of dicts it returns, in order, the entries whose 'read' is absent or
    falsy.  When MailDev cannot be reached, answers another status, or lists
    an entry that is not a dict, it returns the empty list: nothing is
    processed in that turn. *)
Theorem unread_listing E s :
  (exists unread, fst (get_unread_emails E s) = Ok unread)
  /\ (forall items,
        session_get E (calls s) mails_url = Ok (Response 200 (Json (JList items))) ->
        Forall is_dict items ->
        fst (get_unread_emails E s) = Ok (List.filter is_unread items))
  /\ (forall items bad,
        session_get E (calls s) mails_url = Ok (Response 200 (Json (JList items))) ->
        In bad items -> ~ is_dict bad ->
        fst (get_unread_emails E s) = Ok [])
  /\ (forall code answer,
        session_get E (calls s) mails_url = Ok (Response code answer) ->
        code <> 200%Z ->
        fst (get_unread_emails E s) = Ok [])
  /\ (forall e,
        session_get E (calls s) mails_url = Raise e ->
        fst (get_unread_emails E s) = Ok []).
Proof.
  unfold get_unread_emails, try_catch, http_get, response_json. run_R.
  destruct (session_get E (calls s) mails_url) as [[code answer] | e0] eqn:Hget;
    cbn [status body].
  - destruct (Z.eqb_spec code 200) as [-> | Hcode].
    + destruct answer as [v | b]; cbn [json_loads].
      * destruct (PyIter.iter v) as [items | e1] eqn:Hiter.
        -- destruct (unread_of items) as [unread | e2] eqn:Hun; cbn.
           ++ split; [eauto |]. split.
              { intros items' [= ->] Hall. cbn in Hiter. injection Hiter as <-.
                rewrite unread_of_dicts in Hun by assumption. congruence. }
              split.
              { intros items' bad [= ->] Hin Hbad. cbn in Hiter. injection Hiter as <-.
                destruct (unread_of_other items' bad Hin Hbad) as [e Hr]. congruence. }
              split; [intros ? ? [= ? ?]; congruence | intros ?; discriminate].
           ++ split; [eauto |]. split.
              { intros items' [= ->] Hall. cbn in Hiter. injection Hiter as <-.
                rewrite unread_of_dicts in Hun by assumption. discriminate. }
              split; [reflexivity |].
              split; [reflexivity | reflexivity].
        -- cbn. split; [eauto |]. split.
           { intros items' [= ->]. discriminate. }
           repeat split; reflexivity.
      * cbn. split; [eauto |]. split; [intros ? [=] |]. repeat split; reflexivity.
    + cbn. split; [eauto |]. split; [intros ? [= ? ?]; congruence |].
      repeat split; reflexivity.
  - cbn. split; [eauto |]. split; [intros ?; discriminate |]. repeat split; reflexivity.
Qed.

Lemma unread_listing_witness :
  fst (get_unread_emails Scenario.first_content_fails (Scenario.receiver_state []))
  = Ok (List.filter is_unread Scenario.unread_m1_m2).
Proof.
  apply (unread_listing Scenario.first_content_fails (Scenario.receiver_state [])).
  - reflexivity.
  - repeat constructor; now eexists.
Defined.

End Ingestion.

Section Processing.
Import Minio EmailReceiver Observed.
Local Open Scope list_scope.

Lemma save_received_email_returns E email s :
  fst (save_received_email E email s) = Ok tt.
Proof.
  unfold save_received_email, try_catch.
  match goal with |- context [(?m ≫= ?k) s] => destruct ((m ≫= k) s) as [[[] | e] s1] end;
    reflexivity.
Qed.

(** What [get_email_content] makes of the answer of MailDev. *)
Lemma get_email_content_run E (email_id : json) s :
  exists tr,
    get_email_content E email_id s
    = (Ok match session_get E (calls s) (mail_url email_id) with
          | Ok (Response code (Json v)) => if (code =? 200)%Z then Some v else None
          | _ => None
          end,
       State (bucket s) (trace s ++ HttpGet (mail_url email_id) :: tr) (S (calls s)))
    /\ Forall off_store tr.
Proof.
  unfold get_email_content, try_catch, http_get, response_json. run_R.
  destruct (session_get E (calls s) (mail_url email_id)) as [[code answer] | e0];
    cbn [status body].
  - destruct (Z.eqb_spec code 200) as [-> | Hcode].
    + destruct answer as [v | b]; cbn [json_loads].
      * exists []. split; [reflexivity | constructor].
      * eexists [_]. cbn. rewrite <- app_assoc. split; [reflexivity | repeat constructor].
    + eexists [_]. cbn. rewrite <- app_assoc.
      split; [now destruct answer | repeat constructor].
  - eexists [_]. cbn. rewrite <- app_assoc. split; [reflexivity | repeat constructor].
Qed.

(** X12. When the content of a message cannot be had (MailDev is not
    reached, answers another status than 200, answers something that is not
    JSON, or answers an empty document), [process_received_email] returns
    the error record, leaves the bucket as it was and makes no request to
    the store. *)
Theorem unavailable_content_stores_nothing E (email email_id : json) s :
  Py.getitem email "id" = Ok email_id ->
  (forall v, session_get E (calls s) (mail_url email_id) = Ok (Response 200 (Json v)) ->
             Py.truthy v = false) ->
  fst (process_received_email E email s)
  = Ok (error_dict "Não foi possível obter conteúdo do email")
  /\ bucket (snd (process_received_email E email s)) = bucket s
  /\ exists tr,
       trace (snd (process_received_email E email s)) = trace s ++ tr
       /\ Forall off_store tr.
Proof.
  intros Hid Hempty. unfold process_received_email, try_catch.
  rewrite Hid. run_R.
  destruct (get_email_content_run E email_id s) as (tr & -> & Htr).
  assert (Hdone : forall out : result json * state,
             out = (Ok (error_dict "Não foi possível obter conteúdo do email"),
                    State (bucket s) (trace s ++ HttpGet (mail_url email_id) :: tr)
                      (S (calls s))) ->
             fst out = Ok (error_dict "Não foi possível obter conteúdo do email")
             /\ bucket (snd out) = bucket s
             /\ exists tr0, trace (snd out) = trace s ++ tr0 /\ Forall off_store tr0).
  { intros out ->. cbn [fst snd bucket trace]. repeat split.
    eexists. split; [reflexivity |]. constructor; [exact I | exact Htr]. }
  apply Hdone.
  destruct (session_get E (calls s) (mail_url email_id)) as [[code [v | b]] | e0];
    try reflexivity.
  destruct (Z.eqb_spec code 200) as [-> | Hcode]; [| reflexivity].
  now rewrite (Hempty v eq_refl).
Qed.

Lemma unavailable_content_stores_nothing_witness :
  let email := JDict [("id", JStr "m1"); ("read", JBool false)] in
  let s := Scenario.receiver_state Scenario.mixed_bucket in
  fst (process_received_email Scenario.first_content_fails email s)
  = Ok (error_dict "Não foi possível obter conteúdo do email")
  /\ bucket (snd (process_received_email Scenario.first_content_fails email s)) = bucket s
  /\ exists tr,
       trace (snd (process_received_email Scenario.first_content_fails email s))
       = trace s ++ tr
       /\ Forall off_store tr.
Proof.
  apply (unavailable_content_stores_nothing Scenario.first_content_fails
           (JDict [("id", JStr "m1"); ("read", JBool false)]) (JStr "m1")
           (Scenario.receiver_state Scenario.mixed_bucket)).
  - reflexivity.
  - intros v. vm_compute. discriminate.
Defined.

(** X13. When MailDev gives the content of a message as a non-empty dict,
    [process_received_email] returns the processed record whatever becomes
    of its write and of its attachments: the id is the one of the listing
    entry (not one found in the content), the other fields come from the
    content with their defaults, the reception time defaults to the clock
    read first and the processing time is the clock read second. *)
Theorem processed_record_returned E (email email_id : json)
    (items : list (string * json)) s :
  Py.getitem email "id" = Ok email_id ->
  session_get E (calls s) (mail_url email_id) = Ok (Response 200 (Json (JDict items))) ->
  items <> [] ->
  let field k dflt := default dflt (Py.assoc k items) in
  let first_read := Clock.isoformat (Clock.now (clock E (S (calls s)))) in
  let second_read := Clock.isoformat (Clock.now (clock E (S (S (calls s))))) in
  fst (process_received_email E email s)
  = Ok (JDict [("id", email_id); ("from", field "from" (JDict []));
               ("to", field "to" (JList [])); ("subject", field "subject" (JStr ""));
               ("text", field "text" (JStr "")); ("html", field "html" (JStr ""));
               ("attachments", field "attachments" (JList []));
               ("received_at", field "time" (JStr first_read));
               ("processed_at", JStr second_read)]).
Proof.
  intros Hid Hget Hitems field first_read second_read.
  unfold process_received_email, try_catch, datetime_now.
  rewrite Hid. run_R.
  destruct (get_email_content_run E email_id s) as (tr & -> & _). rewrite Hget.
  cbn [Z.eqb Pos.eqb]. destruct items as [|kv items']; [congruence |].
  cbn [Py.truthy length Nat.eqb negb Py.get]. run_R.
  match goal with
  | |- context [save_received_email E ?r ?s0] =>
      pose proof (save_received_email_returns E r s0) as Hsave;
      destruct (save_received_email E r s0) as [[[] | e] s1]; [| discriminate]
  end.
  match goal with
  | |- context [if ?b then _ else _] => destruct b
  end.
  - match goal with
    | |- context [process_attachments E ?i ?a ?s0] =>
        pose proof (process_attachments_returns E i a s0) as Hatt;
        destruct (process_attachments E i a s0) as [[[] | e] s2]; [| discriminate]
    end.
    reflexivity.
  - reflexivity.
Qed.

Lemma processed_record_returned_witness :
  fst (process_received_email Scenario.first_content_fails Cases.listed_m2
         (Scenario.receiver_state []))
  = Ok (JDict [("id", JStr "m2"); ("from", JDict [("address", JStr "bob@example.com")]);
               ("to", JList []); ("subject", JStr "Lunch"); ("text", JStr "At noon?");
               ("html", JStr ""); ("attachments", JList []);
               ("received_at", JStr "2026-11-03T13:50:05");
               ("processed_at", JStr "2026-11-03T13:50:10")]).
Proof.
  apply (processed_record_returned Scenario.first_content_fails Cases.listed_m2 (JStr "m2")
           Cases.lunch (Scenario.receiver_state [])).
  - reflexivity.
  - vm_compute. reflexivity.
  - discriminate.
Defined.

End Processing.

Section Isolation.
Import Minio EmailReceiver Observed.
Local Open Scope list_scope.













End Isolation.


(** ** The dispatcher, further *)

Section Assembly.
Import Main Session.
Local Open Scope list_scope.

Lemma add_attachment_carries E (name : string) s (p : mime_part) s1 :
  add_attachment E name s = (Ok p, s1) -> carries name p.
Proof.
  unfold add_attachment, minio_get_object, split1_second, split_ctype.
  unfold mbind, M_bind, mret, M_ret, lift, tick, emit. cbn [fs trace calls].
  destruct (get_object E (calls s) name) as [content | e]; [| discriminate].
  destruct (PyStr.split_at "_" name) as [[u f] |] eqn:Hsplit; [| discriminate].
  destruct (Mimetypes.guess_type (splittype E) (types_map E) f) as [guessed | e];
    [| discriminate].
  destruct (PyStr.split_at "/" _) as [[main sub] |]; [| discriminate].
  destruct (typed_part main sub content) as [part | e]; [| discriminate].
  intros [= <- _]. exists u, f. split; [exact Hsplit | reflexivity].
Qed.

Lemma attach_all_parts E (names : list (option string)) (message message' : mime_message)
    s s1 :
  attach_all E names message s = (Ok message', s1) ->
  headers message' = headers message
  /\ exists added, parts message' = parts message ++ added
                   /\ Forall2 carries (kept names) added.
Proof.
  revert message s. induction names as [|name rest IH]; intros message s; cbn [attach_all kept].
  - intros [= <- _]. split; [reflexivity |]. exists []. rewrite app_nil_r. now split.
  - destruct name as [name |]; [| apply IH].
    destruct (String.eqb name ""); [apply IH |].
    unfold mbind, M_bind.
    destruct (add_attachment E name s) as [[p | e] s0] eqn:Hadd; [| discriminate].
    intros Hrest. apply IH in Hrest as (Hh & added & Hp & Hall).
    split; [exact Hh |]. exists (p :: added). cbn [attach parts] in Hp.
    rewrite Hp, <- app_assoc. split; [reflexivity |].
    constructor; [eapply add_attachment_carries, Hadd | exact Hall].
Qed.

(** X15. The message [send_email_task] assembles has seven headers: the
    Content-Type and the MIME-Version of a multipart message, then From,
    To, Subject, Date and Message-ID in that order, the Message-ID being
    the message id at the sender's domain; then the body as text/plain, then
    one part for each attachment name that is neither [None] nor empty, in
    the order of the names, each with the file name that follows the first
    underscore of its object name. *)
Theorem message_follows_names E (email_request : EmailRequest) (email_id : string)
    (attachment_names : list (option string)) s (message : mime_message) s1 :
  build_message E email_request email_id attachment_names s = (Ok message, s1) ->
  map fst (headers message)
  = ["Content-Type"; "MIME-Version"; "From"; "To"; "Subject"; "Date"; "Message-ID"]
  /\ Py.assoc "Content-Type" (headers message) = Some "multipart/mixed"
  /\ Py.assoc "Message-ID" (headers message)
     = Some ("<" +:+ email_id +:+ "@" +:+ sender_domain (config E) +:+ ">")
  /\ exists added,
       parts message = MIMEText (body email_request) "plain" :: added
       /\ Forall2 carries (kept attachment_names) added.
Proof.
  unfold build_message. unfold mbind, M_bind, tick.
  intros Hrun. apply attach_all_parts in Hrun as (Hh & added & Hp & Hall).
  rewrite Hh. unfold MIMEMultipart in *.
  cbn [attach set_header headers parts app map fst] in *.
  split; [reflexivity |]. split; [reflexivity |]. split; [reflexivity |].
  exists added. now split.
Qed.

Lemma message_follows_names_witness :
  exists message,
    map fst (headers message)
    = ["Content-Type"; "MIME-Version"; "From"; "To"; "Subject"; "Date"; "Message-ID"]
    /\ Py.assoc "Content-Type" (headers message) = Some "multipart/mixed"
    /\ Py.assoc "Message-ID" (headers message)
       = Some "<3f2b8c1e-0d4a-4f6b-9a57-2c1d5e8f7a90@example.org>"
    /\ exists added,
         parts message = MIMEText "A short body." "plain" :: added
         /\ Forall2 carries [Scenario.notes_txt; Scenario.blob_bin] added.
Proof.
  eexists.
  eapply (message_follows_names Scenario.with_attachments (Scenario.request false)
            Scenario.email_id
            [Some Scenario.notes_txt; None; Some ""; Some Scenario.blob_bin]
            Scenario.empty_disk).
  vm_compute. reflexivity.
Defined.

End Assembly.

Section RelayEffects.
Import Main Session.
Local Open Scope list_scope.

Variable P : event -> Prop.

Lemma se_ret {A} (a : A) : emits_only P (mret a).
Proof. intros s. exists []. cbn. now rewrite app_nil_r. Qed.

Lemma se_lift {A} (r : result A) : emits_only P (lift r).
Proof. intros s. exists []. cbn. now rewrite app_nil_r. Qed.

Lemma se_tick : emits_only P tick.
Proof. intros s. exists []. cbn. now rewrite app_nil_r. Qed.

Lemma se_store_file path content : emits_only P (store_file path content).
Proof. intros s. exists []. cbn. now rewrite app_nil_r. Qed.

Lemma se_raise_if (o : option exn) : emits_only P (raise_if o).
Proof. destruct o; [apply se_lift | apply se_ret]. Qed.

Lemma se_emit (ev : event) : P ev -> emits_only P (emit ev).
Proof. intros Hev s. exists [ev]. cbn. split; [reflexivity | now constructor]. Qed.

Lemma se_bind {A B} (m : M state A) (k : A -> M state B) :
  emits_only P m -> (forall a, emits_only P (k a)) -> emits_only P (m ≫= k).
Proof.
  intros Hm Hk s. unfold mbind, M_bind. destruct (Hm s) as (tr1 & E1 & F1).
  destruct (m s) as [[a | e] s1]; cbn [snd] in *.
  - destruct (Hk a s1) as (tr2 & E2 & F2). exists (tr1 ++ tr2).
    rewrite E2, E1, app_assoc. split; [reflexivity | now apply Forall_app].
  - now exists tr1.
Qed.

End RelayEffects.

Ltac se_step :=
  first
    [ apply se_ret | apply se_lift | apply se_tick | apply se_store_file
    | apply se_raise_if
    | apply se_emit; first [reflexivity | exact I | solve [auto]]
    | apply se_bind; [| intros ?]
    | match goal with
      | |- Session.emits_only _ (if ?b then _ else _) => destruct b
      | |- Session.emits_only _ (match ?x with _ => _ end) => destruct x
      | |- Session.emits_only _ (let '(_, _) := ?x in _) => destruct x
      end ].

Ltac se := repeat se_step.

Section Relay.
Import Main Session.
Local Open Scope list_scope.

Lemma se_add_attachment E name : emits_only off_relay (add_attachment E name).
Proof. unfold add_attachment, minio_get_object. se. Qed.

Lemma se_attach_all E names message : emits_only off_relay (attach_all E names message).
Proof.
  revert message. induction names as [|name rest IH]; intros message; cbn [attach_all].
  - apply se_ret.
  - destruct name as [name |]; [| apply IH].
    destruct (String.eqb name ""); [apply IH |].
    apply se_bind; [apply se_add_attachment | intros p; apply IH].
Qed.

Lemma se_build_message E email_request email_id names :
  emits_only off_relay (build_message E email_request email_id names).
Proof.
  unfold build_message. apply se_bind; [apply se_tick | intros n; apply se_attach_all].
Qed.

(** What [save_email_result] does when the disk takes the writes. *)
Lemma save_email_result_writes E s email_id status detail client_ip request_headers len :
  disk_ok E ->
  PyStr.startswith "/" email_id = false ->
  let date := Clock.strftime_date (Clock.now (clock E (calls s))) in
  let dir := if String.eqb status "success" then "success" else "failure" in
  exists r,
    save_email_result E email_id status detail client_ip request_headers len s
    = (Ok tt,
       State (<[result_key date dir email_id := ResultFile r]> (fs s))
         (trace s ++ [Makedirs (path_join (path_join "data" date) dir);
                      OpenWrite (result_key date dir email_id)])
         (4 + calls s))
    /\ Py.get r "status" JNull = Ok (JStr status)
    /\ Py.get r "detail" JNull = Ok (JStr detail)
    /\ Py.get r "message_length" JNull = Ok (JInt len).
Proof.
  intros Hw Hid date dir.
  unfold save_email_result, datetime_now, makedirs, write_file, tick, emit, raise_if,
    store_file.
  unfold mbind, M_bind, mret, M_ret, lift. cbn [fs trace calls].
  rewrite !Hw. cbn [fs trace calls].
  rewrite result_path by exact Hid.
  eexists. split.
  - rewrite <- app_assoc. reflexivity.
  - repeat split.
Qed.

(** X16. When the message cannot be assembled (an attachment is missing
    from the store, has no underscore in its name, or is a text file that
    is not UTF-8), [send_email_task] makes no exchange with the relay: it
    writes one failure result, whose detail is the one of the exception and
    whose message length is 0, and returns. *)
Theorem assembly_failure_sends_nothing E (email_request : EmailRequest)
    (email_id client_ip : string) (request_headers : json)
    (attachment_names : list (option string)) s (e : exn) s1 :
  disk_ok E ->
  PyStr.startswith "/" email_id = false ->
  build_message E email_request email_id attachment_names s = (Raise e, s1) ->
  exists key r s2 tr,
    send_email_task E email_request email_id client_ip request_headers attachment_names s
    = (Ok tt, s2)
    /\ fs s2 = <[key := ResultFile r]> (fs s)
    /\ Py.get r "status" JNull = Ok (JStr "failure")
    /\ Py.get r "detail" JNull = Ok (JStr (failure_detail e))
    /\ Py.get r "message_length" JNull = Ok (JInt 0)
    /\ trace s2 = trace s ++ tr
    /\ Forall off_relay tr.
Proof.
  intros Hw Hid Hbuild.
  destruct (se_build_message E email_request email_id attachment_names s)
    as (tr0 & Htr0 & Hoff).
  pose proof (kf_build_message E email_request email_id attachment_names s) as Hfs.
  rewrite Hbuild in Htr0, Hfs. cbn [snd] in Htr0, Hfs.
  destruct (save_email_result_writes E s1 email_id "failure" (failure_detail e) client_ip
              request_headers 0 Hw Hid) as (r & Hrun & Hstatus & Hdetail & Hlen).
  eexists _, r, _, _. split.
  - unfold send_email_task, try_catch, send_email_try.
    unfold mbind at 1, M_bind at 1. rewrite Hbuild. exact Hrun.
  - cbn [fs trace]. rewrite Hfs, Htr0, <- app_assoc.
    repeat (split; [first [reflexivity | assumption] |]).
    apply Forall_app. split; [exact Hoff |]. repeat constructor.
Qed.

Lemma assembly_failure_sends_nothing_witness :
  exists key r s2 tr,
    send_email_task (Scenario.all_well Scenario.afternoon) (Scenario.request false)
      Scenario.email_id "127.0.0.1" (JDict []) [Some Scenario.notes_txt]
      Scenario.empty_disk
    = (Ok tt, s2)
    /\ fs s2 = <[key := ResultFile r]> ∅
    /\ Py.get r "status" JNull = Ok (JStr "failure")
    /\ Py.get r "detail" JNull = Ok (JStr "An unexpected error occurred: NoSuchKey")
    /\ Py.get r "message_length" JNull = Ok (JInt 0)
    /\ trace s2 = [] ++ tr
    /\ Forall off_relay tr.
Proof.
  eapply (assembly_failure_sends_nothing (Scenario.all_well Scenario.afternoon)
            (Scenario.request false) Scenario.email_id "127.0.0.1" (JDict [])
            [Some Scenario.notes_txt] Scenario.empty_disk
            (Exn S3Error "NoSuchKey")).
  - intros n p. reflexivity.
  - reflexivity.
  - vm_compute. reflexivity.
Defined.

End Relay.

Ltac relay_cases E :=
  repeat (cbn [Main.fs Main.trace Main.calls fst snd];
          match goal with
          | |- context [Main.smtp_raises E ?n ?step] =>
              destruct (Main.smtp_raises E n step) eqn:?
          | |- context [isinstance ?e SMTPServerDisconnected] =>
              destruct (isinstance e SMTPServerDisconnected) eqn:?
          end).

Section Sessions.
Import Main Session.
Local Open Scope list_scope.

(** X17. The exchange with the relay has one shape: the connection first;
    if nothing follows it, the task has raised; otherwise the commands the
    configuration asks for in the order STARTTLS, LOGIN, MAIL, all of them
    or only the first few, and then QUIT.  So the password is never sent
    before STARTTLS when the configuration asks for both, nothing follows
    QUIT, and a session that returns has sent every command. *)
Theorem smtp_session_shape E (email_request : EmailRequest) (message : mime_message) s :
  let run := deliver E email_request message s in
  exists steps,
    trace (snd run)
    = trace s ++ SmtpConnect (use_ssl (config E)) (smtp_server (config E))
                   (smtp_port (config E)) :: steps
    /\ (steps = [] \/ exists k, steps = take k (planned E email_request message) ++ [SmtpQuit])
    /\ (steps = [] -> exists e, fst run = Raise e)
    /\ (fst run = Ok tt -> steps = planned E email_request message ++ [SmtpQuit]).
Proof.
  unfold deliver, with_server, leaving, server_exit, login_and_send, smtp_do, try_catch,
    planned, raise_if.
  unfold mbind, M_bind, mret, M_ret, lift, tick, emit.
  destruct (use_ssl (config E)), (use_tls (config E)), (use_password (config E));
    relay_cases E;
    (eexists; split; [rewrite <- ?app_assoc; cbn [app]; reflexivity |];
     split;
     [ first [ left; reflexivity
             | right; exists 0; reflexivity | right; exists 1; reflexivity
             | right; exists 2; reflexivity | right; exists 3; reflexivity ]
     | split; [ intros Hs; first [discriminate Hs | eexists; reflexivity]
              | intros Hr; first [discriminate Hr | reflexivity] ] ]).
Qed.

Lemma smtp_session_trace E (email_request : EmailRequest) (message : mime_message) s :
  exists tr, trace (snd (deliver E email_request message s)) = trace s ++ tr.
Proof.
  unfold deliver, with_server, leaving, server_exit, login_and_send, smtp_do, try_catch,
    raise_if.
  unfold mbind, M_bind, mret, M_ret, lift, tick, emit.
  destruct (use_ssl (config E)), (use_tls (config E)), (use_password (config E));
    relay_cases E; (eexists; rewrite <- ?app_assoc; cbn [app]; reflexivity).
Qed.

Lemma deliver_returns_sent E (email_request : EmailRequest) (message : mime_message) s :
  fst (deliver E email_request message s) = Ok tt ->
  exists tr,
    trace (snd (deliver E email_request message s)) = trace s ++ tr
    /\ existsb is_sendmail tr = true.
Proof.
  unfold deliver, with_server, leaving, server_exit, login_and_send, smtp_do, try_catch,
    raise_if.
  unfold mbind, M_bind, mret, M_ret, lift, tick, emit.
  destruct (use_ssl (config E)), (use_tls (config E)), (use_password (config E));
    relay_cases E; intros Hr; try discriminate Hr;
    (eexists; split; [rewrite <- ?app_assoc; cbn [app]; reflexivity | reflexivity]).
Qed.

Lemma deliver_quit_refused E (email_request : EmailRequest) (message : mime_message) s
    (e : exn) :
  (forall n step, step <> Quit -> smtp_raises E n step = None) ->
  (forall n, smtp_raises E n Quit = Some e) ->
  isinstance e SMTPServerDisconnected = false ->
  exists tr,
    fst (deliver E email_request message s) = Raise e
    /\ trace (snd (deliver E email_request message s)) = trace s ++ tr
    /\ existsb is_sendmail tr = true.
Proof.
  intros Hothers Hquit Hkind.
  unfold deliver, with_server, leaving, server_exit, login_and_send, smtp_do, try_catch,
    raise_if.
  unfold mbind, M_bind, mret, M_ret, lift, tick, emit.
  destruct (use_ssl (config E)), (use_tls (config E)), (use_password (config E));
    cbn [fs trace calls fst snd];
    repeat (first [ rewrite (Hothers _ Connect) by discriminate
                  | rewrite (Hothers _ Starttls) by discriminate
                  | rewrite (Hothers _ Login) by discriminate
                  | rewrite (Hothers _ Sendmail) by discriminate
                  | rewrite Hquit | rewrite Hkind ];
            cbn [fs trace calls fst snd]);
    (eexists; split; [reflexivity |];
     split; [rewrite <- ?app_assoc; cbn [app]; reflexivity | reflexivity]).
Qed.

(** X18. With a disk that takes every write, a text file is on the disk
    after [send_email_task] only if it was there before or is the copy the
    request asked for with its debug flag: in which case the run has
    handed the message to the relay, and the file holds the text of the
    message that was assembled. *)
Theorem debug_copy_only_after_sending E (email_request : EmailRequest)
    (email_id client_ip : string) (request_headers : json)
    (attachment_names : list (option string)) s :
  disk_ok E ->
  PyStr.startswith "/" email_id = false ->
  let run := send_email_task E email_request email_id client_ip request_headers
               attachment_names s in
  fst run = Ok tt
  /\ exists tr,
       trace (snd run) = trace s ++ tr
       /\ forall path text,
            fs (snd run) !! path = Some (TextFile text) ->
            fs s !! path = Some (TextFile text)
            \/ (debug email_request = true
                /\ existsb is_sendmail tr = true
                /\ exists message,
                     fst (build_message E email_request email_id attachment_names s)
                     = Ok message
                     /\ text = as_string E message).
Proof.
  intros Hw Hid run.
  assert (Hfail : forall e s1 tr1,
            fs s1 = fs s -> trace s1 = trace s ++ tr1 ->
            let out := save_email_result E email_id "failure" (failure_detail e) client_ip
                         request_headers 0 s1 in
            fst out = Ok tt
            /\ exists tr, trace (snd out) = trace s ++ tr
                 /\ forall path text,
                      fs (snd out) !! path = Some (TextFile text) ->
                      fs s !! path = Some (TextFile text)).
  { intros e s1 tr1 Hfs Htr.
    destruct (save_email_result_writes E s1 email_id "failure" (failure_detail e) client_ip
                request_headers 0 Hw Hid) as (r & -> & _).
    cbn [fst snd fs trace]. split; [reflexivity |]. rewrite Htr, Hfs, <- app_assoc.
    eexists. split; [reflexivity |]. intros path text.
    rewrite lookup_insert_Some. intros [[_ [=]] | [_ H]]. exact H. }
  assert (Hrun : run = send_email_task E email_request email_id client_ip request_headers
                         attachment_names s) by reflexivity.
  clearbody run.
  unfold send_email_task, try_catch, send_email_try in Hrun.
  unfold mbind at 1, M_bind at 1 in Hrun.
  pose proof (kf_build_message E email_request email_id attachment_names s) as Hb.
  destruct (se_build_message E email_request email_id attachment_names s)
    as (tr0 & Htr0 & _).
  destruct (build_message E email_request email_id attachment_names s)
    as [[message | e] s1]; cbn [snd] in Hb, Htr0.
  2: { subst run. destruct (Hfail e s1 tr0 Hb Htr0) as (Hok & tr & Htr & Hold).
       split; [exact Hok |]. exists tr. split; [exact Htr |]. intros; left; eauto. }
  unfold mbind at 1, M_bind at 1 in Hrun.
  pose proof (kf_deliver E email_request message s1) as Hd.
  pose proof (deliver_returns_sent E email_request message s1) as Hsent.
  destruct (smtp_session_trace E email_request message s1) as (tr1 & Htr1).
  destruct (deliver E email_request message s1) as [[[] | e] s2]; cbn [fst snd] in *.
  2: { subst run.
       destruct (Hfail e s2 (tr0 ++ tr1)) as (Hok & tr & Htr & Hold);
         [congruence | now rewrite Htr1, Htr0, app_assoc |].
       split; [exact Hok |]. exists tr. split; [exact Htr |]. intros; left; eauto. }
  destruct (Hsent eq_refl) as (tr1' & Htr1' & Hmail).
  assert (tr1' = tr1) as -> by (rewrite Htr1 in Htr1'; now apply app_inv_head in Htr1').
  unfold mbind at 1, M_bind at 1 in Hrun.
  destruct (save_email_result_writes E s2 email_id "success" "Email sent successfully"
              client_ip request_headers (Z.of_nat (String.length (as_string E message)))
              Hw Hid) as (r & Hsave & _).
  rewrite Hsave in Hrun. cbn [String.eqb Ascii.eqb Bool.eqb] in Hrun.
  destruct (debug email_request).
  - match type of Hrun with
    | context [save_debug_email E email_id message ?s3] =>
        destruct (save_debug_email_run E s3 email_id message Hw Hid)
          as (d & tr' & n & Hdebug)
    end.
    rewrite Hdebug in Hrun. subst run. cbn [fst snd fs trace].
    split; [reflexivity |]. rewrite Htr1, Htr0, Hd, Hb, <- !app_assoc.
    eexists. split; [reflexivity |]. intros path text.
    rewrite lookup_insert_Some. intros [[_ [= <-]] | [_ H]].
    + right. split; [reflexivity |]. split; [| now exists message].
      rewrite !existsb_app, Hmail. now rewrite orb_true_r.
    + left. revert H. rewrite lookup_insert_Some. now intros [[_ [=]] | [_ H]].
  - unfold mret, M_ret in Hrun. subst run. cbn [fst snd fs trace].
    split; [reflexivity |]. rewrite Htr1, Htr0, Hd, Hb, <- !app_assoc.
    eexists. split; [reflexivity |]. intros path text.
    rewrite lookup_insert_Some. intros [[_ [=]] | [_ H]]. now left.
Qed.

Lemma debug_copy_only_after_sending_witness :
  let run := send_email_task (Scenario.all_well Scenario.afternoon) (Scenario.request true)
               Scenario.email_id "127.0.0.1" (JDict []) [] Scenario.empty_disk in
  fst run = Ok tt
  /\ exists tr,
       trace (snd run) = trace Scenario.empty_disk ++ tr
       /\ forall path text,
            fs (snd run) !! path = Some (TextFile text) ->
            fs Scenario.empty_disk !! path = Some (TextFile text)
            \/ (debug (Scenario.request true) = true
                /\ existsb is_sendmail tr = true
                /\ exists message,
                     fst (build_message (Scenario.all_well Scenario.afternoon)
                            (Scenario.request true) Scenario.email_id []
                            Scenario.empty_disk) = Ok message
                     /\ text = as_string (Scenario.all_well Scenario.afternoon) message).
Proof.
  apply (debug_copy_only_after_sending (Scenario.all_well Scenario.afternoon)
           (Scenario.request true) Scenario.email_id "127.0.0.1" (JDict []) []
           Scenario.empty_disk).
  - intros n p. reflexivity.
  - reflexivity.
Defined.

(** X19. When the relay takes the message and then refuses QUIT (with
    anything but a dropped connection), [send_email_task] records a failure
    with the detail of that refusal, although the message was handed over:
    the exception raised on leaving the [with] block reaches the handlers. *)
Theorem refused_quit_records_failure E (email_request : EmailRequest)
    (email_id client_ip : string) (request_headers : json)
    (attachment_names : list (option string)) s (message : mime_message) s1 (e : exn) :
  disk_ok E ->
  PyStr.startswith "/" email_id = false ->
  build_message E email_request email_id attachment_names s = (Ok message, s1) ->
  (forall n step, step <> Quit -> smtp_raises E n step = None) ->
  (forall n, smtp_raises E n Quit = Some e) ->
  isinstance e SMTPServerDisconnected = false ->
  exists key r s2 tr,
    send_email_task E email_request email_id client_ip request_headers attachment_names s
    = (Ok tt, s2)
    /\ fs s2 = <[key := ResultFile r]> (fs s)
    /\ Py.get r "status" JNull = Ok (JStr "failure")
    /\ Py.get r "detail" JNull = Ok (JStr (failure_detail e))
    /\ trace s2 = trace s ++ tr
    /\ existsb is_sendmail tr = true.
Proof.
  intros Hw Hid Hbuild Hothers Hquit Hkind.
  destruct (se_build_message E email_request email_id attachment_names s)
    as (tr0 & Htr0 & _).
  pose proof (kf_build_message E email_request email_id attachment_names s) as Hfs.
  rewrite Hbuild in Htr0, Hfs. cbn [snd] in Htr0, Hfs.
  destruct (deliver_quit_refused E email_request message s1 e Hothers Hquit Hkind)
    as (tr1 & Hraise & Htr1 & Hmail).
  pose proof (kf_deliver E email_request message s1) as Hd.
  destruct (deliver E email_request message s1) as [out s2] eqn:Hdeliver.
  cbn [fst snd] in Hraise, Htr1, Hd. subst out.
  destruct (save_email_result_writes E s2 email_id "failure" (failure_detail e) client_ip
              request_headers 0 Hw Hid) as (r & Hrun & Hstatus & Hdetail & _).
  eexists _, r, _, _. split.
  - unfold send_email_task, try_catch, send_email_try.
    unfold mbind at 1, M_bind at 1. rewrite Hbuild.
    unfold mbind at 1, M_bind at 1. rewrite Hdeliver. exact Hrun.
  - cbn [fs trace]. rewrite Hd, Hfs, Htr1, Htr0, <- !app_assoc.
    repeat (split; [first [reflexivity | assumption] |]).
    rewrite !existsb_app, Hmail. now rewrite orb_true_r.
Qed.

Lemma refused_quit_records_failure_witness :
  exists key r s2 tr,
    send_email_task RelayCases.quit_refused (Scenario.request false) Scenario.email_id
      "127.0.0.1" (JDict []) [] Scenario.empty_disk
    = (Ok tt, s2)
    /\ fs s2 = <[key := ResultFile r]> ∅
    /\ Py.get r "status" JNull = Ok (JStr "failure")
    /\ Py.get r "detail" JNull
       = Ok (JStr "An SMTP error occurred: (421, b'4.3.2 Service shutting down')")
    /\ trace s2 = [] ++ tr
    /\ existsb is_sendmail tr = true.
Proof.
  eapply (refused_quit_records_failure RelayCases.quit_refused (Scenario.request false)
            Scenario.email_id "127.0.0.1" (JDict []) [] Scenario.empty_disk _ _
            (Exn SMTPResponseException "(421, b'4.3.2 Service shutting down')")).
  - intros n p. reflexivity.
  - reflexivity.
  - vm_compute. reflexivity.
  - intros n [] Hstep; first [reflexivity | now destruct Hstep].
  - intros n. reflexivity.
  - reflexivity.
Defined.

End Sessions.

(** ** Staging the attachments *)

Ltac run_U :=
  unfold mbind, M_bind, mret, M_ret, lift, Upload.tick, Upload.emit, Upload.raise_if,
    Upload.get_tmp, Upload.set_tmp, Upload.put_emails;
  cbn [Upload.tmp Upload.emails Upload.trace Upload.calls].

Section Staging.
Import Upload.
Local Open Scope list_scope.

Lemma split_at_named (uuid rest : string) :
  PyStr.str_in "_" uuid = false ->
  PyStr.split_at "_" (uuid +:+ "_" +:+ rest) = Some (uuid, rest).
Proof.
  induction uuid as [|a u IH]; intros Hno; [reflexivity |].
  cbn [PyStr.str_in PyStr.startswith] in Hno.
  apply orb_false_elim in Hno as [Ha Hu]. rewrite andb_true_r in Ha.
  change (String a u +:+ "_" +:+ rest) with (String a (u +:+ "_" +:+ rest)).
  cbn [PyStr.split_at]. rewrite Ascii.eqb_sym, Ha. now rewrite (IH Hu).
Qed.

Lemma named_not_empty (uuid : string) (file : UploadFile) :
  String.eqb (named uuid file) "" = false.
Proof. unfold named. now destruct uuid. Qed.

Lemma upload_to_minio_run U (file : UploadFile) s :
  open_raises U (S (calls s)) ("/tmp/" +:+ named (uuid4 U (calls s)) file) = None ->
  fput_object_raises U (S (S (calls s))) (named (uuid4 U (calls s)) file) = None ->
  remove_raises U (S (S (S (calls s)))) ("/tmp/" +:+ named (uuid4 U (calls s)) file) = None ->
  let name := named (uuid4 U (calls s)) file in
  let path := "/tmp/" +:+ name in
  upload_to_minio U file s
  = (Ok name,
     State (delete path (<[path := content file]> (tmp s)))
       (<[name := content file]> (emails s))
       (trace s ++ [Uuid4 (uuid4 U (calls s)); OpenWrite path;
                    FputObject "emails" name path; Remove path])
       (4 + calls s)).
Proof.
  intros Hopen Hput Hremove name path. subst name path.
  unfold upload_to_minio, new_uuid, write_temp, fput_object, os_remove. run_U.
  fold (named (uuid4 U (calls s)) file).
  rewrite Hopen. run_U. rewrite Hput. run_U. rewrite lookup_insert_eq. run_U.
  rewrite Hremove. run_U. rewrite lookup_insert_eq. run_U.
  rewrite <- !app_assoc. reflexivity.
Qed.

Lemma typed_part_payload (main sub data : string) (p : Main.mime_part) :
  Main.typed_part main sub data = Ok p -> Main.payload p = data.
Proof.
  unfold Main.typed_part, Utf8.decode.
  destruct (String.eqb main "text").
  - destruct (Utf8.first_flaw 0 (Utf8.bytes_of data)); cbn; [discriminate |].
    intros [= <-]. unfold Main.MIMEText. now destruct (Utf8.is_ascii data).
  - destruct (String.eqb main "image"); [now intros [= <-] |].
    destruct (String.eqb main "audio"); now intros [= <-].
Qed.

Lemma add_attachment_payload E (name data : string) m (p : Main.mime_part) m1 :
  Main.get_object E (Main.calls m) name = Ok data ->
  Main.add_attachment E name m = (Ok p, m1) -> Main.payload p = data.
Proof.
  intros Hget.
  unfold Main.add_attachment, Main.minio_get_object, Main.split1_second, Main.split_ctype.
  unfold mbind, M_bind, mret, M_ret, lift, Main.tick, Main.emit.
  cbn [Main.fs Main.trace Main.calls]. rewrite Hget.
  destruct (PyStr.split_at "_" name) as [[u f] |]; [| discriminate].
  destruct (Mimetypes.guess_type (Main.splittype E) (Main.types_map E) f) as [guessed | e];
    [| discriminate].
  destruct (PyStr.split_at "/" _) as [[main sub] |]; [| discriminate].
  destruct (Main.typed_part main sub data) as [part | e] eqn:Hpart; [| discriminate].
  intros [= <- _]. cbn [Main.add_disposition Main.payload].
  eapply typed_part_payload, Hpart.
Qed.

(** X20. What [upload_to_minio] stages is what [add_attachment] reads
    back.  When writing, uploading and removing go through, the upload
    returns the name [<uuid>_<filename>], the bucket holds the bytes of the
    file under that name and the temporary file is gone; and, the
    identifier having no underscore, an attachment made from that object
    carries the file name of the upload, underscores included, and its
    bytes. *)
Theorem staged_file_is_attached_by_name U (file : UploadFile) s :
  unhindered U ->
  PyStr.str_in "_" (uuid4 U (calls s)) = false ->
  let name := named (uuid4 U (calls s)) file in
  let s' := snd (upload_to_minio U file s) in
  fst (upload_to_minio U file s) = Ok name
  /\ emails s' !! name = Some (content file)
  /\ tmp s' !! ("/tmp/" +:+ name) = None
  /\ forall (E : Main.env) m (p : Main.mime_part) m1,
       Main.get_object E = staged_in (emails s') ->
       Main.add_attachment E name m = (Ok p, m1) ->
       Main.attachment_filename p = Some (shown file)
       /\ Main.payload p = content file.
Proof.
  intros (Hopen & Hput & Hremove) Huuid name s'. subst s'.
  rewrite (upload_to_minio_run U file s (Hopen _ _) (Hput _ _) (Hremove _ _)).
  cbn [fst snd emails tmp]. fold name.
  split; [reflexivity |]. split; [apply lookup_insert_eq |].
  split; [apply lookup_delete_eq |].
  intros E m p m1 Hstore Hadd. split.
  - destruct (add_attachment_carries E name m p m1 Hadd) as (u & f & Hsplit & ->).
    unfold name, named in Hsplit. rewrite split_at_named in Hsplit by exact Huuid.
    congruence.
  - eapply add_attachment_payload; [| exact Hadd].
    rewrite Hstore. unfold staged_in. now rewrite lookup_insert_eq.
Qed.

Lemma staged_file_is_attached_by_name_witness :
  let name := "3f2b8c1e-0d4a-4f6b-9a57-2c1d5e8f7a90_meeting_notes.txt" in
  let s' := snd (upload_to_minio UploadCases.smooth UploadCases.notes
                   UploadCases.nothing_staged) in
  fst (upload_to_minio UploadCases.smooth UploadCases.notes UploadCases.nothing_staged)
  = Ok name
  /\ emails s' !! name = Some "Minutes of the meeting."
  /\ tmp s' !! ("/tmp/" +:+ name) = None
  /\ forall (E : Main.env) m (p : Main.mime_part) m1,
       Main.get_object E = staged_in (emails s') ->
       Main.add_attachment E name m = (Ok p, m1) ->
       Main.attachment_filename p = Some "meeting_notes.txt"
       /\ Main.payload p = "Minutes of the meeting.".
Proof.
  apply (staged_file_is_attached_by_name UploadCases.smooth UploadCases.notes
           UploadCases.nothing_staged).
  - repeat split; intros; reflexivity.
  - reflexivity.
Defined.

(** X21. [upload_to_minio] does not clean up after a failed upload: when
    the temporary file was written and the store refuses the object, the
    exception of the store is raised, the bucket is as it was, and the
    temporary file stays under [/tmp] with the bytes of the file. *)
Theorem failed_upload_leaves_temp_file U (file : UploadFile) s (e : exn) :
  let name := named (uuid4 U (calls s)) file in
  let path := "/tmp/" +:+ name in
  open_raises U (S (calls s)) path = None ->
  fput_object_raises U (S (S (calls s))) name = Some e ->
  let s' := snd (upload_to_minio U file s) in
  fst (upload_to_minio U file s) = Raise e
  /\ emails s' = emails s
  /\ tmp s' !! path = Some (content file)
  /\ trace s' = trace s ++ [Uuid4 (uuid4 U (calls s)); OpenWrite path;
                            FputObject "emails" name path].
Proof.
  intros name path Hopen Hput. subst name path.
  unfold upload_to_minio, new_uuid, write_temp, fput_object, os_remove. run_U.
  fold (named (uuid4 U (calls s)) file).
  rewrite Hopen. run_U. rewrite Hput. run_U. cbn [fst snd emails tmp trace].
  split; [reflexivity |]. split; [reflexivity |]. split; [apply lookup_insert_eq |].
  now rewrite <- !app_assoc.
Qed.

Lemma failed_upload_leaves_temp_file_witness :
  let name := "3f2b8c1e-0d4a-4f6b-9a57-2c1d5e8f7a90_meeting_notes.txt" in
  let path := "/tmp/" +:+ name in
  let s' := snd (upload_to_minio UploadCases.store_away UploadCases.notes
                   UploadCases.nothing_staged) in
  fst (upload_to_minio UploadCases.store_away UploadCases.notes
         UploadCases.nothing_staged) = Raise (Exn S3Error "Connection refused")
  /\ emails s' = ∅
  /\ tmp s' !! path = Some "Minutes of the meeting."
  /\ trace s' = [] ++ [Uuid4 "3f2b8c1e-0d4a-4f6b-9a57-2c1d5e8f7a90"; OpenWrite path;
                       FputObject "emails" name path].
Proof.
  apply (failed_upload_leaves_temp_file UploadCases.store_away UploadCases.notes
           UploadCases.nothing_staged (Exn S3Error "Connection refused"));
    reflexivity.
Defined.

Lemma upload_to_minio_ok U (file : UploadFile) s (name : string) s1 :
  upload_to_minio U file s = (Ok name, s1) ->
  name = named (uuid4 U (calls s)) file
  /\ emails s1 = <[name := content file]> (emails s).
Proof.
  unfold upload_to_minio, new_uuid, write_temp, fput_object, os_remove. run_U.
  fold (named (uuid4 U (calls s)) file).
  destruct (open_raises U _ _); run_U; [discriminate |].
  destruct (fput_object_raises U _ _); run_U; [discriminate |].
  rewrite lookup_insert_eq. run_U.
  destruct (remove_raises U _ _); run_U; [discriminate |].
  rewrite lookup_insert_eq. run_U. intros [= <- <-]. now split.
Qed.

Lemma upload_all_names U (files : list UploadFile) (given names : list string) s s1 :
  upload_all U files given s = (Ok names, s1) ->
  exists new,
    names = given ++ new
    /\ Forall2 (fun file name => exists uuid, name = named uuid file) files new
    /\ Forall (fun name => is_Some (emails s1 !! name)) new
    /\ forall name, is_Some (emails s !! name) -> is_Some (emails s1 !! name).
Proof.
  revert given s. induction files as [|file rest IH]; intros given s; cbn [upload_all].
  - intros [= <- <-]. exists []. rewrite app_nil_r. repeat split; auto.
  - unfold mbind, M_bind.
    destruct (upload_to_minio U file s) as [[name | e] s0] eqn:Hup; [| discriminate].
    apply upload_to_minio_ok in Hup as [Hname Hput].
    intros Hrest. apply IH in Hrest as (new & -> & Hnames & Hheld & Hmono).
    assert (Hin : is_Some (emails s0 !! name)) by (rewrite Hput, lookup_insert_eq; eauto).
    exists (name :: new). rewrite <- app_assoc. split; [reflexivity |].
    split; [constructor; [eauto | exact Hnames] |].
    split; [constructor; [now apply Hmono | exact Hheld] |].
    intros k Hk. apply Hmono. rewrite Hput.
    destruct (decide (name = k)) as [-> | Hne];
      [rewrite lookup_insert_eq; eauto | now rewrite lookup_insert_ne].
Qed.

Lemma kept_named (files : list UploadFile) (names : list string) :
  Forall2 (fun file name => exists uuid, name = named uuid file) files names ->
  Session.kept (map Some names) = names.
Proof.
  induction 1 as [|file name files names [uuid ->] _ IH]; [reflexivity |].
  cbn [map Session.kept]. now rewrite named_not_empty, IH.
Qed.

(** X22. When the endpoint [/send-email] returns, the task it has scheduled
    names one object per uploaded file, in the order of the files: each
    name is an identifier, an underscore and the file name, each object is
    in the bucket, and none of the names is one the task would pass over.
    The id it answers is the id it gave the task, drawn before any upload. *)
Theorem endpoint_schedules_every_upload U (client_ip : string) (request_headers : json)
    (recipient_email subject body : string) (debug : bool)
    (attachments : option (list UploadFile)) s (task : scheduled) (response : json) s' :
  send_email U client_ip request_headers recipient_email subject body debug attachments s
  = (Ok (task, response), s') ->
  exists names,
    task_attachment_names task = map Some names
    /\ Forall2 (fun file name => exists uuid, name = named uuid file)
         (default [] attachments) names
    /\ Forall (fun name => is_Some (emails s' !! name)) names
    /\ Session.kept (task_attachment_names task) = names
    /\ task_email_id task = uuid4 U (calls s)
    /\ Py.get response "email_id" JNull = Ok (JStr (task_email_id task)).
Proof.
  unfold send_email, new_uuid. run_U.
  destruct attachments as [[|file rest] |]; cbn [default].
  - intros [= <- <- <-]. exists []. cbn. repeat split; constructor.
  - destruct (upload_all U (file :: rest) [] _) as [[names | e] s1] eqn:Hup;
      [| discriminate].
    apply upload_all_names in Hup as (new & -> & Hnames & Hheld & _).
    intros [= <- <- <-]. exists new. cbn [task_attachment_names task_email_id app].
    split; [reflexivity |]. split; [exact Hnames |]. split; [exact Hheld |].
    split; [eapply kept_named, Hnames |]. now split.
  - intros [= <- <- <-]. exists []. cbn. repeat split; constructor.
Qed.

Lemma endpoint_schedules_every_upload_witness :
  exists task response s' names,
    send_email UploadCases.smooth "127.0.0.1" (JDict []) "ann@example.com" "Hello"
      "A short body." false (Some [UploadCases.notes]) UploadCases.nothing_staged
    = (Ok (task, response), s')
    /\ task_attachment_names task = map Some names
    /\ Forall2 (fun file name => exists uuid, name = named uuid file)
         [UploadCases.notes] names
    /\ Forall (fun name => is_Some (emails s' !! name)) names
    /\ Session.kept (task_attachment_names task) = names
    /\ task_email_id task = "3f2b8c1e-0d4a-4f6b-9a57-2c1d5e8f7a90"
    /\ Py.get response "email_id" JNull = Ok (JStr (task_email_id task)).
Proof.
  pose proof (endpoint_schedules_every_upload UploadCases.smooth "127.0.0.1" (JDict [])
                "ann@example.com" "Hello" "A short body." false
                (Some [UploadCases.notes]) UploadCases.nothing_staged) as H.
  destruct (send_email UploadCases.smooth "127.0.0.1" (JDict []) "ann@example.com" "Hello"
              "A short body." false (Some [UploadCases.notes]) UploadCases.nothing_staged)
    as [[[task response] | e] s'] eqn:Hrun.
  - destruct (H task response s' eq_refl) as (names & Hnames).
    exists task, response, s', names. split; [reflexivity | exact Hnames].
  - vm_compute in Hrun. discriminate.
Defined.

End Staging.

(** ** The estimates of the MCP layer *)

Section Estimates.
Import PyStr MCP.

Lemma any_in_spec (words : list string) (s : string) :
  Forall (fun k => lower_ascii k = k) words ->
  Utf8.is_ascii s = true ->
  any_in words (lower s) = true <-> mentions_any words s.
Proof.
  unfold any_in, mentions_any. intros Hlow Hs. rewrite existsb_exists.
  rewrite Forall_forall in Hlow. split.
  - intros (w & Hin & Hw). exists w. split; [exact Hin |].
    apply str_in_lower; [apply Hlow; now apply list_elem_of_In | exact Hs | exact Hw].
  - intros (w & Hin & Hw). exists w. split; [exact Hin |].
    apply str_in_lower; [apply Hlow; now apply list_elem_of_In | exact Hs | exact Hw].
Qed.

Lemma any_in_not (words : list string) (s : string) :
  Forall (fun k => lower_ascii k = k) words ->
  Utf8.is_ascii s = true ->
  ~ mentions_any words s -> any_in words (lower s) = false.
Proof.
  intros Hlow Hs Hno. destruct (any_in words (lower s)) eqn:Hany; [| reflexivity].
  destruct Hno. now apply any_in_spec.
Qed.

(** X23. The category of a message depends on its subject and on its sender
    as [str] shows it, and on nothing else: it is "purchase" when a
    purchase word occurs in the subject in any letter case; else "support"
    when a support word does; else "notification" when a notification word
    does or when the sender shows one of "noreply", "no-reply",
    "donotreply"; else "marketing" when a marketing word occurs in the
    subject; else "general".  Stated for ASCII text, where [lower] is
    [str.lower]. *)
Theorem category_classification (email_data sender : json) (subject : string) :
  Py.get email_data "subject" (JStr "") = Ok (JStr subject) ->
  Py.get email_data "from" (JDict []) = Ok sender ->
  Utf8.is_ascii subject = true ->
  Utf8.is_ascii (Py.str sender) = true ->
  let purchase := mentions_any purchase_words subject in
  let support := mentions_any support_words subject in
  let notification :=
    mentions_any notification_words subject
    \/ mentions_any automatic_senders (Py.str sender) in
  let marketing := mentions_any marketing_words subject in
  (purchase -> _estimate_category email_data = Ok "purchase")
  /\ (~ purchase -> support -> _estimate_category email_data = Ok "support")
  /\ (~ purchase -> ~ support -> notification ->
        _estimate_category email_data = Ok "notification")
  /\ (~ purchase -> ~ support -> ~ notification -> marketing ->
        _estimate_category email_data = Ok "marketing")
  /\ (~ purchase -> ~ support -> ~ notification -> ~ marketing ->
        _estimate_category email_data = Ok "general").
Proof.
  intros Hs Hf Hsa Hfa purchase support notification marketing.
  assert (Hlow : forall words, In words [purchase_words; support_words; notification_words;
                                         automatic_senders; marketing_words] ->
                               Forall (fun k => lower_ascii k = k) words).
  { intros words Hin. cbn in Hin.
    repeat (destruct Hin as [<- | Hin]; [repeat constructor |]). destruct Hin. }
  unfold _estimate_category. rewrite Hs, Hf. cbn [mbind result_bind Py.lower].
  repeat split.
  - intros H. apply any_in_spec in H; [| apply Hlow; cbn; tauto | exact Hsa]. now rewrite H.
  - intros Hp H.
    rewrite (any_in_not purchase_words) by (first [apply Hlow; cbn; tauto | assumption]).
    apply any_in_spec in H; [| apply Hlow; cbn; tauto | exact Hsa]. now rewrite H.
  - intros Hp Hsu [H | H].
    + rewrite (any_in_not purchase_words), (any_in_not support_words)
        by (first [apply Hlow; cbn; tauto | assumption]).
      apply any_in_spec in H; [| apply Hlow; cbn; tauto | exact Hsa]. now rewrite H.
    + rewrite (any_in_not purchase_words), (any_in_not support_words)
        by (first [apply Hlow; cbn; tauto | assumption]).
      apply any_in_spec in H; [| apply Hlow; cbn; tauto | exact Hfa]. rewrite H.
      now destruct (any_in notification_words (lower subject)).
  - intros Hp Hsu Hn H. unfold notification in Hn.
    rewrite (any_in_not purchase_words), (any_in_not support_words),
      (any_in_not notification_words), (any_in_not automatic_senders)
      by (first [apply Hlow; cbn; tauto | assumption | tauto]).
    apply any_in_spec in H; [| apply Hlow; cbn; tauto | exact Hsa]. now rewrite H.
  - intros Hp Hsu Hn Hm. unfold notification in Hn.
    rewrite (any_in_not purchase_words), (any_in_not support_words),
      (any_in_not notification_words), (any_in_not automatic_senders),
      (any_in_not marketing_words)
      by (first [apply Hlow; cbn; tauto | assumption | tauto]).
    reflexivity.
Qed.

Lemma category_classification_witness :
  _estimate_category
    (JDict [("subject", JStr "Your ORDER has shipped: help inside");
            ("from", JDict [("address", JStr "noreply@shop.example")]);
            ("text", JStr "This is marketing.")])
  = Ok "purchase".
Proof.
  refine (proj1
    (category_classification
       (JDict [("subject", JStr "Your ORDER has shipped: help inside");
               ("from", JDict [("address", JStr "noreply@shop.example")]);
               ("text", JStr "This is marketing.")])
       (JDict [("address", JStr "noreply@shop.example")])
       "Your ORDER has shipped: help inside" eq_refl eq_refl eq_refl eq_refl) _).
  exists "order". split; [cbn; tauto |].
  exists "Your ", "ORDER", " has shipped: help inside". split; [reflexivity | cbn; tauto].
Defined.

(** X24. The urgency of a message is never "normal": it is the priority
    when that is "high" or "medium" and "low" when the priority is
    "normal"; it raises when, and as, the estimate of the priority does. *)
Theorem urgency_follows_priority (email_data : json) :
  match MCPEmailSystem._estimate_priority email_data with
  | Ok priority =>
      exists urgency,
        _estimate_urgency email_data = Ok urgency
        /\ urgency <> "normal"
        /\ (priority = "normal" <-> urgency = "low")
        /\ (priority <> "normal" -> urgency = priority)
  | Raise e => _estimate_urgency email_data = Raise e
  end.
Proof.
  unfold _estimate_urgency, MCPEmailSystem._estimate_priority.
  destruct (Py.get email_data "subject" (JStr "") ≫= Py.lower) as [subject | e];
    cbn [mbind result_bind]; [| reflexivity].
  destruct (Py.get email_data "text" (JStr "") ≫= Py.lower) as [text | e];
    cbn [mbind result_bind]; [| reflexivity].
  destruct (MCPEmailSystem.any_keyword MCPEmailSystem.high_priority_keywords subject text).
  - eexists. cbn. split; [reflexivity |]. repeat split; try discriminate; tauto.
  - destruct (MCPEmailSystem.any_keyword MCPEmailSystem.medium_priority_keywords
                subject text).
    + eexists. cbn. split; [reflexivity |]. repeat split; try discriminate; tauto.
    + eexists. cbn. split; [reflexivity |]. repeat split; try discriminate; tauto.
Qed.

Lemma count_in_swap (words : list string) (a b : string) :
  count_in words a b = count_in words b a.
Proof.
  unfold count_in. f_equal. apply List.filter_ext. intros w. apply orb_comm.
Qed.

Lemma count_in_none (words : list string) (text subject : string) :
  Forall (fun k => lower_ascii k = k) words ->
  Utf8.is_ascii text = true -> Utf8.is_ascii subject = true ->
  ~ mentions_any words text -> ~ mentions_any words subject ->
  count_in words (lower text) (lower subject) = 0.
Proof.
  intros Hlow Hta Hsa Ht Hs. unfold count_in.
  pose proof (any_in_not words text Hlow Hta Ht) as H1.
  pose proof (any_in_not words subject Hlow Hsa Hs) as H2.
  unfold any_in in H1, H2. clear Hlow Ht Hs Hta Hsa.
  induction words as [|w ws IH]; [reflexivity |].
  cbn [existsb] in H1, H2. apply orb_false_elim in H1 as [H1 H1'].
  apply orb_false_elim in H2 as [H2 H2'].
  cbn [List.filter]. rewrite H1, H2. cbn [orb]. now apply IH.
Qed.

Lemma mentions_any_app (a b : list string) (s : string) :
  ~ mentions_any (a ++ b) s -> ~ mentions_any a s /\ ~ mentions_any b s.
Proof.
  intros Hno. split; intros (w & Hin & Hw); apply Hno; exists w;
    (split; [apply in_or_app; tauto | exact Hw]).
Qed.

Lemma error_has_erro (s : string) : str_in "error" s = true -> str_in "erro" s = true.
Proof.
  rewrite !str_in_spec. intros (a & b & ->). exists a, ("r" +:+ b). reflexivity.
Qed.

(** X25. The sentiment of a message counts, for each listed word, whether
    it occurs in the text or in the subject: so the text and the subject
    can be exchanged without changing the estimate; a message in which no
    listed word occurs is "neutral"; and a message that says "error" counts
    two negative words, "erro" and "error", so that it is "negative" unless
    at least two positive words occur.  Stated for ASCII text. *)
Theorem sentiment_counts_words (email_data : json) (text subject : string) :
  Py.get email_data "text" (JStr "") = Ok (JStr text) ->
  Py.get email_data "subject" (JStr "") = Ok (JStr subject) ->
  Utf8.is_ascii text = true ->
  Utf8.is_ascii subject = true ->
  (forall exchanged,
     Py.get exchanged "text" (JStr "") = Ok (JStr subject) ->
     Py.get exchanged "subject" (JStr "") = Ok (JStr text) ->
     _estimate_sentiment exchanged = _estimate_sentiment email_data)
  /\ (~ mentions_any (positive_words ++ negative_words) text ->
      ~ mentions_any (positive_words ++ negative_words) subject ->
      _estimate_sentiment email_data = Ok "neutral")
  /\ (occurs_nocase "error" text \/ occurs_nocase "error" subject ->
      count_in positive_words (lower text) (lower subject) <= 1 ->
      _estimate_sentiment email_data = Ok "negative").
Proof.
  intros Ht Hs Hta Hsa. unfold _estimate_sentiment. rewrite Ht, Hs.
  cbn [mbind result_bind Py.lower]. split; [| split].
  - intros exchanged Ht' Hs'. rewrite Ht', Hs'. cbn [mbind result_bind Py.lower].
    now rewrite (count_in_swap positive_words), (count_in_swap negative_words).
  - intros [Hpt Hnt]%mentions_any_app [Hps Hns]%mentions_any_app.
    rewrite !count_in_none by (try assumption; repeat constructor). reflexivity.
  - intros Herror Hpos.
    assert (Hor : str_in "error" (lower text) || str_in "error" (lower subject) = true).
    { apply orb_true_iff.
      destruct Herror as [H | H]; apply (str_in_lower "error") in H;
        first [tauto | reflexivity | assumption]. }
    assert (Hor' : str_in "erro" (lower text) || str_in "erro" (lower subject) = true).
    { apply orb_true_iff. apply orb_true_iff in Hor.
      destruct Hor as [H | H]; apply error_has_erro in H; tauto. }
    assert (Hneg : 2 <= count_in negative_words (lower text) (lower subject)).
    { unfold count_in, negative_words. cbn [List.filter]. rewrite Hor, Hor'.
      repeat match goal with
             | |- context [if ?b then _ else _] => destruct b
             end; cbn [length]; lia. }
    destruct (Nat.ltb_spec (count_in negative_words (lower text) (lower subject))
                (count_in positive_words (lower text) (lower subject))); [lia |].
    destruct (Nat.ltb_spec (count_in positive_words (lower text) (lower subject))
                (count_in negative_words (lower text) (lower subject))); [reflexivity | lia].
Qed.

Lemma sentiment_counts_words_witness :
  _estimate_sentiment
    (JDict [("subject", JStr "Thanks"); ("text", JStr "There is an Error in the report.")])
  = Ok "negative".
Proof.
  refine (proj2 (proj2
    (sentiment_counts_words
       (JDict [("subject", JStr "Thanks");
               ("text", JStr "There is an Error in the report.")])
       "There is an Error in the report." "Thanks" eq_refl eq_refl eq_refl eq_refl)) _ _).
  - left. exists "There is an ", "Error", " in the report.".
    split; [reflexivity | cbn; tauto].
  - vm_compute. lia.
Defined.

End Estimates.

(** ** The endpoints of the MCP layer *)

Ltac run_G :=
  unfold MCPServer.guarded, MCPServer.raise_http, MCPServer.returns;
  unfold mbind, M_bind, mret, M_ret, lift.

Section Endpoints.
Import Minio EmailReceiver Observed MCPServer.
Local Open Scope list_scope.

Variable L : library.
Variable E : env.

Lemma guarded_status {A} (prefix : string) (block : M state (HTTPException + A)) s :
  exists a, fst (guarded L prefix block s) = Ok a
            /\ (status_of a = 200%Z \/ status_of a = 500%Z).
Proof.
  unfold guarded. destruct (block s) as [[[e | a] | e] s1]; eexists; split;
    try reflexivity; cbn; tauto.
Qed.

(** X26. [mcp_respond_to_email] and [mcp_create_workflow] never answer
    400: the [HTTPException] the first raises for a missing content, and
    the one the second raises for a missing trigger id, are raised inside
    the [try] block whose handler catches every [Exception], so the client
    is answered 500, with the text of the 400 inside the detail. *)
Theorem missing_field_answered_500 (mcp_system : bool) (email_id : string)
    (response_data workflow_data : list (string * json)) s :
  (mcp_system = true ->
   Py.truthy (default (JStr "") (Py.assoc "content" response_data)) = false ->
   fst (mcp_respond_to_email L mcp_system email_id response_data s)
   = Ok (HTTPError 500
           ("Erro ao gerar resposta: "
            +:+ http_exception_str L 400 "Conteúdo da resposta é obrigatório")))
  /\ (mcp_system = true ->
      Py.truthy (default JNull (Py.assoc "trigger_email_id" workflow_data)) = false ->
      fst (mcp_create_workflow L E mcp_system workflow_data s)
      = Ok (HTTPError 500
              ("Erro ao criar workflow: "
               +:+ http_exception_str L 400 "ID do email disparador é obrigatório")))
  /\ (exists a, fst (mcp_respond_to_email L mcp_system email_id response_data s) = Ok a
                /\ status_of a <> 400%Z)
  /\ (exists a, fst (mcp_create_workflow L E mcp_system workflow_data s) = Ok a
                /\ status_of a <> 400%Z).
Proof.
  split; [| split; [| split]].
  - intros -> Hempty. unfold mcp_respond_to_email. cbn [negb]. rewrite Hempty. reflexivity.
  - intros -> Hempty. unfold mcp_create_workflow. cbn [negb]. rewrite Hempty. reflexivity.
  - unfold mcp_respond_to_email. destruct mcp_system; cbn [negb].
    + match goal with
      | |- context [guarded L ?p ?b s] =>
          destruct (guarded_status p b s) as (a & -> & [Ha | Ha])
      end; exists a; (split; [reflexivity | lia]).
    + eexists. split; [reflexivity | cbn; lia].
  - unfold mcp_create_workflow. destruct mcp_system; cbn [negb].
    + match goal with
      | |- context [guarded L ?p ?b s] =>
          destruct (guarded_status p b s) as (a & -> & [Ha | Ha])
      end; exists a; (split; [reflexivity | lia]).
    + eexists. split; [reflexivity | cbn; lia].
Qed.

Lemma find_detail_unknown (all_emails : list json) (email_id : string) :
  Forall (fun m => exists items,
            m = JDict items
            /\ eq_str (default JNull (Py.assoc "id" items)) email_id = false) all_emails ->
  find_detail L all_emails email_id = Ok None.
Proof.
  induction 1 as [|m rest (items & -> & Hid) _ IH]; [reflexivity |].
  cbn [find_detail Py.get mbind result_bind]. now rewrite Hid.
Qed.

(** X27. [mcp_get_email_detail] never answers 404: when none of the listed
    messages carries the id, the [HTTPException] with status 404 is raised
    inside the [try] block and its handler answers 500, with the text of
    the 404 inside the detail. *)
Theorem unknown_id_answered_500 (mcp_system : bool) (email_id : string) s :
  (forall listed,
     mcp_system = true ->
     fst (get_received_emails E 1000 0 s) = Ok listed ->
     Forall (fun m => exists items,
               m = JDict items
               /\ eq_str (default JNull (Py.assoc "id" items)) email_id = false) listed ->
     fst (mcp_get_email_detail L E mcp_system email_id s)
     = Ok (HTTPError 500
             ("Erro ao buscar email: " +:+ http_exception_str L 404 "Email não encontrado")))
  /\ (exists a, fst (mcp_get_email_detail L E mcp_system email_id s) = Ok a
                /\ status_of a <> 404%Z).
Proof.
  split.
  - intros listed -> Hlisted Hnone. unfold mcp_get_email_detail. cbn [negb]. run_G.
    destruct (get_received_emails E 1000 0 s) as [[l | e] s1]; cbn [fst] in Hlisted;
      [| discriminate].
    injection Hlisted as ->. now rewrite (find_detail_unknown listed email_id Hnone).
  - unfold mcp_get_email_detail. destruct mcp_system; cbn [negb].
    + match goal with
      | |- context [guarded L ?p ?b s] =>
          destruct (guarded_status p b s) as (a & -> & [Ha | Ha])
      end; exists a; (split; [reflexivity | lia]).
    + eexists. split; [reflexivity | cbn; lia].
Qed.

Lemma normalize_listed_run (emails : list json) (wanted_category wanted_priority : option string)
    s :
  Forall is_dict emails ->
  exists tr,
    normalize_listed L emails wanted_category wanted_priority s
    = (Ok (flat_map (shown_as L wanted_category wanted_priority) emails),
       State (bucket s) (trace s ++ tr) (calls s)).
Proof.
  intros Hall. revert s. induction Hall as [|m rest [items ->] _ IH]; intros s.
  - exists []. cbn. rewrite app_nil_r. now destruct s.
  - cbn [normalize_listed flat_map]. unfold shown_as at 1.
    unfold normalize_email_for_llm, try_catch, logger_error, emit.
    unfold mbind at 1 2 3 4, M_bind at 1 2 3 4, lift at 1.
    destruct (summary_of L (JDict items)) as [normalized | e].
    + destruct (passes wanted_category (category normalized)),
               (passes wanted_priority (priority normalized)); cbn [andb];
        unfold mret at 1, M_ret at 1;
        destruct (IH s) as (tr & ->); exists tr; reflexivity.
    + unfold lift at 1. cbn [Py.get]. unfold lift, mbind, M_bind, mret, M_ret.
      match goal with
      | |- context [normalize_listed L rest _ _ ?s0] => destruct (IH s0) as (tr & ->)
      end.
      cbn [bucket trace calls]. eexists. rewrite <- !app_assoc. reflexivity.
Qed.

Lemma normalize_listed_raises (emails : list json)
    (wanted_category wanted_priority : option string) (bad : json) s :
  In bad emails -> ~ is_dict bad ->
  exists e, fst (normalize_listed L emails wanted_category wanted_priority s) = Raise e.
Proof.
  intros Hin Hbad. revert s. induction emails as [|m rest IH]; intros s; [destruct Hin |].
  cbn [normalize_listed]. unfold mbind at 1, M_bind at 1.
  match goal with
  | |- context [try_catch ?b ?h s] => destruct (try_catch b h s) as [[kept | e] s1] eqn:Hkept
  end; [| cbn; eauto].
  destruct Hin as [-> | Hin].
  - exfalso. revert Hkept.
    unfold normalize_email_for_llm, try_catch, logger_error, emit, summary_of.
    unfold mbind, M_bind, lift, mret, M_ret.
    destruct bad; try discriminate. destruct Hbad. now eexists.
  - unfold mbind, M_bind. destruct (IH Hin s1) as [e He].
    destruct (normalize_listed L rest wanted_category wanted_priority s1) as [[o | e'] s2];
      cbn [fst] in He; [discriminate | cbn; eauto].
Qed.

(** X28. [mcp_get_emails] shows, in the order of the listing, the summaries
    of the listed messages that can be normalised and pass the filters: a
    message record whose normalisation raises is left out and the others
    are still shown.  But one listed document that is not a dict makes the
    whole request answer 500, because the handler of the loop, which logs
    [email.get('id')], raises on it. *)
Theorem listing_shows_what_normalises (limit offset : Z)
    (wanted_category wanted_priority : option string) s (listed : list json) :
  fst (get_received_emails E limit offset s) = Ok listed ->
  (Forall is_dict listed ->
   exists summaries,
     fst (mcp_get_emails L E true limit offset wanted_category wanted_priority s)
     = Ok (Returned summaries)
     /\ summaries = flat_map (shown_as L wanted_category wanted_priority) listed
     /\ forall normalized,
          In normalized summaries <->
          exists email, In email listed /\ summary_of L email = Ok normalized
                        /\ passes wanted_category (category normalized) = true
                        /\ passes wanted_priority (priority normalized) = true)
  /\ (forall bad, In bad listed -> ~ is_dict bad ->
      exists text,
        fst (mcp_get_emails L E true limit offset wanted_category wanted_priority s)
        = Ok (HTTPError 500 text)).
Proof.
  intros Hlisted. unfold mcp_get_emails. cbn [negb]. run_G.
  destruct (get_received_emails E limit offset s) as [[l | e] s1]; cbn [fst] in Hlisted;
    [| discriminate].
  injection Hlisted as ->. split.
  - intros Hall.
    destruct (normalize_listed_run listed wanted_category wanted_priority s1 Hall)
      as (tr & ->).
    eexists. split; [reflexivity |]. split; [reflexivity |].
    intros normalized. rewrite in_flat_map. unfold shown_as. split.
    + intros (email & Hin & Hshown). exists email. split; [exact Hin |].
      destruct (summary_of L email) as [m | e]; [| destruct Hshown].
      destruct (passes wanted_category (category m)) eqn:Hc; [| destruct Hshown].
      destruct (passes wanted_priority (priority m)) eqn:Hp; [| destruct Hshown].
      destruct Hshown as [<- | []]. now repeat split.
    + intros (email & Hin & Hsum & Hc & Hp). exists email. split; [exact Hin |].
      rewrite Hsum, Hc, Hp. now left.
  - intros bad Hin Hbad.
    destruct (normalize_listed_raises listed wanted_category wanted_priority bad s1 Hin Hbad)
      as [e He].
    destruct (normalize_listed L listed wanted_category wanted_priority s1)
      as [[o | e'] s2]; cbn [fst] in He; [discriminate |].
    eexists. reflexivity.
Qed.

(** X29. [mcp_get_statistics] never answers 500: [get_statistics] returns
    a dict whatever the store does, so the handler of the endpoint is never
    entered; a store that cannot be listed is answered 200, with the error
    of the store under "error" beside the keys of the MCP layer. *)
Theorem statistics_never_500 s :
  exists items,
    fst (get_statistics E s) = Ok (JDict items)
    /\ fst (mcp_get_statistics L E true s)
       = Ok (Returned
               (JDict (items ++ [("mcp_endpoints_available", mcp_endpoints_available);
                                 ("llm_optimized", JBool true);
                                 ("normalized_data", JBool true);
                                 ("context_aware", JBool true)])))
    /\ forall e, list_objects_raises E (calls s) = Some e ->
                 items = [("error", JStr (exn_str e))].
Proof.
  pose proof (get_statistics_run E s) as Hrun.
  unfold mcp_get_statistics. cbn [negb]. run_G.
  destruct (list_objects_raises E (calls s)) as [e |].
  - destruct (get_statistics E s) as [[stats | e'] s1]; cbn [fst] in Hrun;
      [| discriminate].
    injection Hrun as ->. eexists. split; [reflexivity |]. split; [reflexivity |].
    now intros e0 [= <-].
  - destruct Hrun as (a & b & c & d & Hrun).
    destruct (get_statistics E s) as [[stats | e'] s1]; cbn [fst] in Hrun;
      [| discriminate].
    injection Hrun as ->. eexists. split; [reflexivity |]. split; [reflexivity |].
    intros e0. discriminate.
Qed.

Lemma take_prefix (n : nat) (s : string) : exists rest, s = Text.take n s +:+ rest.
Proof.
  revert n. induction s as [|c r IH]; intros n; [now exists "" |].
  cbn [Text.take]. destruct (Text.is_continuation c).
  - destruct (IH n) as [rest Hrest]. exists rest. cbn. now rewrite <- Hrest.
  - destruct n as [|m]; [now exists (String c r) |].
    destruct (IH m) as [rest Hrest]. exists rest. cbn. now rewrite <- Hrest.
Qed.

Lemma take_len (n : nat) (s : string) : Text.len (Text.take n s) <= n.
Proof.
  revert n. induction s as [|c r IH]; intros n; [cbn; lia |].
  cbn [Text.take]. destruct (Text.is_continuation c) eqn:Hc.
  - cbn [Text.len]. rewrite Hc. apply IH.
  - destruct n as [|m]; [cbn; lia |]. cbn [Text.len]. rewrite Hc.
    specialize (IH m). lia.
Qed.

Lemma take_all (n : nat) (s : string) : Text.len s <= n -> Text.take n s = s.
Proof.
  revert n. induction s as [|c r IH]; intros n; [reflexivity |].
  cbn [Text.take Text.len]. destruct (Text.is_continuation c).
  - intros H. now rewrite IH.
  - destruct n as [|m]; [lia |]. intros H. rewrite IH; [reflexivity | lia].
Qed.

Ltac bind_ok H :=
  repeat match type of H with
         | context [match ?r with Ok _ => _ | Raise _ => _ end] =>
             let E := fresh "Hstep" in
             destruct r eqn:E; [| discriminate H]
         end.

(** X30. [normalize_email_for_llm] needs a sender that is a dict: for any
    other sender it raises before a summary is made.  When it returns and
    the text of the message is a non-empty string, the preview is the start
    of the text, of at most 200 characters, and the whole text when that
    has no more; when the text and the HTML are both empty the preview is
    "Sem conteúdo". *)
Theorem summary_preview_and_sender (email_data : json) :
  (forall sender,
     Py.get email_data "from" (JDict []) = Ok sender -> ~ is_dict sender ->
     exists e, summary_of L email_data = Raise e)
  /\ (forall normalized text,
        summary_of L email_data = Ok normalized ->
        Py.get email_data "text" (JStr "") = Ok (JStr text) -> text <> "" ->
        exists preview rest,
          content_preview normalized = JStr preview
          /\ text = preview +:+ rest
          /\ Text.len preview <= 200
          /\ (Text.len text <= 200 -> preview = text))
  /\ (forall normalized,
        summary_of L email_data = Ok normalized ->
        Py.get email_data "text" (JStr "") = Ok (JStr "") ->
        Py.get email_data "html" (JStr "") = Ok (JStr "") ->
        content_preview normalized = JStr "Sem conteúdo").
Proof.
  split; [| split].
  - intros sender Hfrom Hnot. unfold summary_of. rewrite Hfrom.
    unfold mbind, result_bind.
    destruct (Py.get email_data "to" (JList [])); [| eauto].
    destruct sender; try (cbn; eauto). destruct Hnot. now eexists.
  - intros normalized text Hsum Htext Hne. unfold summary_of in Hsum.
    assert (Htruthy : Py.truthy (JStr text) = true).
    { cbn. destruct text; [congruence | reflexivity]. }
    rewrite Htext in Hsum. unfold construct, mbind, result_bind in Hsum. bind_ok Hsum.
    match goal with
    | Hs : (if Py.truthy (JStr text) then _ else _) = Ok _ |- _ =>
        rewrite Htruthy in Hs; cbn [first_200] in Hs; injection Hs as <-
    end.
    destruct (summary_raises L _); [discriminate Hsum |].
    injection Hsum as <-. cbn [content_preview].
    destruct (take_prefix 200 text) as [rest Hrest].
    exists (Text.take 200 text), rest. split; [reflexivity |]. split; [exact Hrest |].
    split; [apply take_len | apply take_all].
  - intros normalized Hsum Htext Hhtml. unfold summary_of in Hsum.
    rewrite Htext, Hhtml in Hsum. unfold construct, mbind, result_bind in Hsum.
    bind_ok Hsum.
    match goal with
    | Hs : (if Py.truthy (JStr "") then _ else _) = Ok _ |- _ =>
        cbn [Py.truthy String.eqb negb] in Hs; injection Hs as <-
    end.
    destruct (summary_raises L _); [discriminate Hsum |].
    injection Hsum as <-. reflexivity.
Qed.

End Endpoints.

Section EndpointCases.
Import Minio EmailReceiver Observed MCPServer.
Local Open Scope list_scope.

Lemma missing_field_answered_500_witness :
  fst (mcp_respond_to_email MCPCases.lenient true "m1" [("response_type", JStr "forward")]
         (Scenario.receiver_state []))
  = Ok (HTTPError 500
          "Erro ao gerar resposta: 400: Conteúdo da resposta é obrigatório").
Proof.
  apply (missing_field_answered_500 MCPCases.lenient Scenario.quiet true "m1"
           [("response_type", JStr "forward")] [] (Scenario.receiver_state []));
    reflexivity.
Defined.

Lemma unknown_id_answered_500_witness :
  fst (mcp_get_email_detail MCPCases.lenient Scenario.quiet true "m9"
         (Scenario.receiver_state Scenario.mixed_bucket))
  = Ok (HTTPError 500 "Erro ao buscar email: 404: Email não encontrado").
Proof.
  apply (unknown_id_answered_500 MCPCases.lenient Scenario.quiet true "m9"
           (Scenario.receiver_state Scenario.mixed_bucket)) with (listed := [Scenario.report]).
  - reflexivity.
  - vm_compute. reflexivity.
  - constructor; [| constructor]. eexists. split; [reflexivity | reflexivity].
Defined.

Lemma listing_shows_what_normalises_witness :
  exists summaries,
    fst (mcp_get_emails MCPCases.lenient Scenario.quiet true 50 0 None None
           (Scenario.receiver_state MCPCases.with_sender_list))
    = Ok (Returned summaries)
    /\ map id summaries = [JStr "m1"].
Proof.
  assert (Hlisted : fst (get_received_emails Scenario.quiet 50 0
                           (Scenario.receiver_state MCPCases.with_sender_list))
                    = Ok [Scenario.report; MCPCases.sender_list])
    by (vm_compute; reflexivity).
  destruct (listing_shows_what_normalises MCPCases.lenient Scenario.quiet 50 0 None None
              (Scenario.receiver_state MCPCases.with_sender_list)
              [Scenario.report; MCPCases.sender_list] Hlisted) as [Hshown _].
  destruct Hshown as (summaries & Hrun & -> & _).
  - repeat constructor; now eexists.
  - eexists. split; [exact Hrun |]. vm_compute. reflexivity.
Defined.

Lemma summary_preview_and_sender_witness :
  exists e, summary_of MCPCases.lenient MCPCases.sender_list = Raise e.
Proof.
  apply (summary_preview_and_sender MCPCases.lenient MCPCases.sender_list)
    with (sender := JList [JDict [("address", JStr "ann@example.com")]]).
  - reflexivity.
  - intros [items Hitems]. discriminate.
Defined.

End EndpointCases.
